(** * DevOpus generation pipeline: a shallow embedding and its checked properties

    The development follows [src/agent/graph.py] and [src/app.py]:

    - Python [str] values are Rocq [string]s.  A string is read as the UTF-8
      bytes of the Python text: [strip] removes every character of
      [str.isspace], the ones outside the ASCII range by their UTF-8 bytes,
      and a slice counts characters, not bytes.  [lower] acts on the ASCII
      range, which is where the entry point names it is compared with live.
    - A Python [dict] with string keys is a [gmap string _]; a JSON value
      returned by [json.loads] is the inductive [json].
    - Exceptions are values of [exn]; a function that performs model calls or
      yields stream events is a computation in the [Run] monad, whose log
      records every model call and every yielded event in program order.
    - [json.loads] has three ways to fail: a decode error, the [ValueError]
      of an integer literal with more digits than the interpreter converts,
      and the [RecursionError] of nesting deeper than it allows.
    - Everything a run calls outside the pipeline code (the model clients,
      attachment pre-processing, the display formatters, the database
      module) is gathered in a [World] of outcome functions, together with
      the two limits of the interpreter. *)

From Stdlib Require Import Ascii String ZArith NArith Lia DecimalString.
From stdpp Require Import base option list gmap strings fin_maps.

Set Warnings "-register-all,-clear-no-such-hyp".

Local Open Scope string_scope.

(** ** Python string primitives *)

Module PyStr.

(** [c.isspace()] for a character of the ASCII range: TAB..CR, FS..US and
    the blank. *)
Definition is_space (c : ascii) : bool :=
  let n := N_of_ascii c in
  ((9 <=? n) && (n <=? 13) || (28 <=? n) && (n <=? 32))%N.

(** The other characters [str.isspace] holds for, by their UTF-8 bytes:
    U+0085 and U+00A0 take two bytes; U+1680, U+2000..U+200A, U+2028,
    U+2029, U+202F, U+205F and U+3000 take three. *)
Definition is_space2 (a b : ascii) : bool :=
  let x := N_of_ascii a in
  let y := N_of_ascii b in
  ((x =? 194) && ((y =? 133) || (y =? 160)))%N.

Definition is_space3 (a b c : ascii) : bool :=
  let x := N_of_ascii a in
  let y := N_of_ascii b in
  let z := N_of_ascii c in
  ((x =? 225) && (y =? 154) && (z =? 128)
   || (x =? 226) && (y =? 128)
      && ((128 <=? z) && (z <=? 138) || (z =? 168) || (z =? 169) || (z =? 175))
   || (x =? 226) && (y =? 129) && (z =? 159)
   || (x =? 227) && (y =? 128) && (z =? 128))%N.

(** [c.lower()] for one character. *)
Definition lower_char (c : ascii) : ascii :=
  let n := N_of_ascii c in
  if ((65 <=? n) && (n <=? 90))%N then ascii_of_N (n + 32) else c.

(** [s.lower()] *)
Fixpoint lower (s : string) : string :=
  match s with
  | EmptyString => EmptyString
  | String c r => String (lower_char c) (lower r)
  end.

(** [s.lstrip()] *)
Fixpoint lstrip (s : string) : string :=
  match s with
  | EmptyString => EmptyString
  | String a r1 =>
      if is_space a then lstrip r1
      else
        match r1 with
        | String b r2 =>
            if is_space2 a b then lstrip r2
            else
              match r2 with
              | String c r3 => if is_space3 a b c then lstrip r3 else s
              | EmptyString => s
              end
        | EmptyString => s
        end
  end.

(** [s] is empty or [s.isspace()]: [lstrip] leaves nothing of it. *)
Definition blank (s : string) : bool :=
  match lstrip s with EmptyString => true | _ => false end.

(** [s.rstrip()]: what is removed is the longest blank suffix. *)
Fixpoint rstrip (s : string) : string :=
  match s with
  | EmptyString => EmptyString
  | String c r => if blank s then EmptyString else String c (rstrip r)
  end.

(** [s.strip()] *)
Definition strip (s : string) : string := rstrip (lstrip s).

(** [s.startswith(p)] *)
Fixpoint startswith (p s : string) : bool :=
  match p, s with
  | EmptyString, _ => true
  | String a p', String b s' => if Ascii.eqb a b then startswith p' s' else false
  | String _ _, EmptyString => false
  end.

(** [s.split('\n')]: always at least one piece. *)
Fixpoint split_lines (s : string) : list string :=
  match s with
  | EmptyString => [EmptyString]
  | String c r =>
      if Ascii.eqb c "010"%char then EmptyString :: split_lines r
      else match split_lines r with
           | l :: ls => String c l :: ls
           | [] => [String c EmptyString]
           end
  end.

(** ['\n'.join(ls)] *)
Fixpoint join_lines (ls : list string) : string :=
  match ls with
  | [] => EmptyString
  | [l] => l
  | l :: ls' => l ++ String "010"%char (join_lines ls')
  end.

(** A byte that continues a UTF-8 character. *)
Definition is_continuation (c : ascii) : bool :=
  let n := N_of_ascii c in ((128 <=? n) && (n <? 192))%N.

(** [s[:n]]: the first [n] characters, each with the bytes that continue
    it. *)
Fixpoint take (n : nat) (s : string) : string :=
  match s with
  | EmptyString => EmptyString
  | String c r =>
      if is_continuation c then String c (take n r)
      else
        match n with
        | O => EmptyString
        | S n' => String c (take n' r)
        end
  end.

(** [p in s] for strings: [p] occurs in [s] as a contiguous piece. *)
Definition occurs_in (p s : string) : Prop :=
  ∃ a b : string, s = a ++ p ++ b.

(** The same test as a function. *)
Fixpoint contains (p s : string) : bool :=
  startswith p s ||
  match s with
  | EmptyString => false
  | String _ r => contains p r
  end.

(** Truthiness of a string: [bool(s)]. *)
Definition truthy (s : string) : bool :=
  match s with EmptyString => false | _ => true end.

End PyStr.

(** ** The regular expression [\{[\s\S]*\}] *)

Module Re.

(** The longest prefix of [s] that ends with a closing brace. *)
Fixpoint upto_last_close (s : string) : option string :=
  match s with
  | EmptyString => None
  | String c r =>
      match upto_last_close r with
      | Some m => Some (String c m)
      | None => if Ascii.eqb c "}"%char then Some (String c EmptyString) else None
      end
  end.

(** [re.search(r'\{[\s\S]*\}', s)] followed by [.group(0)]: the leftmost
    opening brace that has a closing brace after it, through the last closing
    brace of the text (the star is greedy). *)
Fixpoint search_braces (s : string) : option string :=
  match s with
  | EmptyString => None
  | String c r =>
      if Ascii.eqb c "{"%char then
        match upto_last_close r with
        | Some m => Some (String c m)
        | None => search_braces r
        end
      else search_braces r
  end.

End Re.

(** ** JSON values and [json.loads] *)

Module Json.

(** What [json.loads] returns.  An integer literal becomes [JInt]; a literal
    with a fraction or an exponent, and the constants [NaN], [Infinity] and
    [-Infinity], stay as their text in [JFloat].  An object is a [dict]. *)
Inductive json : Type :=
| JNull
| JBool (b : bool)
| JInt (z : Z)
| JFloat (lexeme : string)
| JStr (s : string)
| JArr (items : list json)
| JObj (members : gmap string json).

(** How the decoder fails: with [json.JSONDecodeError] on a text that is not
    a JSON document, with the [ValueError] of [int] on an integer literal of
    more digits than the interpreter converts, with [RecursionError] on
    entering an object or an array below the depth the interpreter allows. *)
Inductive error : Type :=
| Malformed
| TooManyDigits (digits : nat)
| TooDeep (in_object : bool).

Inductive scan (A : Type) : Type :=
| Scanned (a : A)
| Failed (e : error).
Arguments Scanned {A} a.
Arguments Failed {A} e.

(** The decoder's whitespace: blank, TAB, LF, CR. *)
Definition is_ws (c : ascii) : bool :=
  let n := N_of_ascii c in
  ((n =? 32) || (n =? 9) || (n =? 10) || (n =? 13))%N.

Fixpoint skip_ws (s : string) : string :=
  match s with
  | String c r => if is_ws c then skip_ws r else s
  | EmptyString => s
  end.

Definition is_digit (c : ascii) : bool :=
  let n := N_of_ascii c in ((48 <=? n) && (n <=? 57))%N.

(** The longest run of digits at the head of [s], and what follows it. *)
Fixpoint span_digits (s : string) : string * string :=
  match s with
  | String c r =>
      if is_digit c then let '(d, r') := span_digits r in (String c d, r')
      else (EmptyString, s)
  | EmptyString => (EmptyString, EmptyString)
  end.

(** [int(digits)] for a run of decimal digits, most significant first. *)
Fixpoint digits_value (acc : Z) (d : string) : Z :=
  match d with
  | String c r => digits_value (10 * acc + (Z.of_N (N_of_ascii c) - 48)) r
  | EmptyString => acc
  end.

(** [int] refuses a literal of [digits] digits when that is over 640, the
    threshold below which it never looks at the limit, and over the limit
    [max_str_digits]; the limit 0 means none. *)
Definition over_limit (max_str_digits digits : nat) : bool :=
  ((640 <? digits) && (0 <? max_str_digits) && (max_str_digits <? digits))%nat.

(** The decoder's number pattern: an optional minus sign, then 0 or a digit
    run that does not start with 0; then, each optional, a point with at
    least one digit and an exponent mark e or E with an optional sign and at
    least one digit.  A literal without the optional parts goes through
    [int]. *)
Definition scan_number (max_str_digits : nat) (s : string) : scan (json * string) :=
  let '(neg, s1) :=
    match s with
    | String "-"%char r => (true, r)
    | _ => (false, s)
    end in
  let int_part : option (string * string) :=
    match s1 with
    | String c r =>
        if Ascii.eqb c "0"%char then Some (String c EmptyString, r)
        else if is_digit c then
          let '(d, r') := span_digits r in Some (String c d, r')
        else None
    | EmptyString => None
    end in
  match int_part with
  | None => Failed Malformed
  | Some (ip, s2) =>
      let '(frac, s3) :=
        match s2 with
        | String "."%char r =>
            match span_digits r with
            | (EmptyString, _) => (EmptyString, s2)
            | (d, r') => (String "."%char d, r')
            end
        | _ => (EmptyString, s2)
        end in
      let '(ex, s4) :=
        match s3 with
        | String e r =>
            if Ascii.eqb e "e"%char || Ascii.eqb e "E"%char then
              let '(sg, r1) :=
                match r with
                | String g r0 =>
                    if Ascii.eqb g "+"%char || Ascii.eqb g "-"%char
                    then (String g EmptyString, r0) else (EmptyString, r)
                | EmptyString => (EmptyString, r)
                end in
              match span_digits r1 with
              | (EmptyString, _) => (EmptyString, s3)
              | (d, r') => (String e (sg ++ d), r')
              end
            else (EmptyString, s3)
        | EmptyString => (EmptyString, s3)
        end in
      let sign := if neg then "-" else EmptyString in
      match frac, ex with
      | EmptyString, EmptyString =>
          if over_limit max_str_digits (String.length ip)
          then Failed (TooManyDigits (String.length ip))
          else Scanned (JInt (if neg then - digits_value 0 ip else digits_value 0 ip), s4)
      | _, _ => Scanned (JFloat (sign ++ ip ++ frac ++ ex), s4)
      end
  end.

(** One hexadecimal digit. *)
Definition hex_value (c : ascii) : option N :=
  let n := N_of_ascii c in
  if ((48 <=? n) && (n <=? 57))%N then Some (n - 48)%N
  else if ((97 <=? n) && (n <=? 102))%N then Some (n - 87)%N
  else if ((65 <=? n) && (n <=? 70))%N then Some (n - 55)%N
  else None.

(** The four hexadecimal digits of a [\uXXXX] escape. *)
Definition decode_uXXXX (s : string) : option (N * string) :=
  match s with
  | String a (String b (String c (String d r))) =>
      match hex_value a, hex_value b, hex_value c, hex_value d with
      | Some x, Some y, Some z, Some w => Some (((x * 16 + y) * 16 + z) * 16 + w, r)%N
      | _, _, _, _ => None
      end
  | _ => None
  end.

(** [chr(u)], as UTF-8 bytes. *)
Definition chr (u : N) : string :=
  let b (n : N) := ascii_of_N n in
  let cont (n : N) := b (128 + n mod 64)%N in
  if (u <? 128)%N then String (b u) EmptyString
  else if (u <? 2048)%N then String (b (192 + u / 64)%N) (String (cont u) EmptyString)
  else if (u <? 65536)%N then
    String (b (224 + u / 4096)%N) (String (cont (u / 64)%N) (String (cont u) EmptyString))
  else
    String (b (240 + u / 262144)%N)
      (String (cont (u / 4096)%N) (String (cont (u / 64)%N) (String (cont u) EmptyString))).

(** The single-character escapes of the decoder's [BACKSLASH] table. *)
Definition backslash (c : ascii) : option ascii :=
  let n := N_of_ascii c in
  if (n =? 34)%N then Some c            (* quote *)
  else if (n =? 92)%N then Some c       (* backslash *)
  else if (n =? 47)%N then Some c       (* slash *)
  else if (n =? 98)%N then Some "008"%char   (* b *)
  else if (n =? 102)%N then Some "012"%char  (* f *)
  else if (n =? 110)%N then Some "010"%char  (* n *)
  else if (n =? 114)%N then Some "013"%char  (* r *)
  else if (n =? 116)%N then Some "009"%char  (* t *)
  else None.

(** [scanstring] in strict mode, entered just after the opening quote: the
    decoded text and what follows the closing quote.  A high surrogate
    followed by a low surrogate escape is joined into one code point. *)
Fixpoint scanstring (fuel : nat) (s : string) : option (string * string) :=
  match fuel with
  | O => None
  | S fuel' =>
      match s with
      | EmptyString => None
      | String c r =>
          let n := N_of_ascii c in
          if (n =? 34)%N then Some (EmptyString, r)
          else if (n =? 92)%N then
            match r with
            | EmptyString => None
            | String e r1 =>
                if Ascii.eqb e "u"%char then
                  match decode_uXXXX r1 with
                  | None => None
                  | Some (uni, r2) =>
                      let '(uni', r3) :=
                        if ((55296 <=? uni) && (uni <=? 56319))%N then
                          match r2 with
                          | String "\"%char (String "u"%char r4) =>
                              match decode_uXXXX r4 with
                              | Some (uni2, r5) =>
                                  if ((56320 <=? uni2) && (uni2 <=? 57343))%N
                                  then (65536 + ((uni - 55296) * 1024 + (uni2 - 56320)), r5)%N
                                  else (uni, r2)
                              | None => (uni, r2)
                              end
                          | _ => (uni, r2)
                          end
                        else (uni, r2) in
                      match scanstring fuel' r3 with
                      | Some (t, rest) => Some (chr uni' ++ t, rest)
                      | None => None
                      end
                  end
                else
                  match backslash e with
                  | None => None
                  | Some ch =>
                      match scanstring fuel' r1 with
                      | Some (t, rest) => Some (String ch t, rest)
                      | None => None
                      end
                  end
            end
          else if (n <? 32)%N then None
          else
            match scanstring fuel' r with
            | Some (t, rest) => Some (String c t, rest)
            | None => None
            end
      end
  end.

(** Does [s] start with the word [w]?  Then what follows it. *)
Fixpoint eat (w s : string) : option string :=
  match w, s with
  | EmptyString, _ => Some s
  | String a w', String b s' => if Ascii.eqb a b then eat w' s' else None
  | String _ _, EmptyString => None
  end.

(** [scan_once], with [JSONObject] and [JSONArray]: one value at the head of
    [s], and the rest of the text.  [depth] is the number of objects and
    arrays that can still be entered, one inside the other.  The fuel bounds
    the depth of the calls: each call below has consumed at least one
    character and costs at most two units, so twice the length of the text
    is enough. *)
Fixpoint scan_once (fuel depth max_str_digits : nat) (s : string)
  : scan (json * string) :=
  match fuel with
  | O => Failed Malformed
  | S fuel' =>
      match s with
      | EmptyString => Failed Malformed
      | String c r =>
          if Ascii.eqb c "034"%char then
            match scanstring (S (String.length r)) r with
            | Some (t, rest) => Scanned (JStr t, rest)
            | None => Failed Malformed
            end
          else if Ascii.eqb c "{"%char then
            match depth with
            | O => Failed (TooDeep true)
            | S depth' =>
                match skip_ws r with
                | String "}"%char rest => Scanned (JObj ∅, rest)
                | String "034"%char r1 =>
                    match scan_members fuel' depth' max_str_digits ∅ r1 with
                    | Scanned (m, rest) => Scanned (JObj m, rest)
                    | Failed e => Failed e
                    end
                | _ => Failed Malformed
                end
            end
          else if Ascii.eqb c "["%char then
            match depth with
            | O => Failed (TooDeep false)
            | S depth' =>
                match skip_ws r with
                | String "]"%char rest => Scanned (JArr [], rest)
                | r1 =>
                    match scan_items fuel' depth' max_str_digits [] r1 with
                    | Scanned (l, rest) => Scanned (JArr l, rest)
                    | Failed e => Failed e
                    end
                end
            end
          else
            match eat "null" s, eat "true" s, eat "false" s with
            | Some rest, _, _ => Scanned (JNull, rest)
            | _, Some rest, _ => Scanned (JBool true, rest)
            | _, _, Some rest => Scanned (JBool false, rest)
            | None, None, None =>
                match scan_number max_str_digits s with
                | Scanned res => Scanned res
                | Failed Malformed =>
                    match eat "NaN" s, eat "Infinity" s, eat "-Infinity" s with
                    | Some rest, _, _ => Scanned (JFloat "NaN", rest)
                    | _, Some rest, _ => Scanned (JFloat "Infinity", rest)
                    | _, _, Some rest => Scanned (JFloat "-Infinity", rest)
                    | None, None, None => Failed Malformed
                    end
                | Failed e => Failed e
                end
            end
      end
  end

(** The member loop of [JSONObject], entered just after the opening quote of
    a key; [acc] is the dict built so far (a repeated key keeps the last
    value). *)
with scan_members (fuel depth max_str_digits : nat) (acc : gmap string json)
    (s : string) : scan (gmap string json * string) :=
  match fuel with
  | O => Failed Malformed
  | S fuel' =>
      match scanstring (S (String.length s)) s with
      | None => Failed Malformed
      | Some (key, r) =>
          match skip_ws r with
          | String ":"%char r1 =>
              match scan_once fuel' depth max_str_digits (skip_ws r1) with
              | Failed e => Failed e
              | Scanned (v, r2) =>
                  let acc' := <[key := v]> acc in
                  match skip_ws r2 with
                  | String "}"%char rest => Scanned (acc', rest)
                  | String ","%char r3 =>
                      match skip_ws r3 with
                      | String "034"%char r4 =>
                          scan_members fuel' depth max_str_digits acc' r4
                      | _ => Failed Malformed
                      end
                  | _ => Failed Malformed
                  end
              end
          | _ => Failed Malformed
          end
      end
  end

(** The item loop of [JSONArray]; [acc] holds the items read so far, last
    first. *)
with scan_items (fuel depth max_str_digits : nat) (acc : list json) (s : string)
  : scan (list json * string) :=
  match fuel with
  | O => Failed Malformed
  | S fuel' =>
      match scan_once fuel' depth max_str_digits s with
      | Failed e => Failed e
      | Scanned (v, r) =>
          match skip_ws r with
          | String "]"%char rest => Scanned (rev (v :: acc), rest)
          | String ","%char r1 =>
              scan_items fuel' depth max_str_digits (v :: acc) (skip_ws r1)
          | _ => Failed Malformed
          end
      end
  end.

(** [JSONDecoder.decode(s)]: leading whitespace, one value, trailing
    whitespace and nothing else. *)
Definition decode (depth max_str_digits : nat) (s : string) : scan json :=
  match scan_once (2 * String.length s + 2) depth max_str_digits (skip_ws s) with
  | Scanned (v, rest) =>
      match skip_ws rest with
      | EmptyString => Scanned v
      | _ => Failed Malformed
      end
  | Failed e => Failed e
  end.

End Json.

Import Json.

(** The double quote, for writing JSON texts. *)
Definition dq : string := String "034"%char EmptyString.

(** ** Exceptions and results *)

(** The exceptions a run can see.  [str_exn] is Python's [str(e)]. *)
Inductive exn : Type :=
| ValueError (msg : string)
| JSONDecodeError (msg : string)
| RecursionError (msg : string)
| TypeError (msg : string)
| AttributeError (msg : string)
| ValidationError (msg : string)
| ExternalError (msg : string).

Definition str_exn (e : exn) : string :=
  match e with
  | ValueError m | JSONDecodeError m | RecursionError m | TypeError m
  | AttributeError m | ValidationError m | ExternalError m => m
  end.

Inductive result (A : Type) : Type :=
| Ok (a : A)
| Raise (e : exn).
Arguments Ok {A} a.
Arguments Raise {A} e.

(** ** Data of the pipeline ([src/agent/states.py], [src/app.py]) *)

Record File := { path : string; purpose : string }.

Record Plan := {
  name : string;
  description : string;
  techstack : string;
  features : list string;
  files : list File
}.

Record ImplementationTask := { filepath : string; task_description : string }.

(** [TaskPlan] allows extra fields; the only one the code sets is [plan]. *)
Record TaskPlan := {
  architecture_diagram : string;
  implementation_steps : list ImplementationTask;
  plan : option Plan
}.

Record Attachment := {
  att_name : string; att_type : string; att_data : string; att_mimeType : string
}.

Record MultimodalResult := {
  text : string;
  image_data : option string;
  image_mime_type : option string
}.

(** The arguments a prompt template is filled with.  A model sees them only
    through the prompt, so a model's answer is a function of this value. *)
Inductive prompt : Type :=
| planner_prompt (user_prompt : string) (image_asset_url : option string)
    (image : option (string * string))
| architect_prompt (plan : Plan)
| coder_task_prompt (task_plan : TaskPlan) (image_asset_url : option string)
| coder_followup_prompt (modification_request current_code review_feedback : string)
    (image_asset_url : option string)
| reviewer_prompt (user_prompt plan architecture : string)
    (code_files : gmap string json).

Inductive model : Type := planner_llm | architect_llm | coder_llm | reviewer_llm.

(** The [stage] field of a stream event. *)
Inductive stage : Type :=
| planning | plan_complete | architecting | architect_complete
| coding | coding_complete | reviewing | complete
| saved | save_error | error | modifying.

#[global] Instance stage_eq_dec : EqDecision stage.
Proof. solve_decision. Defined.

(** One stream event: the dict that is dumped after [data: ]. *)
Record event := { ev_stage : stage; ev_fields : list (string * json) }.

(** What a run does that the outside can observe, in program order. *)
Inductive effect : Type :=
| Invoke (m : model) (p : prompt)
| Yield (e : event).

(** ** The monad of runs: a log of effects and a result or an exception *)

Definition Run (A : Type) : Type := list effect * result A.

Definition run_ret {A} (a : A) : Run A := ([], Ok a).

Definition run_bind {A B} (c : Run A) (k : A → Run B) : Run B :=
  match c with
  | (l, Ok a) => let '(l', r) := k a in ((l ++ l')%list, r)
  | (l, Raise e) => (l, Raise e)
  end.

#[global] Instance Run_ret : MRet Run := @run_ret.
#[global] Instance Run_bind : MBind Run := λ A B k c, run_bind c k.

(** [raise e] *)
Definition raise {A} (e : exn) : Run A := ([], Raise e).

(** [try: c  except Exception as e: h e] *)
Definition try_except {A} (c : Run A) (h : exn → Run A) : Run A :=
  match c with
  | (l, Ok a) => (l, Ok a)
  | (l, Raise e) => let '(l', r) := h e in ((l ++ l')%list, r)
  end.

(** A call that has no effect of its own: its outcome is returned or raised. *)
Definition lift {A} (r : result A) : Run A := ([], r).

(** [yield] of one event. *)
Definition yield (s : stage) (fields : list (string * json)) : Run unit :=
  ([Yield {| ev_stage := s; ev_fields := fields |}], Ok tt).

(** The log and the outcome of a run. *)
Definition log {A} (c : Run A) : list effect := fst c.
Definition outcome {A} (c : Run A) : result A := snd c.

(** The events a run yields, and their stages, in order. *)
Definition events {A} (c : Run A) : list event :=
  omap (λ x, match x with Yield e => Some e | Invoke _ _ => None end) (log c).
Definition stages {A} (c : Run A) : list stage := ev_stage <$> events c.

(** The models a run calls, in order. *)
Definition model_calls {A} (c : Run A) : list model :=
  omap (λ x, match x with Invoke m _ => Some m | Yield _ => None end) (log c).

(** ** The collaborators *)

(** What a run calls outside the repository's pipeline code: attachment
    pre-processing, the model clients, the two display formatters and the
    database module; and the two limits of the interpreter that [json.loads]
    runs under.  Each field is the outcome of the call for its arguments. *)
Record World := {
  process_multimodal_input : string → option Attachment → result MultimodalResult;
  (* [llm.with_structured_output(Plan).invoke(...)], [None] for no answer *)
  invoke_plan : prompt → result (option Plan);
  (* [llm.with_structured_output(TaskPlan).invoke(...)] *)
  invoke_task_plan : prompt → result (option TaskPlan);
  (* [llm.invoke(...).content] *)
  invoke_text : model → prompt → result string;
  (* [str(e)] of the [json.JSONDecodeError] raised for a rejected document *)
  json_error_text : string → string;
  (* how many objects and arrays, one inside the other, [json.loads] can
     enter before the interpreter's recursion limit is reached; taken to be
     the same at each call of the pipeline *)
  json_depth_limit : nat;
  (* [sys.get_int_max_str_digits()] *)
  int_max_str_digits : nat;
  format_plan_as_text : Plan → string;
  format_architect_as_text : TaskPlan → string;
  (* [database.is_configured()] *)
  is_configured : bool;
  (* [database.create_project(user_id, name, description).get('id')] *)
  create_project : string → string → string → result (option string);
  (* [database.supabase.table("projects").update(row).eq("id", id).execute()] *)
  update_project : string → list (string * json) → result unit;
  (* [database.save_version(project_id=..., ...)] *)
  save_version : string → list (string * json) → result unit;
  (* [database.get_project_with_code(project_id)] *)
  get_project_with_code : string → result json
}.

Section Pipeline.

Context (w : World).

(** A model call: logged, then its outcome. *)
Definition call_plan (p : prompt) : Run (option Plan) :=
  ([Invoke planner_llm p], invoke_plan w p).
Definition call_task_plan (p : prompt) : Run (option TaskPlan) :=
  ([Invoke architect_llm p], invoke_task_plan w p).
Definition call_text (m : model) (p : prompt) : Run string :=
  ([Invoke m p], invoke_text w m p).

(** ** [json.loads] *)

(** [str(n)] for a natural number. *)
Definition str_nat (n : nat) : string := NilZero.string_of_uint (Nat.to_uint n).

(** [json.loads(s)] under the limits of the interpreter. *)
Definition loads (s : string) : result json :=
  match Json.decode (json_depth_limit w) (int_max_str_digits w) s with
  | Scanned v => Ok v
  | Failed Malformed => Raise (JSONDecodeError (json_error_text w s))
  | Failed (TooManyDigits digits) =>
      Raise (ValueError
        ("Exceeds the limit (" ++ str_nat (int_max_str_digits w)
         ++ " digits) for integer string conversion: value has "
         ++ str_nat digits
         ++ " digits; use sys.set_int_max_str_digits() to increase the limit"))
  | Failed (TooDeep in_object) =>
      Raise (RecursionError
        ("maximum recursion depth exceeded while decoding a JSON "
         ++ (if in_object then "object" else "array")
         ++ " from a unicode string"))
  end.

(** ** Python operations on a decoded JSON value *)

Definition py_type_name (v : json) : string :=
  match v with
  | JNull => "NoneType" | JBool _ => "bool" | JInt _ => "int"
  | JFloat _ => "float" | JStr _ => "str" | JArr _ => "list" | JObj _ => "dict"
  end.

(** [v.attr] for a dict method [attr]: the dict, or [AttributeError]. *)
Definition as_dict (attr : string) (v : json) : result (gmap string json) :=
  match v with
  | JObj m => Ok m
  | _ => Raise (AttributeError
           ("'" ++ py_type_name v ++ "' object has no attribute '" ++ attr ++ "'"))
  end.

(** ["files" in v] *)
Definition files_in (v : json) : result bool :=
  match v with
  | JObj m => Ok (bool_decide (is_Some (m !! "files")))
  | JArr l => Ok (existsb (λ x, match x with JStr s => String.eqb s "files" | _ => false end) l)
  | JStr s => Ok (PyStr.contains "files" s)
  | _ => Raise (TypeError ("argument of type '" ++ py_type_name v ++ "' is not iterable"))
  end.

(** [v["files"]] when ["files" in v] holds. *)
Definition files_item (v : json) : result json :=
  match v with
  | JObj m => match m !! "files" with
              | Some f => Ok f
              | None => Raise (ExternalError "KeyError: 'files'")
              end
  | JArr _ => Raise (TypeError "list indices must be integers or slices, not str")
  | _ => Raise (TypeError "string indices must be integers, not 'str'")
  end.

(** Truthiness of a decoded value. *)
Definition float_is_zero (lexeme : string) : bool :=
  (fix go (s : string) : bool :=
     match s with
     | EmptyString => true
     | String c r =>
         if Ascii.eqb c "e"%char || Ascii.eqb c "E"%char then true
         else if Ascii.eqb c "N"%char || Ascii.eqb c "I"%char then false
         else if Ascii.eqb c "0"%char || Ascii.eqb c "."%char || Ascii.eqb c "-"%char
         then go r else false
     end) lexeme.

Definition json_truthy (v : json) : bool :=
  match v with
  | JNull => false
  | JBool b => b
  | JInt z => negb (z =? 0)%Z
  | JFloat l => negb (float_is_zero l)
  | JStr s => PyStr.truthy s
  | JArr l => match l with [] => false | _ => true end
  | JObj m => negb (bool_decide (m = ∅))
  end.

(** Truthiness of an [Optional[str]]. *)
Definition opt_truthy (o : option string) : bool :=
  match o with Some s => PyStr.truthy s | None => false end.

(** ** The blocks the three coder functions share *)

(** The opening and closing fence of a code block. *)
Definition fence : string := "```".

(** [graph.py] 116-128, [app.py] 180-190 and 473-483: strip the text; when it
    starts with a fence, drop the first line and every line that is only a
    fence. *)
Definition clean_response (response_text : string) : string :=
  let cleaned_text := PyStr.strip response_text in
  if PyStr.startswith fence cleaned_text then
    let lines := PyStr.split_lines cleaned_text in
    let json_lines :=
      filter (λ line, PyStr.strip line ≠ fence) (tail lines) in
    PyStr.join_lines json_lines
  else cleaned_text.

(** [graph.py] 131-142: parse, else salvage the brace span, else fail with a
    preview of the cleaned text.  [except json.JSONDecodeError] lets every
    other exception of [json.loads] through. *)
Definition parse_generated_data_graph (cleaned_text : string) : result json :=
  match loads cleaned_text with
  | Ok generated_data => Ok generated_data
  | Raise (JSONDecodeError _) =>
      match Re.search_braces cleaned_text with
      | Some group0 =>
          match loads group0 with
          | Ok generated_data => Ok generated_data
          | Raise (JSONDecodeError e) =>
              Raise (ValueError ("Could not parse JSON: " ++ e
                       ++ String "010"%char "Response preview: "
                       ++ PyStr.take 500 cleaned_text))
          | Raise e => Raise e
          end
      | None =>
          Raise (ValueError ("No JSON object found in coder response: "
                   ++ PyStr.take 500 cleaned_text))
      end
  | Raise e => Raise e
  end.

(** [app.py] 192-202 and 485-495: the same layers, with shorter messages. *)
Definition parse_generated_data_app (cleaned_text : string) : result json :=
  match loads cleaned_text with
  | Ok generated_data => Ok generated_data
  | Raise (JSONDecodeError _) =>
      match Re.search_braces cleaned_text with
      | Some group0 =>
          match loads group0 with
          | Ok generated_data => Ok generated_data
          | Raise (JSONDecodeError e) =>
              Raise (ValueError ("Could not parse JSON: " ++ e))
          | Raise e => Raise e
          end
      | None => Raise (ValueError "No JSON object found in coder response")
      end
  | Raise e => Raise e
  end.

(** [if "files" in generated_data: generated_data["files"] else generated_data] *)
Definition select_files (generated_data : json) : result json :=
  match files_in generated_data with
  | Raise e => Raise e
  | Ok true => files_item generated_data
  | Ok false => Ok generated_data
  end.

(** The alternate entry points that must not stay beside [/App.tsx]. *)
Definition denylist : list string := ["/app.js"; "/app.jsx"; "app.js"; "app.jsx"].

(** [path.lower() in ['/app.js', '/app.jsx', 'app.js', 'app.jsx']] *)
Definition conflicting (path : string) : bool :=
  bool_decide (PyStr.lower path ∈ denylist).

(** The first loop of [graph.py] 153-158 and [app.py] 210-214. *)
Definition files_to_remove {V} (files_dict : gmap string V) : list string :=
  filter (λ path, conflicting path = true) (map fst (map_to_list files_dict)).

(** Both loops: collect the conflicting paths, then [del] each of them. *)
Definition remove_conflicting {V} (files_dict : gmap string V) : gmap string V :=
  foldl (λ d path, delete path d) files_dict (files_to_remove files_dict).

Definition is_str (v : json) : bool :=
  match v with JStr _ => true | _ => false end.

(** [GeneratedProject(files=files_dict)]: the field is [dict[str, str]], so
    every content must be a string.  The text of the validation report is
    not modelled beyond its first words. *)
Definition GeneratedProject (files_dict : gmap string json) : result (gmap string string) :=
  if bool_decide (map_Forall (λ _ v, is_str v) files_dict) then
    Ok (omap (λ v, match v with JStr s => Some s | _ => None end) files_dict)
  else Raise (ValidationError "validation error for GeneratedProject").

(** Calls whose outcome is a [result], chained. *)
#[global] Instance result_ret : MRet result := @Ok.
#[global] Instance result_bind : MBind result := λ A B k r,
  match r with Ok a => k a | Raise e => Raise e end.

Definition message (s : string) : list (string * json) := [("message", JStr s)].

(** ** [src/agent/graph.py] *)

(** [planner_agent] on a state without image data, as [/generate] builds it. *)
Definition planner_agent (user_prompt : string) : Run Plan :=
  resp ← call_plan (planner_prompt user_prompt None None);
  match resp with
  | None => raise (ValueError "Planner did not return a valid response.")
  | Some resp => mret resp
  end.

Definition architect_agent (plan0 : Plan) : Run TaskPlan :=
  resp ← call_task_plan (architect_prompt plan0);
  match resp with
  | None => raise (ValueError "Architect did not return a valid response.")
  | Some resp =>
      mret {| architecture_diagram := architecture_diagram resp;
              implementation_steps := implementation_steps resp;
              plan := Some plan0 |}
  end.

Definition coder_agent (task_plan : TaskPlan) : Run (gmap string string) :=
  response_text ← call_text coder_llm (coder_task_prompt task_plan None);
  let cleaned_text := clean_response response_text in
  generated_data ← lift (parse_generated_data_graph cleaned_text);
  files_dict ← lift (select_files generated_data);
  files_dict ← lift (as_dict "keys" files_dict);
  let files_dict := remove_conflicting files_dict in
  lift (GeneratedProject files_dict).

(** [agent.invoke]: planner, architect, coder, in the order of the edges. *)
Definition agent_invoke (user_prompt : string) : Run (gmap string string) :=
  plan0 ← planner_agent user_prompt;
  task_plan ← architect_agent plan0;
  coder_agent task_plan.

(** ** [src/app.py] *)

Definition extract_architecture_diagram (task_plan_obj : TaskPlan) : string :=
  let diagram := architecture_diagram task_plan_obj in
  if PyStr.truthy diagram then
    let diagram := PyStr.strip diagram in
    let diagram :=
      if PyStr.startswith fence diagram then
        let lines := PyStr.split_lines diagram in
        if bool_decide (PyStr.strip (List.last lines EmptyString) = fence)
        then PyStr.join_lines (removelast (tail lines))
        else PyStr.join_lines (tail lines)
      else diagram in
    PyStr.strip diagram
  else EmptyString.

Definition run_coder_agent (task_plan : TaskPlan) (image_asset_url : option string)
  : Run (gmap string json) :=
  response_text ← call_text coder_llm (coder_task_prompt task_plan image_asset_url);
  let cleaned_text := clean_response response_text in
  generated_data ← lift (parse_generated_data_app cleaned_text);
  files_dict ← lift (select_files generated_data);
  files_dict ← lift (as_dict "keys" files_dict);
  mret (remove_conflicting files_dict).

(** [app.py] 347-350: the review text, stripped, and without its first
    line and its last line when it starts with a fence and ends with one
    (without its first line only when it does not end with one). *)
Definition review_cleaned (review_text : string) : string :=
  let cleaned := PyStr.strip review_text in
  if PyStr.startswith fence cleaned then
    let lines := PyStr.split_lines cleaned in
    PyStr.join_lines
      (if bool_decide (PyStr.strip (List.last lines EmptyString) = fence)
       then removelast (tail lines) else tail lines)
  else cleaned.

(** [app.py] 344-356: the cleaned review text is parsed directly;
    [except json.JSONDecodeError] falls back to the raw text and lets every
    other exception through. *)
Definition parse_review (review_text : string) : result json :=
  match loads (review_cleaned review_text) with
  | Ok review_data =>
      d ← as_dict "get" review_data;
      mret (default (JStr review_text) (d !! "review_feedback"))
  | Raise (JSONDecodeError _) => Ok (JStr review_text)
  | Raise e => Raise e
  end.

(** [{path: {"code": content} for path, content in files_dict.items()}] *)
Definition code_files (files_dict : gmap string json) : json :=
  JObj ((λ content, JObj {[ "code" := content ]}) <$> files_dict).

(** Step 5 of [generate_stream] ([app.py] 362-415).  A snapshot that is not
    a string is passed through [str]; the row keeps the value here. *)
Definition save_generated (prompt0 : string) (plan_resp : Plan)
    (plan_text architect_text diagram_code : string)
    (files_dict : gmap string json) (review_feedback : json)
    (user_id project_id : option string) : Run unit :=
  if opt_truthy user_id && is_configured w then
    try_except
      (project_id ←
         (if negb (opt_truthy project_id) then
            lift (create_project w (default EmptyString user_id)
                    (name plan_resp) (description plan_resp))
          else mret project_id);
       if opt_truthy project_id then
         let pid := default EmptyString project_id in
         try_except
           (lift (update_project w pid
              [("code_snapshot", JObj (list_to_map
                  [("files", code_files files_dict);
                   ("plan_snapshot", JStr plan_text);
                   ("architect_snapshot", JStr architect_text);
                   ("diagram_snapshot", JStr diagram_code);
                   ("review_snapshot", review_feedback);
                   ("prompt", JStr prompt0)]));
               ("plan_snapshot", JStr plan_text);
               ("architect_snapshot", JStr architect_text);
               ("diagram_snapshot", JStr diagram_code);
               ("review_snapshot", review_feedback);
               ("updated_at", JStr "now()")]))
           (λ snap_err, mret tt);;
         try_except
           (lift (save_version w pid
              [("prompt", JStr prompt0);
               ("code_snapshot", JObj files_dict);
               ("plan_snapshot", JStr plan_text);
               ("architect_snapshot", JStr architect_text);
               ("diagram_snapshot", JStr diagram_code);
               ("review_snapshot", review_feedback)]))
           (λ ver_err, mret tt);;
         yield saved [("project_id", JStr pid)]
       else mret tt)
      (λ save_err, yield save_error (message (str_exn save_err)))
  else mret tt.

(** The body of the [try] of [generate_stream] ([app.py] 228-415). *)
Definition generate_stream_body (prompt0 : string) (attachment : option Attachment)
    (user_id project_id image_asset_url : option string) : Run unit :=
  multimodal_result ← lift (process_multimodal_input w prompt0 attachment);
  let processed_prompt := text multimodal_result in
  let image_data0 := image_data multimodal_result in
  let image_mime_type0 := image_mime_type multimodal_result in
  yield planning (message "Constructing a Master Plan....");;
  plan_resp ←
    (if opt_truthy image_data0 then
       call_plan (planner_prompt processed_prompt image_asset_url
         (Some (default EmptyString image_data0,
                if opt_truthy image_mime_type0
                then default EmptyString image_mime_type0 else "image/png")))
     else call_plan (planner_prompt processed_prompt image_asset_url None));
  match plan_resp with
  | None => yield error (message "Planner failed to create a plan")
  | Some plan_resp =>
      let plan_text := format_plan_as_text w plan_resp in
      yield plan_complete [("plan", JStr plan_text)];;
      yield architecting (message "Orchestrating things....");;
      task_plan_resp ← call_task_plan (architect_prompt plan_resp);
      match task_plan_resp with
      | None =>
          yield error (message "Architect failed to create implementation steps")
      | Some task_plan_resp =>
          let task_plan_resp :=
            {| architecture_diagram := architecture_diagram task_plan_resp;
               implementation_steps := implementation_steps task_plan_resp;
               plan := Some plan_resp |} in
          let architect_text := format_architect_as_text w task_plan_resp in
          let diagram_code := extract_architecture_diagram task_plan_resp in
          yield architect_complete
            [("architect", JStr architect_text); ("diagram", JStr diagram_code)];;
          yield coding (message "Generating the code....");;
          files_dict ← run_coder_agent task_plan_resp image_asset_url;
          yield coding_complete [("files", JObj files_dict)];;
          yield reviewing (message "Reviewing code quality....");;
          review_text ←
            call_text reviewer_llm
              (reviewer_prompt prompt0 plan_text architect_text files_dict);
          review_feedback ← lift (parse_review review_text);
          yield complete [("files", JObj files_dict); ("review", review_feedback)];;
          save_generated prompt0 plan_resp plan_text architect_text diagram_code
            files_dict review_feedback user_id project_id
      end
  end.

(** [generate_stream]: the body, and the handler of [except Exception]. *)
Definition generate_stream (prompt0 : string) (attachment : option Attachment)
    (user_id project_id image_asset_url : option string) : Run unit :=
  try_except
    (generate_stream_body prompt0 attachment user_id project_id image_asset_url)
    (λ e, yield error (message (str_exn e))).

(** [current_files.get("/App.tsx", current_files.get("App.tsx", ""))] *)
Definition current_app_code (current_files : gmap string string) : string :=
  default (default EmptyString (current_files !! "App.tsx")) (current_files !! "/App.tsx").

(** The pair returned is the dict [{"files": ..., "summary": ...}]. *)
Definition run_coder_followup (modification_request : string)
    (current_files : gmap string string) (review_feedback : string)
    (image_asset_url : option string) : Run (json * json) :=
  let current_code := current_app_code current_files in
  if negb (PyStr.truthy current_code) then
    raise (ValueError "No App.tsx found in current files")
  else
    response_text ←
      call_text coder_llm
        (coder_followup_prompt modification_request current_code review_feedback
           image_asset_url);
    let cleaned_text := clean_response response_text in
    generated_data ← lift (parse_generated_data_app cleaned_text);
    files_dict ← lift (select_files generated_data);
    d ← lift (as_dict "get" generated_data);
    let summary := default (JStr "Modifications applied successfully.") (d !! "summary") in
    mret (files_dict, summary).

(** The save step of [followup_stream] ([app.py] 524-573). *)
Definition save_followup (modification_request : string) (files_dict summary : json)
    (user_id project_id : option string) : Run unit :=
  if opt_truthy user_id && opt_truthy project_id && is_configured w then
    let pid := default EmptyString project_id in
    try_except
      (existing ←
         try_except
           (existing_project ← lift (get_project_with_code w pid);
            d ← lift (as_dict "get" existing_project);
            let snapshot := default (JObj ∅) (d !! "code_snapshot") in
            mret (if json_truthy snapshot then snapshot else JObj ∅))
           (λ _, mret (JObj ∅));
       existing ← lift (as_dict "get" existing);
       let plan_text := default (JStr EmptyString) (existing !! "plan_snapshot") in
       let architect_text := default (JStr EmptyString) (existing !! "architect_snapshot") in
       let diagram_code := default (JStr EmptyString) (existing !! "diagram_snapshot") in
       let review_text := default (JStr EmptyString) (existing !! "review_snapshot") in
       let original_prompt := default (JStr EmptyString) (existing !! "prompt") in
       items ← lift (as_dict "items" files_dict);
       lift (update_project w pid
         [("code_snapshot", JObj (list_to_map
             [("files", code_files items);
              ("plan_snapshot", plan_text);
              ("architect_snapshot", architect_text);
              ("diagram_snapshot", diagram_code);
              ("review_snapshot", review_text);
              ("prompt", original_prompt);
              ("last_followup", JStr modification_request);
              ("followup_summary", summary)]));
          ("plan_snapshot", plan_text);
          ("architect_snapshot", architect_text);
          ("diagram_snapshot", diagram_code);
          ("review_snapshot", review_text);
          ("updated_at", JStr "now()")]))
      (λ snap_err, mret tt);;
    try_except
      (lift (save_version w pid
         [("prompt", JStr modification_request);
          ("code_snapshot", files_dict);
          ("summary", summary)]))
      (λ ver_err, mret tt);;
    yield saved [("project_id", JStr pid)]
  else mret tt.

(** The body of the [try] of [followup_stream] ([app.py] 510-573). *)
Definition followup_stream_body (modification_request : string)
    (current_files : gmap string string) (review_feedback : string)
    (user_id project_id image_asset_url : option string) : Run unit :=
  yield modifying (message "Applying modifications....");;
  result_dict ←
    run_coder_followup modification_request current_files review_feedback
      image_asset_url;
  let '(files_dict, summary) := result_dict in
  yield complete [("files", files_dict); ("summary", summary)];;
  save_followup modification_request files_dict summary user_id project_id.

Definition followup_stream (modification_request : string)
    (current_files : gmap string string) (review_feedback : string)
    (user_id project_id image_asset_url : option string) : Run unit :=
  try_except
    (followup_stream_body modification_request current_files review_feedback
       user_id project_id image_asset_url)
    (λ e, yield error (message (str_exn e))).

End Pipeline.

(** * Notions used in the statements, and scripted collaborators *)

(** The denylist in the words of the specification: the names [app.js] and
    [app.jsx], compared with a key that has been lowercased and has lost one
    leading path separator. *)
Definition alternate_entry_points : list string := ["app.js"; "app.jsx"].

Definition strip_separator (s : string) : string :=
  match s with
  | String "/"%char r => r
  | _ => s
  end.

Definition sample_files : gmap string string :=
  list_to_map [("/App.tsx", "tsx"); ("/App.JS", "js"); ("app.jsx", "jsx")].

(** The stage sequence the specification lists, up to [complete]. *)
Definition canonical_stages : list stage :=
  [planning; plan_complete; architecting; architect_complete;
   coding; coding_complete; reviewing; complete].

Definition todo_plan : Plan :=
  {| name := "Todo";
     description := "A todo list";
     techstack := "react";
     features := ["add a task"; "tick a task"];
     files := [{| path := "/App.tsx"; purpose := "entry point" |}] |}.

Definition todo_task_plan : TaskPlan :=
  {| architecture_diagram := "graph TD; App --> List;";
     implementation_steps :=
       [{| filepath := "/App.tsx"; task_description := "render the list" |}];
     plan := None |}.

(** What the collaborators answer in one scripted run. *)
Record Script := {
  coder_text : string;
  reviewer_text : string;
  db_on : bool;
  create_outcome : result (option string);
  update_outcome : result unit;
  version_outcome : result unit
}.

Definition scripted (s : Script) : World :=
  {| process_multimodal_input := λ user_prompt _,
       Ok {| text := user_prompt; image_data := None; image_mime_type := None |};
     invoke_plan := λ _, Ok (Some todo_plan);
     invoke_task_plan := λ _, Ok (Some todo_task_plan);
     invoke_text := λ m _,
       match m with
       | reviewer_llm => Ok (reviewer_text s)
       | _ => Ok (coder_text s)
       end;
     json_error_text := λ _, "Expecting value: line 1 column 1 (char 0)";
     json_depth_limit := 994;
     int_max_str_digits := 4300;
     format_plan_as_text := name;
     format_architect_as_text := architecture_diagram;
     is_configured := db_on s;
     create_project := λ _ _ _, create_outcome s;
     update_project := λ _ _, update_outcome s;
     save_version := λ _ _, version_outcome s;
     get_project_with_code := λ _, Ok (JObj ∅) |}.

(** A coder answer in the requested shape, and a reviewer answer. *)
Definition good_coder_text : string :=
  "{" ++ dq ++ "files" ++ dq ++ ": {" ++ dq ++ "/App.tsx" ++ dq ++ ": "
      ++ dq ++ "export default function App() {}" ++ dq ++ "}}".

Definition good_reviewer_text : string :=
  "{" ++ dq ++ "review_feedback" ++ dq ++ ": " ++ dq ++ "Looks fine." ++ dq ++ "}".

(** The database is reachable and every write succeeds. *)
Definition calm : Script :=
  {| coder_text := good_coder_text;
     reviewer_text := good_reviewer_text;
     db_on := true;
     create_outcome := Ok (Some "project-1");
     update_outcome := Ok tt;
     version_outcome := Ok tt |}.

(** The database is configured, and every write to it fails. *)
Definition unreachable : Script :=
  {| coder_text := good_coder_text;
     reviewer_text := good_reviewer_text;
     db_on := true;
     create_outcome := Raise (ExternalError "connection refused");
     update_outcome := Raise (ExternalError "connection refused");
     version_outcome := Raise (ExternalError "connection refused") |}.

(** A run is successful when it does not end in the [error] event. *)
Definition successful (c : Run unit) : Prop := error ∉ stages c.

Definition app_only : gmap string string :=
  {[ "/App.tsx" := "export default function App() {}" ]}.

(** An entry of [current_files] is usable when it holds non-empty code. *)
Definition usable (current_files : gmap string string) (key : string) : Prop :=
  ∃ code, current_files !! key = Some code ∧ code ≠ EmptyString.

(** A follow-up answer that keeps [/App.js] beside [/App.tsx]. *)
Definition two_entry_points_text : string :=
  "{" ++ dq ++ "files" ++ dq ++ ": {"
      ++ dq ++ "/App.tsx" ++ dq ++ ": " ++ dq ++ "tsx code" ++ dq ++ ", "
      ++ dq ++ "/App.js" ++ dq ++ ": " ++ dq ++ "js code" ++ dq ++ "}}".

Definition two_entry_points : Script :=
  {| coder_text := two_entry_points_text;
     reviewer_text := good_reviewer_text;
     db_on := false;
     create_outcome := Ok None;
     update_outcome := Ok tt;
     version_outcome := Ok tt |}.

(** A coder answer on which the direct parse and the brace search both fail. *)
Definition broken_text : string := "Sorry, I cannot write the files right now!".

Definition broken : Script :=
  {| coder_text := broken_text;
     reviewer_text := good_reviewer_text;
     db_on := false;
     create_outcome := Ok None;
     update_outcome := Ok tt;
     version_outcome := Ok tt |}.




(** The characters of a text, in order. *)
Definition chars (s : string) : list ascii := list_ascii_of_string s.

(** [s] begins with a character of [str.isspace]. *)
Definition starts_blank (s : string) : bool :=
  match s with
  | String a r1 =>
      PyStr.is_space a ||
      match r1 with
      | String b r2 =>
          PyStr.is_space2 a b ||
          match r2 with
          | String c _ => PyStr.is_space3 a b c
          | EmptyString => false
          end
      | EmptyString => false
      end
  | EmptyString => false
  end.

(** A byte that can be part of a character of [str.isspace]: an ASCII one,
    or a byte outside the ASCII range. *)
Definition space_byte (c : ascii) : bool :=
  PyStr.is_space c || (128 <=? N_of_ascii c)%N.

(** A text contains a brace-delimited span when an opening brace occurs
    somewhere before a closing brace. *)
Definition has_brace_span (s : string) : Prop :=
  ["{"; "}"]%char `sublist_of` chars s.

Definition nl : string := String "010"%char EmptyString.

(** The first reference input: the object inside a fenced block. *)
Definition fenced_vector : string :=
  "```json" ++ nl ++ "{" ++ dq ++ "a" ++ dq ++ ":1}" ++ nl ++ "```".

(** The second reference input: the object inside prose. *)
Definition prose_vector : string :=
  "here you go {" ++ dq ++ "a" ++ dq ++ ":1} thanks".

(** The object both stand for. *)
Definition a_is_1 : gmap string json := {[ "a" := JInt 1 ]}.

(** * More of the code, and notions for its properties *)

(** The log with the payloads erased: the stage of each yielded event and
    the model of each call, in program order. *)
Definition trace {A} (c : Run A) : list (stage + model) :=
  (λ x, match x with Yield e => inl (ev_stage e) | Invoke m _ => inr m end)
    <$> log c.

(** The order in which [generate_stream] yields and calls when nothing
    fails: each model call sits between its stage's start event and the
    event that reports its result. *)
Definition canonical_trace : list (stage + model) :=
  [inl planning; inr planner_llm; inl plan_complete;
   inl architecting; inr architect_llm; inl architect_complete;
   inl coding; inr coder_llm; inl coding_complete;
   inl reviewing; inr reviewer_llm; inl complete].



(** A fenced block: an opening fence with its language tag, the body on the
    lines between, and a closing fence. *)
Definition fenced (tag body : string) : string :=
  fence ++ tag ++ nl ++ body ++ nl ++ fence.

(** ** The export endpoint ([src/app.py] 891-946) *)

(** What an endpoint answers: a value, or [HTTPException(status_code, detail)]. *)
Inductive response (A : Type) : Type :=
| Reply (a : A)
| HTTPException (status_code : nat) (detail : string).
Arguments Reply {A} a.
Arguments HTTPException {A} status_code detail.

(** [s.replace(' ', '-')] *)
Fixpoint replace_spaces (s : string) : string :=
  match s with
  | EmptyString => EmptyString
  | String c r =>
      String (if Ascii.eqb c " "%char then "-"%char else c) (replace_spaces r)
  end.

(** [s.lstrip('-')], [s.rstrip('-')] and [s.strip('-')] *)
Fixpoint lstrip_hyphens (s : string) : string :=
  match s with
  | EmptyString => EmptyString
  | String c r => if Ascii.eqb c "-"%char then lstrip_hyphens r else s
  end.

Fixpoint rstrip_hyphens (s : string) : string :=
  match s with
  | EmptyString => EmptyString
  | String c r =>
      match rstrip_hyphens r with
      | EmptyString =>
          if Ascii.eqb c "-"%char then EmptyString else String c EmptyString
      | r' => String c r'
      end
  end.

Definition strip_hyphens (s : string) : string := rstrip_hyphens (lstrip_hyphens s).

(** The class [a-zA-Z0-9-]. *)
Definition is_repo_char (c : ascii) : bool :=
  let n := N_of_ascii c in
  ((97 <=? n) && (n <=? 122) || (65 <=? n) && (n <=? 90)
   || (48 <=? n) && (n <=? 57) || (n =? 45))%N.

(** [re.sub(r'[^a-zA-Z0-9-]', '', s)] *)
Fixpoint keep_repo_chars (s : string) : string :=
  match s with
  | EmptyString => EmptyString
  | String c r =>
      if is_repo_char c then String c (keep_repo_chars r) else keep_repo_chars r
  end.

(** [re.sub(r'[^a-zA-Z0-9-]', '', project_name.replace(' ', '-').strip('-'))] *)
Definition sanitize_repo_name (project_name : string) : string :=
  keep_repo_chars (strip_hyphens (replace_spaces project_name)).

#[local] Existing Instances result_ret result_bind.

(** Lines 923-932: the repository name.  [repo_name] is the request's,
    [project_name] is [project.get("name", "")]. *)
Definition derive_repo_name (repo_name : option string) (project_name : json)
    (project_id : string) : result string :=
  if opt_truthy repo_name then Ok (default EmptyString repo_name)
  else
    repo_name ←
      (if json_truthy project_name then
         match project_name with
         | JStr s => Ok (sanitize_repo_name s)
         | v => Raise (AttributeError
                  ("'" ++ py_type_name v ++ "' object has no attribute 'replace'"))
         end
       else Ok EmptyString);
    if PyStr.truthy repo_name then Ok repo_name
    else Ok ("DevOpus-project-" ++ PyStr.take 8 project_id).

Section ExportEndpoint.

(** Python's [str] on a decoded value, and [github_utils.create_github_repo],
    which answers with the repository URL or raises [HTTPException]. *)
Context (py_str : json → string).
Context (create_github_repo : string → string → gmap string json → response string).
Context (w : World).

(** Lines 912-918: one file of the snapshot as the content to push. *)
Definition export_content (content : json) : json :=
  match content with
  | JStr _ => content
  | JObj d =>
      match d !! "code" with
      | Some code => code
      | None => JStr (py_str content)
      end
  | _ => JStr (py_str content)
  end.

(** Lines 907-918: the files of a code snapshot.  A snapshot that is not a
    dict gives no files; one without a [files] key is itself the file map. *)
Definition export_files (code_snapshot : json) : result (gmap string json) :=
  let raw_files :=
    match code_snapshot with
    | JObj d => default code_snapshot (d !! "files")
    | _ => JObj ∅
    end in
  items ← as_dict "items" raw_files;
  Ok (export_content <$> (items : gmap string json)).

(** The body of the [try]; [Raise] is an exception that is not an
    [HTTPException]. *)
Definition export_to_github_body (project_id github_token : string)
    (repo_name : option string) : result (response string) :=
  project ← get_project_with_code w project_id;
  if negb (json_truthy project) then Ok (HTTPException 404 "Project not found")
  else
    d ← as_dict "get" project;
    let code_snapshot := default JNull (d !! "code_snapshot") in
    if negb (json_truthy code_snapshot)
    then Ok (HTTPException 404 "No code found for this project")
    else
      files ← export_files code_snapshot;
      if bool_decide (files = ∅)
      then Ok (HTTPException 404 "No files found in code snapshot")
      else
        repo_name ← derive_repo_name repo_name
                      (default (JStr EmptyString) (d !! "name")) project_id;
        Ok (create_github_repo github_token repo_name files).

(** [export_to_github]: 503 without a database; an [HTTPException] from the
    body passes, any other exception becomes a 500 with its text. *)
Definition export_to_github (project_id github_token : string)
    (repo_name : option string) : response string :=
  if negb (is_configured w) then HTTPException 503 "Database not configured"
  else
    match export_to_github_body project_id github_token repo_name with
    | Ok r => r
    | Raise e => HTTPException 500 (str_exn e)
    end.

End ExportEndpoint.

(** ** Saving a project ([src/app.py] 701-705) *)

(** [{"code": content} if isinstance(content, str) else content] *)
Definition wrap_content (content : json) : json :=
  match content with
  | JStr _ => JObj {[ "code" := content ]}
  | _ => content
  end.

(** The snapshot [save_project_endpoint] hands to the database: a non-empty
    snapshot without a [files] key is wrapped into one. *)
Definition prepare_snapshot (code_snapshot : option (gmap string json))
  : option (gmap string json) :=
  match code_snapshot with
  | Some d =>
      if negb (bool_decide (d = ∅)) && negb (bool_decide (is_Some (d !! "files")))
      then Some {[ "files" := JObj (wrap_content <$> d) ]}
      else Some d
  | None => None
  end.

(** A world whose database holds one project row, whatever the id asked
    for, and a GitHub that accepts every push. *)
Definition holding (project : json) : World :=
  {| process_multimodal_input := process_multimodal_input (scripted calm);
     invoke_plan := invoke_plan (scripted calm);
     invoke_task_plan := invoke_task_plan (scripted calm);
     invoke_text := invoke_text (scripted calm);
     json_error_text := json_error_text (scripted calm);
     json_depth_limit := json_depth_limit (scripted calm);
     int_max_str_digits := int_max_str_digits (scripted calm);
     format_plan_as_text := format_plan_as_text (scripted calm);
     format_architect_as_text := format_architect_as_text (scripted calm);
     is_configured := true;
     create_project := create_project (scripted calm);
     update_project := update_project (scripted calm);
     save_version := save_version (scripted calm);
     get_project_with_code := λ _, Ok project |}.

Definition accepting_github (github_token repo_name : string)
    (files : gmap string json) : response string :=
  Reply ("https://github.com/dev/" ++ repo_name).

Definition todo_files : gmap string json :=
  {[ "/App.tsx" := JStr "export default function App() {}" ]}.

(** The project row [generate_stream] leaves behind for [todo_files]. *)
Definition todo_row : json :=
  JObj (<[ "name" := JStr "Todo App" ]>
        {[ "code_snapshot" := JObj {[ "files" := code_files todo_files ]} ]}).

(** ** Attachments ([src/utils.py]) *)

Module Utils.

(** [s[n:]] *)
Fixpoint skip (n : nat) (s : string) : string :=
  match n, s with
  | S n', String _ r => skip n' r
  | _, _ => s
  end.

(** [s.split(sep)[0]] for a non-empty [sep]: the text before its first
    occurrence, all of [s] when there is none. *)
Fixpoint split_head (sep s : string) : string :=
  match s with
  | EmptyString => EmptyString
  | String c r =>
      if PyStr.startswith sep s then EmptyString else String c (split_head sep r)
  end.

(** What follows the first occurrence of [sep], when there is one. *)
Fixpoint split_rest (sep s : string) : option string :=
  match s with
  | EmptyString => None
  | String c r =>
      if PyStr.startswith sep s then Some (skip (String.length sep) s)
      else split_rest sep r
  end.

(** [s.split(sep)[1]] *)
Definition split_item_1 (sep s : string) : result string :=
  match split_rest sep s with
  | Some r => Ok (split_head sep r)
  | None => Raise (ExternalError "list index out of range")
  end.

Definition base64_marker : string := ";base64,".

(** The raw base64 text of a data URL (lines 88-91 and 156-159). *)
Definition base64_data (data_url : string) : result string :=
  if PyStr.contains base64_marker data_url
  then split_item_1 base64_marker data_url
  else Ok data_url.

(** ["\n\n".join(blocks)] *)
Fixpoint join_blocks (blocks : list string) : string :=
  match blocks with
  | [] => EmptyString
  | [b] => b
  | b :: bs => b ++ nl ++ nl ++ join_blocks bs
  end.

(** Lines 99-104: one block for every page with text, under the number the
    page has in the document. *)
Fixpoint page_blocks (page_num : nat) (pages : list string) : list string :=
  match pages with
  | [] => []
  | page_text :: rest =>
      if PyStr.truthy page_text
      then ("--- Page " ++ str_nat page_num ++ " ---" ++ nl ++ page_text)
             :: page_blocks (S page_num) rest
      else page_blocks (S page_num) rest
  end.

Definition no_text_notice : string :=
  "(No readable text could be extracted from this PDF)".

Definition document_advice : string :=
  "IMPORTANT: Use the document above to inform the project plan. If this appears to be a resume/CV, create a portfolio website showcasing the person's skills, experience, and projects.".

Definition image_advice : string :=
  "IMPORTANT CONTEXT: The user has uploaded an image. Analyze this image carefully:" ++ nl ++
  "- If it's a UI screenshot or design mockup: Replicate the layout, colors, components, and styling as closely as possible." ++ nl ++
  "- If it's a photo of a person: This is likely for a portfolio - use this as a profile image placeholder." ++ nl ++
  "- If it's a logo or branding: Incorporate these brand elements into the design." ++ nl ++
  "- If it's a wireframe or sketch: Use this as the structural basis for the UI.".

Definition plain (user_prompt : string) : MultimodalResult :=
  {| text := user_prompt; image_data := None; image_mime_type := None |}.

Section Attachments.

#[local] Existing Instances result_ret result_bind.

(** [base64.b64decode], [PdfReader] and [extract_text] over the pages of the
    document: the texts of the pages in order, or the exception raised on
    the way. *)
Context (read_pdf : string → result (list string)).

Definition _process_pdf_attachment (user_prompt data_url filename : string)
  : MultimodalResult :=
  match (b64 ← base64_data data_url; read_pdf b64) with
  | Ok pages =>
      let full_text := join_blocks (page_blocks 1 pages) in
      let full_text :=
        if negb (PyStr.truthy (PyStr.strip full_text)) then no_text_notice
        else full_text in
      plain (user_prompt ++ nl ++ nl ++
             "[CONTEXT: UPLOADED DOCUMENT - " ++ filename ++ "]" ++ nl ++
             full_text ++ nl ++ "[/CONTEXT]" ++ nl ++ nl ++ document_advice)
  | Raise e =>
      plain (user_prompt ++ nl ++ nl ++ "[Note: A PDF was uploaded (" ++ filename
             ++ ") but could not be processed: " ++ str_exn e ++ "]")
  end.

Definition _process_image_attachment (user_prompt data_url mime_type : string)
  : MultimodalResult :=
  match base64_data data_url with
  | Ok b64 =>
      {| text := user_prompt ++ nl ++ nl ++ image_advice;
         image_data := Some b64;
         image_mime_type :=
           Some (if PyStr.truthy mime_type then mime_type else "image/png") |}
  | Raise e => plain user_prompt
  end.

(** [process_multimodal_input] on the attachment [/generate] builds, which
    has all four keys. *)
Definition process_multimodal_input (user_prompt : string)
    (attachment : option Attachment) : MultimodalResult :=
  match attachment with
  | None => plain user_prompt
  | Some a =>
      if String.eqb (att_type a) "pdf" || String.eqb (att_mimeType a) "application/pdf"
      then _process_pdf_attachment user_prompt (att_data a) (att_name a)
      else if String.eqb (att_type a) "image"
              || PyStr.startswith "image/" (att_mimeType a)
      then _process_image_attachment user_prompt (att_data a) (att_mimeType a)
      else plain user_prompt
  end.

End Attachments.

End Utils.

(** The world [w] with [src/utils.py] in the place of its attachment
    pre-processing. *)
Definition with_utils (read_pdf : string → result (list string)) (w : World) : World :=
  {| process_multimodal_input := λ user_prompt attachment,
       Ok (Utils.process_multimodal_input read_pdf user_prompt attachment);
     invoke_plan := invoke_plan w;
     invoke_task_plan := invoke_task_plan w;
     invoke_text := invoke_text w;
     json_error_text := json_error_text w;
     json_depth_limit := json_depth_limit w;
     int_max_str_digits := int_max_str_digits w;
     format_plan_as_text := format_plan_as_text w;
     format_architect_as_text := format_architect_as_text w;
     is_configured := is_configured w;
     create_project := create_project w;
     update_project := update_project w;
     save_version := save_version w;
     get_project_with_code := get_project_with_code w |}.

(** * Properties *)

(** ** The file-set normalisation step *)

Section Normalizer.

Context {V : Type}.
Implicit Types (files_dict : gmap string V) (path : string).

Lemma lookup_foldl_delete (l : list string) files_dict path :
  foldl (λ d p, delete p d) files_dict l !! path =
  if bool_decide (path ∈ l) then None else files_dict !! path.
Proof.
  revert files_dict. induction l as [|p l IH]; intros files_dict; simpl.
  - done.
  - rewrite IH. destruct (decide (path = p)) as [->|Hne].
    + rewrite lookup_delete_eq, (bool_decide_eq_true_2 (p ∈ p :: l)) by left.
      by case_bool_decide.
    + rewrite lookup_delete_ne by done.
      rewrite (bool_decide_ext (path ∈ p :: l) (path ∈ l)); [done|].
      rewrite elem_of_cons. naive_solver.
Qed.

Lemma elem_of_files_to_remove files_dict path :
  path ∈ files_to_remove files_dict ↔
  conflicting path = true ∧ is_Some (files_dict !! path).
Proof.
  unfold files_to_remove. rewrite list_elem_of_filter, list_elem_of_fmap.
  split.
  - intros [Hc [[k v] [-> Hin]]]. split; [done|].
    apply elem_of_map_to_list in Hin. eauto.
  - intros [Hc [v Hv]]. split; [done|].
    exists (path, v). split; [done|]. by apply elem_of_map_to_list.
Qed.

(** What the two loops leave: a conflicting path is gone, any other path
    keeps its content. *)
Lemma lookup_remove_conflicting files_dict path :
  remove_conflicting files_dict !! path =
  if conflicting path then None else files_dict !! path.
Proof.
  unfold remove_conflicting. rewrite lookup_foldl_delete.
  case_bool_decide as Hin.
  - apply elem_of_files_to_remove in Hin as [-> _]. done.
  - destruct (conflicting path) eqn:Hc; [|done].
    destruct (files_dict !! path) eqn:Hl; [|done].
    exfalso. apply Hin, elem_of_files_to_remove. eauto.
Qed.

End Normalizer.

Lemma strip_separator_other (c : ascii) (r : string) :
  c ≠ "/"%char → strip_separator (String c r) = String c r.
Proof.
  intros Hc. destruct c as [[] [] [] [] [] [] [] []]; try reflexivity.
  by destruct Hc.
Qed.

Lemma conflicting_spec (path : string) :
  conflicting path = true ↔
  strip_separator (PyStr.lower path) ∈ alternate_entry_points.
Proof.
  unfold conflicting, denylist, alternate_entry_points.
  rewrite bool_decide_eq_true.
  generalize (PyStr.lower path). intros s.
  rewrite !elem_of_cons, !elem_of_nil.
  destruct s as [|c r]; [naive_solver|].
  destruct (Ascii.eqb_spec c "/"%char) as [->|Hc].
  - change (strip_separator (String "/" r)) with r. split.
    + intros [H|[H|[H|[H|[]]]]]; inversion H; subst; auto.
    + intros [->|[->|[]]]; auto.
  - rewrite strip_separator_other by done. split.
    + intros [H|[H|[H|[H|[]]]]]; inversion H; subst; auto; by destruct Hc.
    + intros [H|[H|[]]]; auto.
Qed.

(** C3.  The normalisation step is idempotent: running the two loops on
    their own result changes nothing, for every mapping from paths to
    contents. *)
Theorem remove_conflicting_idempotent {V} (x : gmap string V) :
  remove_conflicting (remove_conflicting x) = remove_conflicting x.
Proof.
  apply map_eq. intros path. rewrite !lookup_remove_conflicting.
  by destruct (conflicting path).
Qed.

(** C4.  After the normalisation step no remaining key, lowercased and with
    one leading separator stripped, is [app.js] or [app.jsx]; and a key
    [/App.tsx] of the input is still there with its content, whatever
    siblings were removed. *)
Theorem remove_conflicting_postcondition {V} (x : gmap string V) :
  (∀ path, is_Some (remove_conflicting x !! path) →
     strip_separator (PyStr.lower path) ∉ alternate_entry_points) ∧
  (∀ content, x !! "/App.tsx" = Some content →
     remove_conflicting x !! "/App.tsx" = Some content).
Proof.
  split.
  - intros path [v Hv] Hin. apply conflicting_spec in Hin.
    rewrite lookup_remove_conflicting, Hin in Hv. done.
  - intros content Hc. rewrite lookup_remove_conflicting. done.
Qed.

Lemma remove_conflicting_postcondition_witness :
  is_Some (remove_conflicting sample_files !! "/App.tsx") ∧
  sample_files !! "/App.tsx" = Some "tsx" ∧
  (strip_separator (PyStr.lower "/App.tsx") ∉ alternate_entry_points) ∧
  remove_conflicting sample_files !! "/App.tsx" = Some "tsx" ∧
  remove_conflicting sample_files !! "/App.JS" = None ∧
  remove_conflicting sample_files !! "app.jsx" = None.
Proof.
  assert (Hx : sample_files !! "/App.tsx" = Some "tsx") by reflexivity.
  assert (Hs : is_Some (remove_conflicting sample_files !! "/App.tsx"))
    by (exists "tsx"; vm_compute; reflexivity).
  destruct (remove_conflicting_postcondition sample_files) as [Hkeys Hkeep].
  split; [exact Hs|]. split; [exact Hx|].
  split; [exact (Hkeys _ Hs)|].
  split; [exact (Hkeep _ Hx)|].
  split; vm_compute; reflexivity.
Defined.

(** ** Shapes of the runs *)

Section Shapes.

Context (w : World).

(** The coder call of the streaming path has one effect, the model call. *)
Lemma run_coder_agent_shape task_plan image_asset_url :
  ∃ r, run_coder_agent w task_plan image_asset_url =
       ([Invoke coder_llm (coder_task_prompt task_plan image_asset_url)], r).
Proof.
  unfold run_coder_agent, call_text, mbind, Run_bind, run_bind, lift.
  destruct (invoke_text w coder_llm _) as [response_text|e]; [|by eexists].
  destruct (parse_generated_data_app _ _) as [generated_data|e]; [|by eexists].
  destruct (select_files generated_data) as [files_dict|e]; [|by eexists].
  destruct (as_dict "keys" files_dict) as [d|e]; by eexists.
Qed.

(** The save step of the initial path, case by case: only a failure of
    [create_project] reaches the handler that yields [save_error]; a failure
    of the row update or of the version save is absorbed by its own handler
    and [saved] is yielded all the same. *)
Lemma save_generated_eq prompt0 plan_resp plan_text architect_text diagram_code
    files_dict review_feedback user_id project_id :
  save_generated w prompt0 plan_resp plan_text architect_text diagram_code
    files_dict review_feedback user_id project_id =
  if opt_truthy user_id && is_configured w then
    if opt_truthy project_id then
      yield saved [("project_id", JStr (default EmptyString project_id))]
    else
      match create_project w (default EmptyString user_id)
              (name plan_resp) (description plan_resp) with
      | Raise save_err => yield save_error (message (str_exn save_err))
      | Ok new_id =>
          if opt_truthy new_id
          then yield saved [("project_id", JStr (default EmptyString new_id))]
          else mret tt
      end
  else mret tt.
Proof.
  unfold save_generated.
  destruct (opt_truthy user_id && is_configured w); [|done].
  destruct (opt_truthy project_id) eqn:Hp; simpl.
  - rewrite Hp.
    unfold try_except, mbind, Run_bind, run_bind, lift, yield, mret, Run_ret, run_ret.
    destruct (update_project w _ _), (save_version w _ _); reflexivity.
  - unfold try_except, mbind, Run_bind, run_bind, lift, yield, mret, Run_ret, run_ret.
    destruct (create_project w _ _ _) as [new_id|e]; [|reflexivity].
    destruct (opt_truthy new_id); [|reflexivity].
    destruct (update_project w _ _), (save_version w _ _); reflexivity.
Qed.

(** The save step of the follow-up path: no failure of a database call
    changes what is yielded. *)
Lemma save_followup_eq modification_request files_dict summary user_id project_id :
  save_followup w modification_request files_dict summary user_id project_id =
  if opt_truthy user_id && opt_truthy project_id && is_configured w
  then yield saved [("project_id", JStr (default EmptyString project_id))]
  else mret tt.
Proof.
  unfold save_followup.
  destruct (opt_truthy user_id && opt_truthy project_id && is_configured w); [|done].
  unfold try_except, mbind, Run_bind, run_bind, lift, yield, mret, Run_ret, run_ret.
  destruct (get_project_with_code w _) as [existing_project|?]; simpl.
  - destruct (as_dict "get" existing_project) as [d|?]; simpl.
    + destruct (as_dict "get" (if json_truthy _ then _ else _)) as [d'|?]; simpl.
      * destruct (as_dict "items" files_dict) as [items|?]; simpl.
        -- destruct (update_project w _ _), (save_version w _ _); reflexivity.
        -- destruct (save_version w _ _); reflexivity.
      * destruct (save_version w _ _); reflexivity.
    + destruct (as_dict "items" files_dict) as [items|?]; simpl.
      * destruct (update_project w _ _), (save_version w _ _); reflexivity.
      * destruct (save_version w _ _); reflexivity.
  - destruct (as_dict "items" files_dict) as [items|?]; simpl.
    + destruct (update_project w _ _), (save_version w _ _); reflexivity.
    + destruct (save_version w _ _); reflexivity.
Qed.

End Shapes.

(** ** Equations of the run monad *)

Section RunEquations.

Context {A B : Type}.
Implicit Types (c : Run A) (k : A → Run B) (h : exn → Run A).

Lemma log_bind c k :
  log (c ≫= k) =
  (log c ++ match outcome c with Ok a => log (k a) | Raise _ => [] end)%list.
Proof.
  destruct c as [l [a|e]]; unfold mbind, Run_bind, run_bind, log, outcome; simpl.
  - by destruct (k a).
  - by rewrite app_nil_r.
Qed.

Lemma outcome_bind c k :
  outcome (c ≫= k) =
  match outcome c with Ok a => outcome (k a) | Raise e => Raise e end.
Proof.
  destruct c as [l [a|e]]; unfold mbind, Run_bind, run_bind, outcome; simpl.
  - by destruct (k a).
  - done.
Qed.

Lemma log_try_except c h :
  log (try_except c h) =
  (log c ++ match outcome c with Ok _ => [] | Raise e => log (h e) end)%list.
Proof.
  destruct c as [l [a|e]]; unfold try_except, log, outcome; simpl.
  - by rewrite app_nil_r.
  - by destruct (h e).
Qed.

Lemma outcome_try_except c h :
  outcome (try_except c h) =
  match outcome c with Ok a => Ok a | Raise e => outcome (h e) end.
Proof.
  destruct c as [l [a|e]]; unfold try_except, outcome; simpl.
  - done.
  - by destruct (h e).
Qed.

Lemma stages_bind c k :
  stages (c ≫= k) =
  (stages c ++ match outcome c with Ok a => stages (k a) | Raise _ => [] end)%list.
Proof.
  unfold stages, events. rewrite log_bind, omap_app, fmap_app.
  by destruct (outcome c).
Qed.

Lemma stages_try_except c h :
  stages (try_except c h) =
  (stages c ++ match outcome c with Ok _ => [] | Raise e => stages (h e) end)%list.
Proof.
  unfold stages, events. rewrite log_try_except, omap_app, fmap_app.
  by destruct (outcome c).
Qed.

Lemma events_bind c k :
  events (c ≫= k) =
  (events c ++ match outcome c with Ok a => events (k a) | Raise _ => [] end)%list.
Proof.
  unfold events. rewrite log_bind, omap_app. by destruct (outcome c).
Qed.

Lemma events_try_except c h :
  events (try_except c h) =
  (events c ++ match outcome c with Ok _ => [] | Raise e => events (h e) end)%list.
Proof.
  unfold events. rewrite log_try_except, omap_app. by destruct (outcome c).
Qed.

Lemma model_calls_bind c k :
  model_calls (c ≫= k) =
  (model_calls c ++
   match outcome c with Ok a => model_calls (k a) | Raise _ => [] end)%list.
Proof.
  unfold model_calls. rewrite log_bind, omap_app. by destruct (outcome c).
Qed.

End RunEquations.

(** ** Event order of the initial streaming run *)

Section GenerateStream.

Context (w : World).

Lemma stages_save_generated prompt0 plan_resp plan_text architect_text diagram_code
    files_dict review_feedback user_id project_id :
  let c := save_generated w prompt0 plan_resp plan_text architect_text diagram_code
             files_dict review_feedback user_id project_id in
  outcome c = Ok tt ∧ stages c ∈ [[]; [saved]; [save_error]].
Proof.
  cbv zeta. rewrite save_generated_eq.
  destruct (opt_truthy user_id && is_configured w); [|split; [done|set_solver]].
  destruct (opt_truthy project_id); [split; [done|set_solver]|].
  destruct (create_project w _ _ _) as [new_id|e]; [|split; [done|set_solver]].
  destruct (opt_truthy new_id); split; try done; set_solver.
Qed.

Local Opaque run_coder_agent parse_review save_generated extract_architecture_diagram.

Ltac run_simpl :=
  cbn [outcome lift yield call_plan call_task_plan call_text snd fst stages
       events log omap fmap list_fmap list_omap app mret Run_ret run_ret raise
       ev_stage].

Ltac run_step := rewrite ?stages_bind, ?outcome_bind; run_simpl.

Ltac stops_at n := exists n; split; [lia|reflexivity].

Lemma generate_stream_body_stages prompt0 attachment user_id project_id image_asset_url :
  let c := generate_stream_body w prompt0 attachment user_id project_id image_asset_url in
  match outcome c with
  | Raise _ => ∃ n, n < 8 ∧ stages c = take n canonical_stages
  | Ok _ =>
      (∃ n, n < 8 ∧ stages c = (take n canonical_stages ++ [error])%list) ∨
      (∃ tail, tail ∈ [[]; [saved]; [save_error]] ∧
               stages c = (canonical_stages ++ tail)%list)
  end.
Proof.
  cbv zeta. unfold generate_stream_body. run_step.
  destruct (process_multimodal_input w prompt0 attachment) as [mm|e0]; run_step;
    [|stops_at 0].
  destruct (opt_truthy (image_data mm)); run_step.
  all: destruct (invoke_plan w _) as [[plan_resp|]|e1]; run_step;
    [|left; stops_at 1|stops_at 1].
  all: destruct (invoke_task_plan w _) as [[task_plan_resp|]|e2]; run_step;
    [|left; stops_at 3|stops_at 3].
  all: match goal with
       | |- context [run_coder_agent w ?tp ?u] =>
           destruct (run_coder_agent_shape w tp u) as [r ->]
       end; run_step.
  all: destruct r as [files_dict|e3]; run_step; [|stops_at 5].
  all: destruct (invoke_text w reviewer_llm _) as [review_text|e4]; run_step;
    [|stops_at 7].
  all: destruct (parse_review w review_text) as [review_feedback|e5]; run_step;
    [|stops_at 7].
  all: match goal with
       | |- context [save_generated w ?a ?b ?c ?d ?e ?f ?g ?h ?i] =>
           destruct (stages_save_generated a b c d e f g h i) as [-> Hs];
           right; eexists; split; [exact Hs|reflexivity]
       end.
Qed.

(** Every stage sequence [generate_stream] can yield: the canonical order
    cut short by one [error], or the whole of it with at most one of [saved]
    and [save_error] after [complete]. *)
Lemma generate_stream_stages prompt0 attachment user_id project_id image_asset_url :
  let s := stages (generate_stream w prompt0 attachment user_id project_id
                     image_asset_url) in
  (∃ n, n < 8 ∧ s = (take n canonical_stages ++ [error])%list) ∨
  (∃ tail, tail ∈ [[]; [saved]; [save_error]] ∧
           s = (canonical_stages ++ tail)%list).
Proof.
  cbv zeta. unfold generate_stream. rewrite stages_try_except.
  pose proof (generate_stream_body_stages prompt0 attachment user_id project_id
                image_asset_url) as H. cbv zeta in H.
  destruct (outcome (generate_stream_body _ _ _ _ _ _)) as [[]|e].
  - rewrite app_nil_r. exact H.
  - destruct H as (n & Hn & ->). left. exists n. split; [done|reflexivity].
Qed.

End GenerateStream.

(** ** Event order of the follow-up streaming run *)

Section FollowupStream.

Context (w : World).

Lemma run_coder_followup_stages modification_request current_files review_feedback
    image_asset_url :
  stages (run_coder_followup w modification_request current_files review_feedback
            image_asset_url) = [].
Proof.
  unfold run_coder_followup.
  destruct (negb _); [reflexivity|].
  unfold stages, events, log, call_text, mbind, Run_bind, run_bind, lift.
  destruct (invoke_text w coder_llm _) as [response_text|?]; [|reflexivity].
  destruct (parse_generated_data_app _ _) as [generated_data|?]; [|reflexivity].
  destruct (select_files generated_data) as [files_dict|?]; [|reflexivity].
  destruct (as_dict "get" generated_data) as [d|?]; reflexivity.
Qed.

Local Opaque run_coder_followup save_followup.

Lemma followup_stream_stages_eq modification_request current_files review_feedback
    user_id project_id image_asset_url :
  stages (followup_stream w modification_request current_files review_feedback
            user_id project_id image_asset_url)
  = modifying ::
    match outcome (run_coder_followup w modification_request current_files
                     review_feedback image_asset_url) with
    | Ok _ =>
        complete ::
        (if opt_truthy user_id && opt_truthy project_id && is_configured w
         then [saved] else [])
    | Raise _ => [error]
    end.
Proof.
  unfold followup_stream, followup_stream_body.
  rewrite stages_try_except, !stages_bind, !outcome_bind.
  cbn [outcome yield snd stages events log fst omap fmap list_fmap list_omap app ev_stage].
  rewrite run_coder_followup_stages.
  destruct (outcome (run_coder_followup _ _ _ _ _)) as [[files_dict summary]|e];
    [|reflexivity].
  rewrite stages_bind, outcome_bind, save_followup_eq.
  by destruct (opt_truthy user_id && opt_truthy project_id && is_configured w).
Qed.

(** Every stage sequence [followup_stream] can yield. *)
Lemma followup_stream_stages modification_request current_files review_feedback
    user_id project_id image_asset_url :
  stages (followup_stream w modification_request current_files review_feedback
            user_id project_id image_asset_url)
  ∈ [[modifying; error]; [modifying; complete]; [modifying; complete; saved]].
Proof.
  unfold followup_stream, followup_stream_body.
  rewrite stages_try_except, !stages_bind, !outcome_bind.
  cbn [outcome yield snd stages events log fst omap fmap list_fmap list_omap app ev_stage].
  rewrite run_coder_followup_stages.
  destruct (outcome (run_coder_followup _ _ _ _ _)) as [[files_dict summary]|e];
    [|set_solver].
  rewrite stages_bind, outcome_bind, save_followup_eq.
  destruct (opt_truthy user_id && opt_truthy project_id && is_configured w);
    cbn; set_solver.
Qed.

End FollowupStream.

(** ** C5: event order *)

(** C5.  For a successful initial streaming run the stage sequence is the
    canonical one through [complete], followed by nothing, by [saved] or by
    [save_error]; so it is a prefix of the canonical sequence with one of the
    two optional stages appended, no stage occurs twice, and the stages come
    in the listed order. *)
Theorem generate_stream_event_order (w : World) prompt0 attachment user_id
    project_id image_asset_url :
  let c := generate_stream w prompt0 attachment user_id project_id image_asset_url in
  successful c →
  (∃ tail, tail ∈ [[]; [saved]; [save_error]] ∧
           stages c = (canonical_stages ++ tail)%list) ∧
  (∃ last, last ∈ [saved; save_error] ∧
           stages c `prefix_of` (canonical_stages ++ [last])%list) ∧
  NoDup (stages c).
Proof.
  cbv zeta. unfold successful. intros Hok.
  destruct (generate_stream_stages w prompt0 attachment user_id project_id
              image_asset_url) as [(n & _ & Hs)|(tail & Htail & Hs)].
  { exfalso. apply Hok. rewrite Hs. apply elem_of_app. right. by left. }
  split; [by exists tail|]. rewrite Hs.
  repeat (apply elem_of_cons in Htail as [->|Htail]); [| | |by apply elem_of_nil in Htail].
  - split.
    + exists saved. split; [by left|]. exists [saved]. by rewrite app_nil_r.
    + rewrite app_nil_r. apply (bool_decide_unpack _). vm_compute. exact I.
  - split.
    + exists saved. split; [by left|]. done.
    + apply (bool_decide_unpack _). vm_compute. exact I.
  - split.
    + exists save_error. split; [right; by left|]. done.
    + apply (bool_decide_unpack _). vm_compute. exact I.
Qed.

Lemma generate_stream_event_order_witness :
  let c := generate_stream (scripted calm) "Build a todo app" None
             (Some "user-1") None None in
  successful c ∧ stages c = (canonical_stages ++ [saved])%list ∧ NoDup (stages c).
Proof.
  cbv zeta.
  assert (Hok : successful (generate_stream (scripted calm) "Build a todo app" None
                              (Some "user-1") None None)).
  { unfold successful. apply (bool_decide_unpack _). vm_compute. exact I. }
  split; [exact Hok|].
  split; [vm_compute; reflexivity|].
  exact (proj2 (proj2 (generate_stream_event_order (scripted calm) "Build a todo app"
                         None (Some "user-1") None None Hok))).
Defined.

(** ** C9: failures of the persistence collaborator *)

Lemma complete_not_in_cut n :
  n < 8 → complete ∉ (take n canonical_stages ++ [error])%list.
Proof.
  intros Hn. do 8 (destruct n as [|n]; [apply (bool_decide_unpack _); vm_compute; exact I|]).
  lia.
Qed.

Section SaveStep.

Context (w : World).

Local Opaque run_coder_agent parse_review save_generated extract_architecture_diagram.

Ltac run_simpl :=
  cbn [outcome lift yield call_plan call_task_plan call_text snd fst stages
       events log omap fmap list_fmap list_omap app mret Run_ret run_ret raise
       ev_stage] in *.

Ltac run_step := rewrite ?stages_bind, ?outcome_bind in *; run_simpl.

Ltac absent H := apply (bool_decide_pack _) in H; vm_compute in H; destruct H.

(** A run that has yielded [complete] ends with the save step, for the plan
    the planner returned. *)
Lemma generate_stream_body_save prompt0 attachment user_id project_id
    image_asset_url :
  let c := generate_stream_body w prompt0 attachment user_id project_id
             image_asset_url in
  complete ∈ stages c →
  outcome c = Ok tt ∧
  ∃ p plan_resp plan_text architect_text diagram_code files_dict review_feedback,
    invoke_plan w p = Ok (Some plan_resp) ∧
    stages c =
      (canonical_stages ++
       stages (save_generated w prompt0 plan_resp plan_text architect_text
                 diagram_code files_dict review_feedback user_id project_id))%list.
Proof.
  cbv zeta. unfold generate_stream_body. intros Hin. run_step.
  destruct (process_multimodal_input w prompt0 attachment) as [mm|e0]; run_step;
    [|absent Hin].
  destruct (opt_truthy (image_data mm)); run_step.
  all: destruct (invoke_plan w _) as [[plan_resp|]|e1] eqn:Hplan; run_step;
    [|absent Hin|absent Hin].
  all: destruct (invoke_task_plan w _) as [[task_plan_resp|]|e2]; run_step;
    [|absent Hin|absent Hin].
  all: match goal with
       | |- context [run_coder_agent w ?tp ?u] =>
           destruct (run_coder_agent_shape w tp u) as [r Hr]; rewrite Hr in *
       end; run_step.
  all: destruct r as [files_dict|e3]; run_step; [|absent Hin].
  all: destruct (invoke_text w reviewer_llm _) as [review_text|e4]; run_step;
    [|absent Hin].
  all: destruct (parse_review w review_text) as [review_feedback|e5]; run_step;
    [|absent Hin].
  all: match goal with
       | |- context [save_generated w ?a ?b ?c ?d ?e ?f ?g ?h ?i] =>
           destruct (stages_save_generated w a b c d e f g h i) as [Ho _]
       end.
  all: split; [exact Ho|].
  all: eexists _, plan_resp, _, _, _, _, _; split; [exact Hplan|reflexivity].
Qed.

Lemma generate_stream_save prompt0 attachment user_id project_id image_asset_url :
  let c := generate_stream w prompt0 attachment user_id project_id
             image_asset_url in
  complete ∈ stages c →
  ∃ p plan_resp plan_text architect_text diagram_code files_dict review_feedback,
    invoke_plan w p = Ok (Some plan_resp) ∧
    stages c =
      (canonical_stages ++
       stages (save_generated w prompt0 plan_resp plan_text architect_text
                 diagram_code files_dict review_feedback user_id project_id))%list.
Proof.
  cbv zeta. unfold generate_stream. rewrite stages_try_except. intros Hin.
  pose proof (generate_stream_body_save prompt0 attachment user_id project_id
                image_asset_url) as Hbody. cbv zeta in Hbody.
  pose proof (generate_stream_body_stages w prompt0 attachment user_id project_id
                image_asset_url) as Hcut. cbv zeta in Hcut.
  destruct (outcome (generate_stream_body _ _ _ _ _ _)) as [[]|e] eqn:Ho.
  - rewrite app_nil_r in *. by destruct (Hbody Hin) as [_ H].
  - exfalso. destruct Hcut as (n & Hn & Hs). rewrite Hs in Hin.
    apply (complete_not_in_cut n Hn). exact Hin.
Qed.

End SaveStep.

(** C9, as the code has it.  No failure of a database call turns a run into
    a failure: the save step of either path always returns, and a run that
    has yielded [complete] never yields [error].  In the initial path the
    save step yields [save_error] exactly when [create_project] fails, and
    [saved] exactly when a project id was given or created, whatever the
    row update and the version save answer: their failures are absorbed by
    their own handlers.  A run that has yielded [complete] ends with what
    the save step yields; for a signed-in user, a configured database and a
    given project id that is [saved].  The follow-up path never yields
    [save_error]: after [complete] it yields [saved] exactly when user,
    project id and database are there. *)
Theorem persistence_failures_are_local (w : World) :
  (∀ prompt0 plan_resp plan_text architect_text diagram_code files_dict
     review_feedback user_id project_id,
     let c := save_generated w prompt0 plan_resp plan_text architect_text
                diagram_code files_dict review_feedback user_id project_id in
     outcome c = Ok tt ∧
     stages c ∈ [[]; [saved]; [save_error]] ∧
     (stages c = [save_error] ↔
        opt_truthy user_id && is_configured w = true ∧
        opt_truthy project_id = false ∧
        ∃ save_err, create_project w (default EmptyString user_id)
                      (name plan_resp) (description plan_resp) = Raise save_err) ∧
     (stages c = [saved] ↔
        opt_truthy user_id && is_configured w = true ∧
        (opt_truthy project_id = true ∨
         ∃ new_id, create_project w (default EmptyString user_id)
                     (name plan_resp) (description plan_resp) = Ok new_id ∧
                   opt_truthy new_id = true))) ∧
  (∀ modification_request files_dict summary user_id project_id,
     let c := save_followup w modification_request files_dict summary user_id
                project_id in
     outcome c = Ok tt ∧
     stages c = if opt_truthy user_id && opt_truthy project_id && is_configured w
                then [saved] else []) ∧
  (∀ prompt0 attachment user_id project_id image_asset_url,
     let c := generate_stream w prompt0 attachment user_id project_id
                image_asset_url in
     complete ∈ stages c →
     (error ∉ stages c) ∧
     (∃ p plan_resp plan_text architect_text diagram_code files_dict review_feedback,
        invoke_plan w p = Ok (Some plan_resp) ∧
        stages c =
          (canonical_stages ++
           stages (save_generated w prompt0 plan_resp plan_text architect_text
                     diagram_code files_dict review_feedback user_id
                     project_id))%list) ∧
     (opt_truthy user_id && is_configured w = true →
      opt_truthy project_id = true →
      stages c = (canonical_stages ++ [saved])%list)) ∧
  (∀ modification_request current_files review_feedback user_id project_id
     image_asset_url,
     let c := followup_stream w modification_request current_files
                review_feedback user_id project_id image_asset_url in
     complete ∈ stages c →
     (error ∉ stages c) ∧ (save_error ∉ stages c) ∧
     stages c =
       (modifying :: complete ::
        if opt_truthy user_id && opt_truthy project_id && is_configured w
        then [saved] else [])).
Proof.
  split; [|split; [|split]].
  - intros. subst c. split; [apply stages_save_generated|].
    split; [apply stages_save_generated|].
    rewrite save_generated_eq. split; split.
    + destruct (opt_truthy user_id && is_configured w); [|done].
      destruct (opt_truthy project_id); [done|].
      destruct (create_project w _ _ _) as [new_id|save_err]; [|by eauto].
      by destruct (opt_truthy new_id).
    + intros (-> & -> & save_err & ->). done.
    + destruct (opt_truthy user_id && is_configured w); [|done].
      destruct (opt_truthy project_id); [by auto|].
      destruct (create_project w _ _ _) as [new_id|save_err]; [|done].
      destruct (opt_truthy new_id) eqn:Hid; [|done].
      intros _. split; [done|]. right. by exists new_id.
    + intros [-> [->|(new_id & -> & ->)]]; [done|].
      by destruct (opt_truthy project_id).
  - intros. subst c. rewrite save_followup_eq. by destruct (_ && _).
  - intros ? ? ? ? ? c H. subst c.
    destruct (generate_stream_save w prompt0 attachment user_id project_id
                image_asset_url H)
      as (p & plan_resp & plan_text & architect_text & diagram_code & files_dict
          & review_feedback & Hplan & Hs).
    split; [|split].
    + destruct (generate_stream_stages w prompt0 attachment user_id project_id
                  image_asset_url) as [(n & Hn & Hs')|(tail & Htail & Hs')];
        rewrite Hs' in *.
      * by apply complete_not_in_cut in H.
      * repeat (apply elem_of_cons in Htail as [->|Htail]);
          [| | |by apply elem_of_nil in Htail];
          apply (bool_decide_unpack _); vm_compute; exact I.
    + by exists p, plan_resp, plan_text, architect_text, diagram_code, files_dict,
        review_feedback.
    + intros Hu Hp. rewrite Hs, save_generated_eq, Hu, Hp. reflexivity.
  - intros ? ? ? ? ? ? c H. subst c.
    rewrite followup_stream_stages_eq in *.
    destruct (outcome (run_coder_followup _ _ _ _ _)) as [r|e].
    + split; [|split; [|reflexivity]];
        destruct (opt_truthy user_id && opt_truthy project_id && is_configured w);
        apply (bool_decide_unpack _); vm_compute; exact I.
    + apply (bool_decide_pack _) in H. vm_compute in H. destruct H.
Qed.

Lemma persistence_failures_are_local_witness :
  let c := generate_stream (scripted unreachable) "Build a todo app" None
             (Some "user-1") (Some "project-1") None in
  complete ∈ stages c ∧ (error ∉ stages c) ∧
  stages c = (canonical_stages ++ [saved])%list.
Proof.
  cbv zeta.
  assert (H : complete ∈ stages (generate_stream (scripted unreachable)
                "Build a todo app" None (Some "user-1") (Some "project-1") None)).
  { apply (bool_decide_unpack _). vm_compute. exact I. }
  destruct (proj1 (proj2 (proj2 (persistence_failures_are_local (scripted unreachable))))
              "Build a todo app" None (Some "user-1") (Some "project-1") None H)
    as (Herr & _ & Hsaved).
  split; [exact H|]. split; [exact Herr|].
  apply Hsaved; reflexivity.
Defined.

(** C9 as stated fails: with the database configured and every write to it
    failing, a run for an existing project still ends [complete], [saved];
    the failed row update and the failed version save are reported nowhere
    in the stream.  The follow-up run behaves the same. *)
Lemma failed_write_reported_as_saved :
  let w := scripted unreachable in
  let c := generate_stream w "Build a todo app" None
             (Some "user-1") (Some "project-1") None in
  let f := followup_stream w "Make it blue" app_only EmptyString
             (Some "user-1") (Some "project-1") None in
  is_configured w = true ∧
  (∀ id row, update_project w id row = Raise (ExternalError "connection refused")) ∧
  (∀ id row, save_version w id row = Raise (ExternalError "connection refused")) ∧
  stages c = (canonical_stages ++ [saved])%list ∧
  (save_error ∉ stages c) ∧
  stages f = [modifying; complete; saved] ∧
  (save_error ∉ stages f).
Proof.
  cbv zeta. repeat split; try (vm_compute; reflexivity).
  - apply (bool_decide_unpack _). vm_compute. exact I.
  - apply (bool_decide_unpack _). vm_compute. exact I.
Qed.

(** ** C6 and C10: the precondition of the follow-up run *)

Lemma current_app_code_empty (current_files : gmap string string) :
  ¬ usable current_files "/App.tsx" → ¬ usable current_files "App.tsx" →
  current_app_code current_files = EmptyString.
Proof.
  unfold usable, current_app_code. intros H1 H2.
  destruct (current_files !! "/App.tsx") as [c1|] eqn:E1; simpl.
  - destruct c1; [done|]. exfalso. apply H1. by eexists.
  - destruct (current_files !! "App.tsx") as [c2|] eqn:E2; simpl; [|done].
    destruct c2; [done|]. exfalso. apply H2. by eexists.
Qed.

(** C6.  When [current_files] has no usable [/App.tsx] and no usable
    [App.tsx] entry, [run_coder_followup] raises its precondition failure
    with an empty log: no model has been called.  The streaming run then
    yields [modifying] and the [error] event, and calls no model either. *)
Theorem followup_precondition (w : World) modification_request
    (current_files : gmap string string) review_feedback user_id project_id
    image_asset_url :
  ¬ usable current_files "/App.tsx" → ¬ usable current_files "App.tsx" →
  run_coder_followup w modification_request current_files review_feedback
    image_asset_url = ([], Raise (ValueError "No App.tsx found in current files")) ∧
  model_calls (followup_stream w modification_request current_files review_feedback
                 user_id project_id image_asset_url) = [] ∧
  events (followup_stream w modification_request current_files review_feedback
            user_id project_id image_asset_url) =
    [ {| ev_stage := modifying; ev_fields := message "Applying modifications...." |};
      {| ev_stage := error;
         ev_fields := message "No App.tsx found in current files" |} ].
Proof.
  intros H1 H2.
  assert (Hrun : run_coder_followup w modification_request current_files
                   review_feedback image_asset_url
                 = ([], Raise (ValueError "No App.tsx found in current files"))).
  { unfold run_coder_followup. by rewrite current_app_code_empty. }
  split; [exact Hrun|].
  unfold followup_stream, followup_stream_body. rewrite Hrun. done.
Qed.

Lemma followup_precondition_witness :
  let current_files : gmap string string := {[ "/index.css" := "body {}" ]} in
  ¬ usable current_files "/App.tsx" ∧ ¬ usable current_files "App.tsx" ∧
  model_calls (followup_stream (scripted calm) "Make it blue" current_files
                 EmptyString None None None) = [].
Proof.
  cbv zeta.
  assert (H1 : ¬ usable ({[ "/index.css" := "body {}" ]} : gmap string string) "/App.tsx").
  { intros (code & Hc & _). vm_compute in Hc. discriminate. }
  assert (H2 : ¬ usable ({[ "/index.css" := "body {}" ]} : gmap string string) "App.tsx").
  { intros (code & Hc & _). vm_compute in Hc. discriminate. }
  split; [exact H1|]. split; [exact H2|].
  exact (proj1 (proj2 (followup_precondition (scripted calm) "Make it blue" _
                         EmptyString None None None H1 H2))).
Defined.

(** C10 as stated fails: here [App.tsx] maps to the empty string, yet the
    run does not raise the precondition failure; it finds code under
    [/App.tsx] and calls the coder model. *)
Lemma empty_fallback_beside_entry_point :
  let current_files : gmap string string :=
    {[ "/App.tsx" := "export default function App() {}"; "App.tsx" := EmptyString ]} in
  let c := run_coder_followup (scripted calm) "Make it blue" current_files
             EmptyString None in
  current_files !! "App.tsx" = Some EmptyString ∧
  model_calls c = [coder_llm] ∧
  outcome c ≠ Raise (ValueError "No App.tsx found in current files").
Proof.
  cbv zeta. split; [reflexivity|]. split; [vm_compute; reflexivity|].
  vm_compute. discriminate.
Qed.

(** C10, amended.  When the entry the lookup reaches maps to the empty
    string, that is [/App.tsx] itself, or [App.tsx] when [/App.tsx] is
    absent, the run raises the precondition failure before any model call,
    exactly as when the key is missing. *)
Theorem followup_empty_entry_point (w : World) modification_request
    (current_files : gmap string string) review_feedback image_asset_url :
  current_files !! "/App.tsx" = Some EmptyString ∨
  (current_files !! "/App.tsx" = None ∧
   current_files !! "App.tsx" = Some EmptyString) →
  let c := run_coder_followup w modification_request current_files review_feedback
             image_asset_url in
  outcome c = Raise (ValueError "No App.tsx found in current files") ∧
  model_calls c = [] ∧
  c = run_coder_followup w modification_request
        (delete "/App.tsx" (delete "App.tsx" current_files)) review_feedback
        image_asset_url.
Proof.
  intros H. cbv zeta. unfold run_coder_followup, current_app_code.
  rewrite lookup_delete_eq, lookup_delete_ne, lookup_delete_eq by done.
  destruct H as [->|[-> ->]]; done.
Qed.

Lemma followup_empty_entry_point_witness :
  let current_files : gmap string string :=
    {[ "/App.tsx" := EmptyString; "App.tsx" := "export default function App() {}" ]} in
  current_files !! "/App.tsx" = Some EmptyString ∧
  model_calls (run_coder_followup (scripted calm) "Make it blue" current_files
                 EmptyString None) = [].
Proof.
  cbv zeta.
  assert (H : ({[ "/App.tsx" := EmptyString;
                  "App.tsx" := "export default function App() {}" ]}
               : gmap string string) !! "/App.tsx" = Some EmptyString)
    by reflexivity.
  split; [exact H|].
  exact (proj1 (proj2 (followup_empty_entry_point (scripted calm) "Make it blue" _
                         EmptyString None (or_introl H)))).
Defined.

(** ** C1: the file set handed to the caller *)

Section InitialPaths.

Context (w : World).

(** The streaming coder returns only what the normalisation step left. *)
Lemma run_coder_agent_normalized task_plan image_asset_url files_dict path :
  outcome (run_coder_agent w task_plan image_asset_url) = Ok files_dict →
  is_Some (files_dict !! path) → conflicting path = false.
Proof.
  unfold run_coder_agent, call_text, mbind, Run_bind, run_bind, lift, outcome.
  destruct (invoke_text w coder_llm _) as [response_text|?]; [|done].
  destruct (parse_generated_data_app _ _) as [generated_data|?]; [|done].
  destruct (select_files generated_data) as [selected|?]; [|done].
  destruct (as_dict "keys" selected) as [d|?]; [|done].
  simpl. intros [= <-] [v Hv]. rewrite lookup_remove_conflicting in Hv.
  by destruct (conflicting path).
Qed.

(** So does the coder node of the graph. *)
Lemma coder_agent_normalized task_plan files_dict path :
  outcome (coder_agent w task_plan) = Ok files_dict →
  is_Some (files_dict !! path) → conflicting path = false.
Proof.
  unfold coder_agent, call_text, mbind, Run_bind, run_bind, lift, outcome.
  destruct (invoke_text w coder_llm _) as [response_text|?]; [|done].
  destruct (parse_generated_data_graph _ _) as [generated_data|?]; [|done].
  destruct (select_files generated_data) as [selected|?]; [|done].
  destruct (as_dict "keys" selected) as [d|?]; [|done].
  simpl. unfold GeneratedProject. case_bool_decide; [|done].
  intros [= <-] [v Hv]. rewrite lookup_omap in Hv.
  rewrite lookup_remove_conflicting in Hv.
  by destruct (conflicting path).
Qed.

End InitialPaths.

(** C1.  The follow-up path hands over the model's file set as parsed: on
    this answer the [complete] event of [followup_stream] carries both
    [/App.tsx] and the denylisted [/App.js], while the streaming coder of the
    initial path, given the same answer, returns [/App.tsx] alone. *)
Theorem followup_keeps_conflicting_entry_point :
  let w := scripted two_entry_points in
  let files_dict : gmap string json :=
    {[ "/App.tsx" := JStr "tsx code"; "/App.js" := JStr "js code" ]} in
  events (followup_stream w "Make it blue" app_only EmptyString None None None) =
    [ {| ev_stage := modifying; ev_fields := message "Applying modifications...." |};
      {| ev_stage := complete;
         ev_fields := [("files", JObj files_dict);
                       ("summary", JStr "Modifications applied successfully.")] |} ] ∧
  conflicting "/App.js" = true ∧
  is_Some (files_dict !! "/App.js") ∧
  outcome (run_coder_agent w todo_task_plan None) =
    Ok {[ "/App.tsx" := JStr "tsx code" ]}.
Proof.
  cbv zeta. split; [vm_compute; reflexivity|].
  split; [vm_compute; reflexivity|].
  split; [by eexists|].
  vm_compute. reflexivity.
Qed.

(** ** C7: what the extraction error carries *)

#[local] Arguments String.append : simpl nomatch.

Lemma startswith_app (p b : string) : PyStr.startswith p (p ++ b) = true.
Proof. induction p as [|c p IH]; simpl; [done|]. by rewrite Ascii.eqb_refl. Qed.

Lemma contains_head (p s : string) :
  PyStr.startswith p s = true → PyStr.contains p s = true.
Proof. destruct s; simpl; by intros ->. Qed.

Lemma occurs_in_contains (p s : string) :
  PyStr.occurs_in p s → PyStr.contains p s = true.
Proof.
  intros (a & b & ->). induction a as [|c a IH].
  - change (PyStr.contains p (p ++ b) = true).
    apply contains_head, startswith_app.
  - change (PyStr.contains p (String c (a ++ p ++ b)) = true).
    simpl. rewrite IH. apply orb_true_r.
Qed.

Lemma string_app_nil_r (p : string) : p ++ EmptyString = p.
Proof. induction p as [|c p IH]; simpl; [done|]. by rewrite IH. Qed.

Lemma occurs_in_suffix (a p : string) : PyStr.occurs_in p (a ++ p).
Proof. exists a, EmptyString. by rewrite string_app_nil_r. Qed.

Lemma string_app_assoc (a b c : string) : (a ++ b) ++ c = a ++ b ++ c.
Proof. induction a as [|x a IH]; simpl; [done|]. by rewrite IH. Qed.

Lemma occurs_in_app_r (a p s : string) :
  PyStr.occurs_in p s → PyStr.occurs_in p (a ++ s).
Proof. intros (x & y & ->). exists (a ++ x), y. by rewrite string_app_assoc. Qed.

(** In the graph path an extraction failure is a [ValueError] whose message
    ends with the first 500 characters of the cleaned text, unless it is an
    exception of [json.loads] that is no decode error. *)
Lemma parse_generated_data_graph_preview (w : World) cleaned_text e :
  parse_generated_data_graph w cleaned_text = Raise e →
  (∃ msg, e = ValueError msg ∧ PyStr.occurs_in (PyStr.take 500 cleaned_text) msg) ∨
  loads w cleaned_text = Raise e ∨
  (∃ group0, Re.search_braces cleaned_text = Some group0 ∧ loads w group0 = Raise e).
Proof.
  unfold parse_generated_data_graph.
  destruct (loads w cleaned_text) as [v|e0]; [done|].
  destruct e0 as [m|m|m|m|m|m|m]; try (intros [= <-]; by right; left).
  destruct (Re.search_braces cleaned_text) as [group0|].
  - destruct (loads w group0) as [v|e0] eqn:Hgroup; [done|].
    destruct e0 as [m'|m'|m'|m'|m'|m'|m'];
      try (intros [= <-]; right; right; by exists group0).
    intros H. left.
    exists ("Could not parse JSON: " ++ m'
              ++ String "010"%char "Response preview: "
              ++ PyStr.take 500 cleaned_text).
    split; [congruence|]. do 2 apply occurs_in_app_r. apply occurs_in_suffix.
  - intros H. left.
    exists ("No JSON object found in coder response: " ++ PyStr.take 500 cleaned_text).
    split; [congruence|]. apply occurs_in_suffix.
Qed.

(** C7.  On an answer that defeats both layers the graph coder raises a
    [ValueError] that ends with the offending text, but the streaming coder
    raises one without it: the streaming run ends in an [error] event whose
    message is the bare sentence, in which the offending text does not
    occur. *)
Theorem streaming_error_has_no_preview :
  let w := scripted broken in
  let c := generate_stream w "Build a todo app" None None None None in
  loads w (clean_response broken_text)
  = Raise (JSONDecodeError (json_error_text w (clean_response broken_text))) ∧
  Re.search_braces (clean_response broken_text) = None ∧
  outcome (coder_agent w todo_task_plan) =
    Raise (ValueError ("No JSON object found in coder response: " ++ broken_text)) ∧
  outcome (run_coder_agent w todo_task_plan None) =
    Raise (ValueError "No JSON object found in coder response") ∧
  stages c = [planning; plan_complete; architecting; architect_complete; coding; error] ∧
  last (events c) =
    Some {| ev_stage := error;
            ev_fields := message "No JSON object found in coder response" |} ∧
  ¬ PyStr.occurs_in (PyStr.take 500 broken_text)
      "No JSON object found in coder response".
Proof.
  cbv zeta. repeat split; try (vm_compute; reflexivity).
  intros H. apply occurs_in_contains in H. vm_compute in H. discriminate.
Qed.

(** ** C8: the Review stage *)




Section Review.

Context (w : World).

Local Opaque run_coder_agent parse_review save_generated extract_architecture_diagram.

Ltac run_simpl :=
  cbn [outcome lift yield call_plan call_task_plan call_text snd fst stages
       events log omap fmap list_fmap list_omap app mret Run_ret run_ret raise
       ev_stage] in *.

Ltac run_step := rewrite ?stages_bind, ?events_bind, ?outcome_bind in *; run_simpl.

Ltac absent H := apply (bool_decide_pack _) in H; vm_compute in H; destruct H.





End Review.


(** ** C2: the extraction on the reference inputs *)

Lemma chars_app (a b : string) : chars (a ++ b) = (chars a ++ chars b)%list.
Proof. induction a as [|c a IH]; simpl; [done|]. by rewrite <- IH. Qed.

(** ** White space *)

Section Strip.

Lemma lstrip_space (a : ascii) (r : string) :
  PyStr.is_space a = true → PyStr.lstrip (String a r) = PyStr.lstrip r.
Proof. intros H. cbn [PyStr.lstrip]. by rewrite H. Qed.

Lemma lstrip_space2 (a b : ascii) (r : string) :
  PyStr.is_space a = false → PyStr.is_space2 a b = true →
  PyStr.lstrip (String a (String b r)) = PyStr.lstrip r.
Proof. intros H1 H2. cbn [PyStr.lstrip]. by rewrite H1, H2. Qed.

Lemma lstrip_space3 (a b c : ascii) (r : string) :
  PyStr.is_space a = false → PyStr.is_space2 a b = false →
  PyStr.is_space3 a b c = true →
  PyStr.lstrip (String a (String b (String c r))) = PyStr.lstrip r.
Proof. intros H1 H2 H3. cbn [PyStr.lstrip]. by rewrite H1, H2, H3. Qed.

Lemma lstrip_keeps (s : string) : starts_blank s = false → PyStr.lstrip s = s.
Proof.
  destruct s as [|a [|b [|c r]]]; cbn [starts_blank PyStr.lstrip]; [done|..].
  - rewrite orb_false_r. by intros ->.
  - rewrite orb_false_r. intros [-> ->]%orb_false_iff. done.
  - intros [-> [-> ->]%orb_false_iff]%orb_false_iff. done.
Qed.

(** Induction along the characters [lstrip] removes. *)
Lemma lstrip_ind (P : string → Prop) :
  (∀ a r, PyStr.is_space a = true → P r → P (String a r)) →
  (∀ a b r, PyStr.is_space a = false → PyStr.is_space2 a b = true →
            P r → P (String a (String b r))) →
  (∀ a b c r, PyStr.is_space a = false → PyStr.is_space2 a b = false →
              PyStr.is_space3 a b c = true →
              P r → P (String a (String b (String c r)))) →
  (∀ s, starts_blank s = false → P s) →
  ∀ s, P s.
Proof.
  intros H1 H2 H3 Hk s.
  remember (String.length s) as n eqn:Hn. revert s Hn.
  induction n as [n IH] using lt_wf_ind. intros s ->.
  destruct s as [|a r1]; [by apply Hk|].
  destruct (PyStr.is_space a) eqn:Ha.
  { apply H1; [done|]. eapply IH; [|reflexivity]. simpl. lia. }
  destruct r1 as [|b r2]; [apply Hk; cbn; by rewrite Ha|].
  destruct (PyStr.is_space2 a b) eqn:Hb.
  { apply H2; [done..|]. eapply IH; [|reflexivity]. simpl. lia. }
  destruct r2 as [|c r3]; [apply Hk; cbn; by rewrite Ha, Hb|].
  destruct (PyStr.is_space3 a b c) eqn:Hc.
  { apply H3; [done..|]. eapply IH; [|reflexivity]. simpl. lia. }
  apply Hk. cbn. by rewrite Ha, Hb, Hc.
Qed.

Lemma lstrip_suffix (s : string) : ∃ p, s = p ++ PyStr.lstrip s.
Proof.
  induction s as [a r Ha [p IH]|a b r Ha Hb [p IH]|a b c r Ha Hb Hc [p IH]|s Hs]
    using lstrip_ind.
  - rewrite lstrip_space by done. exists (String a p). simpl. by rewrite <- IH.
  - rewrite lstrip_space2 by done. exists (String a (String b p)). simpl.
    by rewrite <- IH.
  - rewrite lstrip_space3 by done. exists (String a (String b (String c p))).
    simpl. by rewrite <- IH.
  - rewrite lstrip_keeps by done. by exists EmptyString.
Qed.

Lemma lstrip_result (s : string) : starts_blank (PyStr.lstrip s) = false.
Proof.
  induction s as [a r Ha IH|a b r Ha Hb IH|a b c r Ha Hb Hc IH|s Hs]
    using lstrip_ind.
  - by rewrite lstrip_space.
  - by rewrite lstrip_space2.
  - by rewrite lstrip_space3.
  - by rewrite lstrip_keeps.
Qed.

Lemma lstrip_blank_app (a b : string) :
  PyStr.blank a = true → PyStr.lstrip (a ++ b) = PyStr.lstrip b.
Proof.
  unfold PyStr.blank.
  induction a as [x r Hx IH|x y r Hx Hy IH|x y z r Hx Hy Hz IH|s Hs]
    using lstrip_ind.
  - rewrite lstrip_space by done. intros H.
    change (String x r ++ b) with (String x (r ++ b)).
    rewrite lstrip_space by done. by apply IH.
  - rewrite lstrip_space2 by done. intros H.
    change (String x (String y r) ++ b) with (String x (String y (r ++ b))).
    rewrite lstrip_space2 by done. by apply IH.
  - rewrite lstrip_space3 by done. intros H.
    change (String x (String y (String z r)) ++ b)
      with (String x (String y (String z (r ++ b)))).
    rewrite lstrip_space3 by done. by apply IH.
  - rewrite lstrip_keeps by done. by destruct s.
Qed.

Lemma blank_app (a b : string) :
  PyStr.blank a = true → PyStr.blank b = true → PyStr.blank (a ++ b) = true.
Proof.
  intros Ha Hb. unfold PyStr.blank in *. by rewrite lstrip_blank_app.
Qed.

Lemma is_space2_bytes (a b : ascii) :
  PyStr.is_space2 a b = true → space_byte a = true ∧ space_byte b = true.
Proof.
  unfold PyStr.is_space2, space_byte.
  intros [Ha%N.eqb_eq [Hb%N.eqb_eq|Hb%N.eqb_eq]%orb_true_iff]%andb_true_iff;
    rewrite Ha, Hb; split; apply orb_true_r.
Qed.

Lemma is_space3_bytes (a b c : ascii) :
  PyStr.is_space3 a b c = true →
  space_byte a = true ∧ space_byte b = true ∧ space_byte c = true.
Proof.
  unfold PyStr.is_space3, space_byte. intros H.
  assert (Hge : (128 <=? N_of_ascii a)%N = true ∧ (128 <=? N_of_ascii b)%N = true
                ∧ (128 <=? N_of_ascii c)%N = true).
  { rewrite !N.leb_le.
    repeat match type of H with
           | (_ || _)%bool = true => apply orb_true_iff in H as [H|H]
           end;
      repeat match goal with
             | H : (_ && _)%bool = true |- _ => apply andb_true_iff in H as [? ?]
             | H : (_ || _)%bool = true |- _ => apply orb_true_iff in H as [?|?]
             | H : (_ =? _)%N = true |- _ => apply N.eqb_eq in H
             | H : (_ <=? _)%N = true |- _ => apply N.leb_le in H
             end; lia. }
  destruct Hge as (-> & -> & ->). by rewrite !orb_true_r.
Qed.

(** A blank text has no byte of the ASCII range that is not white space. *)
Lemma blank_bytes (s : string) :
  PyStr.blank s = true → Forall (λ c, space_byte c = true) (chars s).
Proof.
  unfold PyStr.blank.
  induction s as [a r Ha IH|a b r Ha Hb IH|a b c r Ha Hb Hc IH|s Hs]
    using lstrip_ind.
  - rewrite lstrip_space by done. intros H. constructor; [|by apply IH].
    unfold space_byte. by rewrite Ha.
  - rewrite lstrip_space2 by done. intros H.
    destruct (is_space2_bytes _ _ Hb). repeat constructor; [done..|by apply IH].
  - rewrite lstrip_space3 by done. intros H.
    destruct (is_space3_bytes _ _ _ Hc) as (? & ? & ?).
    repeat constructor; [done..|by apply IH].
  - rewrite lstrip_keeps by done. destruct s; [constructor|done].
Qed.

Lemma starts_blank_prefix (p q : string) :
  starts_blank (p ++ q) = false → starts_blank p = false.
Proof.
  destruct p as [|a [|b [|c p]]]; [done|..]; simpl.
  - destruct (PyStr.is_space a); [done|]. done.
  - destruct (PyStr.is_space a); [done|]. simpl. rewrite orb_false_r.
    destruct (PyStr.is_space2 a b); [done|]. done.
  - done.
Qed.

Lemma rstrip_split (s : string) :
  ∃ q, s = PyStr.rstrip s ++ q ∧ PyStr.blank q = true.
Proof.
  induction s as [|c r (q & IH & Hq)]; [by exists EmptyString|].
  cbn [PyStr.rstrip].
  destruct (PyStr.blank (String c r)) eqn:Hb.
  - by exists (String c r).
  - exists q. split; [|done]. simpl. by rewrite <- IH.
Qed.

Lemma rstrip_idempotent (s : string) : PyStr.rstrip (PyStr.rstrip s) = PyStr.rstrip s.
Proof.
  induction s as [|c r IH]; [reflexivity|].
  cbn [PyStr.rstrip].
  destruct (PyStr.blank (String c r)) eqn:Hb; [reflexivity|].
  cbn [PyStr.rstrip]. rewrite IH.
  destruct (PyStr.blank (String c (PyStr.rstrip r))) eqn:Hb'; [|reflexivity].
  destruct (rstrip_split r) as (q & Hr & Hq).
  rewrite Hr in Hb.
  change (String c (PyStr.rstrip r ++ q)) with (String c (PyStr.rstrip r) ++ q) in Hb.
  rewrite blank_app in Hb by done. discriminate.
Qed.

Lemma strip_idempotent (s : string) : PyStr.strip (PyStr.strip s) = PyStr.strip s.
Proof.
  unfold PyStr.strip.
  rewrite (lstrip_keeps (PyStr.rstrip (PyStr.lstrip s))); [apply rstrip_idempotent|].
  destruct (rstrip_split (PyStr.lstrip s)) as (q & Hs & _).
  apply (starts_blank_prefix _ q). rewrite <- Hs. apply lstrip_result.
Qed.

(** A text that ends with a fence has no white space at its end. *)
Lemma rstrip_app_fence (s : string) : PyStr.rstrip (s ++ fence) = s ++ fence.
Proof.
  assert (Hnb : ∀ x, PyStr.blank (x ++ fence) = false).
  { intros x. destruct (PyStr.blank (x ++ fence)) eqn:Hb; [|done].
    apply blank_bytes in Hb. rewrite chars_app, Forall_app in Hb.
    destruct Hb as [_ Hb]. apply Forall_cons in Hb as [Hb _].
    vm_compute in Hb. discriminate. }
  induction s as [|c s IH]; [reflexivity|].
  change (String c s ++ fence) with (String c (s ++ fence)).
  cbn [PyStr.rstrip].
  change (String c (s ++ fence)) with (String c s ++ fence) at 1.
  by rewrite Hnb, IH.
Qed.

Lemma chars_lstrip (s : string) : chars (PyStr.lstrip s) `sublist_of` chars s.
Proof.
  destruct (lstrip_suffix s) as [p Hp]. rewrite Hp at 2. rewrite chars_app.
  by apply sublist_inserts_l.
Qed.

Lemma chars_rstrip (s : string) : chars (PyStr.rstrip s) `sublist_of` chars s.
Proof.
  destruct (rstrip_split s) as (q & Hq & _). rewrite Hq at 2. rewrite chars_app.
  by apply sublist_inserts_r.
Qed.

Lemma chars_strip (s : string) : chars (PyStr.strip s) `sublist_of` chars s.
Proof.
  unfold PyStr.strip. etrans; [apply chars_rstrip|apply chars_lstrip].
Qed.

End Strip.

Section Cleaning.

Lemma split_lines_nonempty (s : string) : PyStr.split_lines s ≠ [].
Proof.
  destruct s as [|c r]; simpl; [done|].
  destruct (Ascii.eqb c "010"); [done|]. by destruct (PyStr.split_lines r).
Qed.

Lemma join_lines_cons (l : string) (ls : list string) :
  ls ≠ [] → PyStr.join_lines (l :: ls) = l ++ String "010" (PyStr.join_lines ls).
Proof. by destruct ls. Qed.

Lemma join_lines_head (c : ascii) (l : string) (ls : list string) :
  PyStr.join_lines (String c l :: ls) = String c (PyStr.join_lines (l :: ls)).
Proof. by destruct ls. Qed.

Lemma join_split_lines (s : string) : PyStr.join_lines (PyStr.split_lines s) = s.
Proof.
  induction s as [|c r IH]; [done|].
  cbn [PyStr.split_lines]. destruct (Ascii.eqb_spec c "010") as [->|Hc].
  - rewrite join_lines_cons by apply split_lines_nonempty. by rewrite IH.
  - destruct (PyStr.split_lines r) as [|l ls] eqn:E.
    + by apply split_lines_nonempty in E.
    + by rewrite join_lines_head, IH.
Qed.

Lemma chars_join_lines_tail (l : string) (ls : list string) :
  chars (PyStr.join_lines ls) `sublist_of` chars (PyStr.join_lines (l :: ls)).
Proof.
  destruct ls as [|l' ls]; [apply sublist_nil_l|].
  rewrite (join_lines_cons l (l' :: ls)) by done. rewrite chars_app.
  apply sublist_inserts_l. apply sublist_cons. reflexivity.
Qed.

Lemma chars_join_lines_sublist (ls1 ls2 : list string) :
  ls1 `sublist_of` ls2 →
  chars (PyStr.join_lines ls1) `sublist_of` chars (PyStr.join_lines ls2).
Proof.
  induction 1 as [|l ls1 ls2 Hs IH|l ls1 ls2 Hs IH].
  - apply sublist_nil_l.
  - destruct ls1 as [|l1 ls1].
    + destruct ls2 as [|l2 ls2]; [reflexivity|].
      rewrite (join_lines_cons l (l2 :: ls2)) by done. rewrite chars_app.
      apply sublist_inserts_r. reflexivity.
    + assert (ls2 ≠ []) by (intros ->; by apply sublist_nil_r in Hs).
      rewrite (join_lines_cons l (l1 :: ls1)), (join_lines_cons l ls2) by done.
      rewrite !chars_app.
      apply sublist_app; [reflexivity|]. by apply sublist_skip.
  - etrans; [exact IH|apply chars_join_lines_tail].
Qed.

(** Cleaning a response only drops characters. *)
Lemma chars_clean_response (response_text : string) :
  chars (clean_response response_text) `sublist_of` chars response_text.
Proof.
  unfold clean_response.
  destruct (PyStr.startswith fence _); [|apply chars_strip].
  etrans; [|apply chars_strip].
  rewrite <- (join_split_lines (PyStr.strip response_text)) at 2.
  apply chars_join_lines_sublist.
  etrans; [apply sublist_filter|].
  destruct (PyStr.split_lines _); [reflexivity|]. apply sublist_cons. reflexivity.
Qed.

Lemma has_brace_span_clean_response (response_text : string) :
  has_brace_span (clean_response response_text) → has_brace_span response_text.
Proof. unfold has_brace_span. intros H. etrans; [exact H|apply chars_clean_response]. Qed.

Lemma upto_last_close_None (s : string) :
  "}"%char ∉ chars s → Re.upto_last_close s = None.
Proof.
  induction s as [|c r IH]; simpl; [done|].
  rewrite not_elem_of_cons. intros [Hc Hr]. rewrite IH by done.
  destruct (Ascii.eqb_spec c "}"); [by subst|done].
Qed.

(** Without a brace-delimited span the pattern has no match. *)
Lemma search_braces_None (s : string) :
  ¬ has_brace_span s → Re.search_braces s = None.
Proof.
  unfold has_brace_span. induction s as [|c r IH]; simpl; [done|].
  intros Hno.
  assert (Hr : Re.search_braces r = None).
  { apply IH. intros H. apply Hno. by apply sublist_cons. }
  rewrite Hr. destruct (Ascii.eqb_spec c "{") as [->|Hc]; [|done].
  rewrite upto_last_close_None; [done|].
  intros Hin. apply Hno. apply sublist_skip. by apply singleton_sublist_l.
Qed.

End Cleaning.

(** C2 as stated fails in its third part: the text [1] contains no
    brace-delimited span, yet the extraction does not raise its error; the
    direct parse accepts the text and returns the number.  The streaming
    coder then fails on the value with a [TypeError]. *)
Lemma extraction_accepts_a_number :
  let w := scripted calm in
  ¬ has_brace_span "1" ∧
  parse_generated_data_app w (clean_response "1") = Ok (JInt 1) ∧
  parse_generated_data_graph w (clean_response "1") = Ok (JInt 1) ∧
  select_files (JInt 1) = Raise (TypeError "argument of type 'int' is not iterable").
Proof.
  cbv zeta. split; [|repeat split; vm_compute; reflexivity].
  unfold has_brace_span. intros H. apply sublist_length in H. simpl in H. lia.
Qed.

(** The reference inputs, for an interpreter that can enter one object. *)
Lemma reference_vectors_parse (w : World) (v : string) :
  (0 < json_depth_limit w)%nat →
  v ∈ [fenced_vector; prose_vector] →
  parse_generated_data_graph w (clean_response v) = Ok (JObj a_is_1) ∧
  parse_generated_data_app w (clean_response v) = Ok (JObj a_is_1).
Proof.
  intros Hroom Hv.
  destruct (json_depth_limit w) as [|depth] eqn:Hd; [lia|].
  unfold parse_generated_data_graph, parse_generated_data_app, loads.
  rewrite Hd.
  repeat (apply elem_of_cons in Hv as [->|Hv]); [| |by apply elem_of_nil in Hv];
    split; vm_compute; reflexivity.
Qed.

(** C2, amended.  On the two reference inputs the extraction returns the
    object with [a] equal to 1, in the graph path and in the streaming path,
    and the streaming coder returns it as the file set, whenever the
    interpreter has room to enter one object.  On an input that contains no
    brace-delimited span the outcome is that of [json.loads] on the cleaned
    text: a value it returns is returned as it is; when it raises a decode
    error the extraction raises its error, [No JSON object found in coder
    response], followed in the graph path by the first 500 characters of the
    cleaned text; any other exception it raises is raised by the
    extraction. *)
Theorem extraction_reference_vectors (w : World) :
  ((0 < json_depth_limit w)%nat →
   ∀ v, v ∈ [fenced_vector; prose_vector] →
     parse_generated_data_graph w (clean_response v) = Ok (JObj a_is_1) ∧
     parse_generated_data_app w (clean_response v) = Ok (JObj a_is_1) ∧
     ∀ task_plan image_asset_url,
       invoke_text w coder_llm (coder_task_prompt task_plan image_asset_url) = Ok v →
       outcome (run_coder_agent w task_plan image_asset_url) = Ok a_is_1) ∧
  (∀ response_text,
     ¬ has_brace_span response_text →
     match loads w (clean_response response_text) with
     | Ok generated_data =>
         parse_generated_data_app w (clean_response response_text)
         = Ok generated_data ∧
         parse_generated_data_graph w (clean_response response_text)
         = Ok generated_data
     | Raise (JSONDecodeError _) =>
         parse_generated_data_app w (clean_response response_text) =
           Raise (ValueError "No JSON object found in coder response") ∧
         parse_generated_data_graph w (clean_response response_text) =
           Raise (ValueError ("No JSON object found in coder response: "
                                ++ PyStr.take 500 (clean_response response_text)))
     | Raise e =>
         parse_generated_data_app w (clean_response response_text) = Raise e ∧
         parse_generated_data_graph w (clean_response response_text) = Raise e
     end).
Proof.
  split.
  - intros Hroom v Hv.
    destruct (reference_vectors_parse w v Hroom Hv) as [Hg Ha].
    split; [exact Hg|]. split; [exact Ha|].
    intros task_plan image_asset_url Hcall.
    unfold run_coder_agent, call_text, mbind, Run_bind, run_bind, lift, outcome.
    rewrite Hcall, Ha. vm_compute. reflexivity.
  - intros response_text Hno.
    assert (Hsearch : Re.search_braces (clean_response response_text) = None).
    { apply search_braces_None. intros H. apply Hno.
      by apply has_brace_span_clean_response. }
    unfold parse_generated_data_app, parse_generated_data_graph.
    destruct (loads w (clean_response response_text)) as [v|e]; [done|].
    destruct e; try done. by rewrite Hsearch.
Qed.

Lemma extraction_reference_vectors_witness :
  let w := scripted broken in
  (0 < json_depth_limit w)%nat ∧
  fenced_vector ∈ [fenced_vector; prose_vector] ∧
  ¬ has_brace_span broken_text ∧
  parse_generated_data_app w (clean_response fenced_vector) = Ok (JObj a_is_1) ∧
  parse_generated_data_app w (clean_response broken_text) =
    Raise (ValueError "No JSON object found in coder response").
Proof.
  cbv zeta.
  assert (H0 : (0 < json_depth_limit (scripted broken))%nat) by (simpl; lia).
  assert (H1 : fenced_vector ∈ [fenced_vector; prose_vector]) by left.
  assert (H2 : ¬ has_brace_span broken_text).
  { unfold has_brace_span. intros H.
    assert (Hin : "{"%char ∈ chars broken_text)
      by (eapply elem_of_sublist; [|exact H]; left).
    apply (bool_decide_pack _) in Hin. vm_compute in Hin. destruct Hin. }
  destruct (extraction_reference_vectors (scripted broken)) as [Hv Hn].
  split; [exact H0|]. split; [exact H1|]. split; [exact H2|].
  split; [exact (proj1 (proj2 (Hv H0 _ H1)))|].
  specialize (Hn _ H2).
  assert (H3 : loads (scripted broken) (clean_response broken_text)
               = Raise (JSONDecodeError
                          (json_error_text (scripted broken)
                             (clean_response broken_text))))
    by (vm_compute; reflexivity).
  rewrite H3 in Hn. exact (proj1 Hn).
Defined.

(** * Further properties of the pipeline code *)

(** ** The interleaving of events and model calls *)

Section TraceEquations.

Context {A B : Type}.
Implicit Types (c : Run A) (k : A → Run B) (h : exn → Run A).

Lemma trace_bind c k :
  trace (c ≫= k) =
  (trace c ++ match outcome c with Ok a => trace (k a) | Raise _ => [] end)%list.
Proof.
  unfold trace. rewrite log_bind, fmap_app. by destruct (outcome c).
Qed.

Lemma trace_try_except c h :
  trace (try_except c h) =
  (trace c ++ match outcome c with Ok _ => [] | Raise e => trace (h e) end)%list.
Proof.
  unfold trace. rewrite log_try_except, fmap_app. by destruct (outcome c).
Qed.

End TraceEquations.

Section Traces.

Context (w : World).

Lemma trace_save_generated prompt0 plan_resp plan_text architect_text diagram_code
    files_dict review_feedback user_id project_id :
  let c := save_generated w prompt0 plan_resp plan_text architect_text diagram_code
             files_dict review_feedback user_id project_id in
  trace c = inl <$> stages c.
Proof.
  cbv zeta. rewrite save_generated_eq.
  destruct (opt_truthy user_id && is_configured w); [|done].
  destruct (opt_truthy project_id); [done|].
  destruct (create_project w _ _ _) as [new_id|e]; [|done].
  by destruct (opt_truthy new_id).
Qed.

Local Opaque run_coder_agent parse_review save_generated extract_architecture_diagram.

Ltac trace_simpl :=
  cbn [outcome lift yield call_plan call_task_plan call_text snd fst trace
       log fmap list_fmap app mret Run_ret run_ret raise ev_stage].

Ltac trace_step := rewrite ?trace_bind, ?outcome_bind; trace_simpl.

Ltac cut_at n :=
  exists n; split; [apply (bool_decide_unpack _); vm_compute; exact I|reflexivity].

Lemma generate_stream_body_trace prompt0 attachment user_id project_id image_asset_url :
  let c := generate_stream_body w prompt0 attachment user_id project_id image_asset_url in
  match outcome c with
  | Raise _ => ∃ n, n ∈ [0; 2; 5; 8; 11] ∧ trace c = take n canonical_trace
  | Ok _ =>
      (∃ n, n ∈ [2; 5] ∧ trace c = (take n canonical_trace ++ [inl error])%list) ∨
      (∃ tail, tail ∈ [[]; [saved]; [save_error]] ∧
               trace c = (canonical_trace ++ (inl <$> tail))%list)
  end.
Proof.
  cbv zeta. unfold generate_stream_body. trace_step.
  destruct (process_multimodal_input w prompt0 attachment) as [mm|e0]; trace_step;
    [|cut_at 0].
  destruct (opt_truthy (image_data mm)); trace_step.
  all: destruct (invoke_plan w _) as [[plan_resp|]|e1]; trace_step;
    [|left; cut_at 2|cut_at 2].
  all: destruct (invoke_task_plan w _) as [[task_plan_resp|]|e2]; trace_step;
    [|left; cut_at 5|cut_at 5].
  all: match goal with
       | |- context [run_coder_agent w ?tp ?u] =>
           destruct (run_coder_agent_shape w tp u) as [r ->]
       end; trace_step.
  all: destruct r as [files_dict|e3]; trace_step; [|cut_at 8].
  all: destruct (invoke_text w reviewer_llm _) as [review_text|e4]; trace_step;
    [|cut_at 11].
  all: destruct (parse_review w review_text) as [review_feedback|e5]; trace_step;
    [|cut_at 11].
  all: match goal with
       | |- context [save_generated w ?a ?b ?c ?d ?e ?f ?g ?h ?i] =>
           rewrite (trace_save_generated a b c d e f g h i);
           destruct (stages_save_generated w a b c d e f g h i) as [-> Hs];
           right; eexists; split; [exact Hs|reflexivity]
       end.
Qed.

End Traces.

(** X1.  Events and model calls of [generate_stream] are interleaved in one
    fixed order: each model is called right after its stage's start event
    and before the event that reports its result, each at most once.  A
    failing run is this order cut right after a model call (or before the
    first event) and closed by [error]; a run that completes is the whole
    order followed by nothing, [saved] or [save_error]. *)
Theorem generate_stream_trace (w : World) prompt0 attachment user_id project_id
    image_asset_url :
  let t := trace (generate_stream w prompt0 attachment user_id project_id
                    image_asset_url) in
  (∃ n, n ∈ [0; 2; 5; 8; 11] ∧ t = (take n canonical_trace ++ [inl error])%list) ∨
  (∃ tail, tail ∈ [[]; [saved]; [save_error]] ∧
           t = (canonical_trace ++ (inl <$> tail))%list).
Proof.
  cbv zeta. unfold generate_stream. rewrite trace_try_except.
  pose proof (generate_stream_body_trace w prompt0 attachment user_id project_id
                image_asset_url) as H. cbv zeta in H.
  destruct (outcome (generate_stream_body _ _ _ _ _ _)) as [[]|e].
  - rewrite app_nil_r. destruct H as [(n & Hn & ->)|H]; [|by right].
    left. exists n. split; [|done].
    repeat (apply elem_of_cons in Hn as [->|Hn]); [| |by apply elem_of_nil in Hn];
      apply (bool_decide_unpack _); vm_compute; exact I.
  - destruct H as (n & Hn & ->). left. exists n. split; [done|reflexivity].
Qed.

(** ** How a streaming run ends *)

(** X2.  [generate_stream] never raises: every failure inside it becomes one
    [error] event.  [error] is yielded at most once, as the last event, and
    never in a run that has yielded [complete]; a run without [error] has
    yielded [complete]. *)
Theorem generate_stream_terminal (w : World) prompt0 attachment user_id project_id
    image_asset_url :
  let c := generate_stream w prompt0 attachment user_id project_id image_asset_url in
  outcome c = Ok tt ∧
  (error ∈ stages c →
     last (stages c) = Some error ∧
     length (filter (λ s, s = error) (stages c)) = 1 ∧
     complete ∉ stages c) ∧
  (error ∉ stages c → complete ∈ stages c).
Proof.
  cbv zeta. split.
  { unfold generate_stream. rewrite outcome_try_except.
    by destruct (outcome (generate_stream_body _ _ _ _ _ _)) as [[]|e]. }
  destruct (generate_stream_stages w prompt0 attachment user_id project_id
              image_asset_url) as [(n & Hn & ->)|(tail & Htail & ->)].
  - split.
    + intros _. do 8 (destruct n as [|n]; [repeat split;
        try (apply (bool_decide_unpack _)); vm_compute; done|]). lia.
    + intros H. exfalso. apply H. apply elem_of_app. right. by left.
  - repeat (apply elem_of_cons in Htail as [->|Htail]);
      [| | |by apply elem_of_nil in Htail].
    all: split; [intros H; apply (bool_decide_pack _) in H; vm_compute in H; done|].
    all: intros _; apply (bool_decide_unpack _); vm_compute; exact I.
Qed.

Lemma generate_stream_terminal_witness :
  let c := generate_stream (scripted broken) "Build a todo app" None None None None in
  error ∈ stages c ∧ last (stages c) = Some error ∧ (complete ∉ stages c).
Proof.
  cbv zeta.
  assert (H : error ∈ stages (generate_stream (scripted broken) "Build a todo app"
                                None None None None)).
  { apply (bool_decide_unpack _). vm_compute. exact I. }
  destruct (generate_stream_terminal (scripted broken) "Build a todo app"
              None None None None) as (_ & Herr & _).
  destruct (Herr H) as (Hl & _ & Hc). done.
Defined.

(** ** The plan the coder works from *)

Section BackReference.

Context (w : World).

Lemma log_save_generated_yields prompt0 plan_resp plan_text architect_text
    diagram_code files_dict review_feedback user_id project_id x :
  x ∈ log (save_generated w prompt0 plan_resp plan_text architect_text diagram_code
             files_dict review_feedback user_id project_id) →
  ∃ e, x = Yield e.
Proof.
  rewrite save_generated_eq.
  destruct (opt_truthy user_id && is_configured w); [|by intros ?%elem_of_nil].
  destruct (opt_truthy project_id).
  { intros ->%list_elem_of_singleton. by eexists. }
  destruct (create_project w _ _ _) as [new_id|e].
  - destruct (opt_truthy new_id); [|by intros ?%elem_of_nil].
    intros ->%list_elem_of_singleton. by eexists.
  - intros ->%list_elem_of_singleton. by eexists.
Qed.

Local Opaque run_coder_agent parse_review save_generated extract_architecture_diagram.

Ltac log_simpl :=
  cbn [outcome lift yield call_plan call_task_plan call_text snd fst log app
       mret Run_ret run_ret raise] in *.

Ltac log_step := rewrite ?log_bind, ?outcome_bind in *; log_simpl.

Ltac scan_log H :=
  repeat (apply elem_of_cons in H as [H|H]; [try discriminate H|]);
  try (by apply elem_of_nil in H).

Lemma generate_stream_body_coder_prompt prompt0 attachment user_id project_id
    image_asset_url task_plan url :
  let c := generate_stream_body w prompt0 attachment user_id project_id
             image_asset_url in
  Invoke coder_llm (coder_task_prompt task_plan url) ∈ log c →
  ∃ q p tp0,
    Invoke planner_llm q ∈ log c ∧
    invoke_plan w q = Ok (Some p) ∧
    Invoke architect_llm (architect_prompt p) ∈ log c ∧
    invoke_task_plan w (architect_prompt p) = Ok (Some tp0) ∧
    task_plan = {| architecture_diagram := architecture_diagram tp0;
                   implementation_steps := implementation_steps tp0;
                   plan := Some p |} ∧
    url = image_asset_url.
Proof.
  cbv zeta. unfold generate_stream_body. intros Hin. log_step.
  destruct (process_multimodal_input w prompt0 attachment) as [mm|e0]; log_step;
    [|scan_log Hin].
  destruct (opt_truthy (image_data mm)); log_step.
  all: destruct (invoke_plan w _) as [[plan_resp|]|e1] eqn:Hplan; log_step;
    [|scan_log Hin|scan_log Hin].
  all: destruct (invoke_task_plan w _) as [[task_plan_resp|]|e2] eqn:Htp; log_step;
    [|scan_log Hin|scan_log Hin].
  all: match goal with
       | H : context [run_coder_agent w ?tp ?u] |- _ =>
           destruct (run_coder_agent_shape w tp u) as [r Hr]; rewrite Hr in *
       end; log_step.
  all: assert (Hgoal : task_plan =
                {| architecture_diagram := architecture_diagram task_plan_resp;
                   implementation_steps := implementation_steps task_plan_resp;
                   plan := Some plan_resp |} ∧ url = image_asset_url).
  1,3: destruct r as [files_dict|e3]; log_step;
    [destruct (invoke_text w reviewer_llm _) as [review_text|e4]; log_step;
     [destruct (parse_review w review_text) as [review_feedback|e5]; log_step|]|];
    scan_log Hin; try (by injection Hin as -> ->);
    apply log_save_generated_yields in Hin as [? ?]; discriminate.
  all: destruct Hgoal as [-> ->]; eexists _, plan_resp, task_plan_resp;
    split; [|split; [exact Hplan|split; [|split; [exact Htp|done]]]].
  all: repeat first [by apply list_elem_of_here | apply list_elem_of_further].
Qed.

End BackReference.

(** X3.  The task plan the coder model sees in a streaming run carries, as
    its plan, the very plan the planner returned earlier in the same run, the
    one the architect was called with; its other fields are the architect's
    answer, and the asset URL is the request's. *)
Theorem coder_prompt_references_run_plan (w : World) prompt0 attachment user_id
    project_id image_asset_url task_plan url :
  let c := generate_stream w prompt0 attachment user_id project_id image_asset_url in
  Invoke coder_llm (coder_task_prompt task_plan url) ∈ log c →
  ∃ q p tp0,
    Invoke planner_llm q ∈ log c ∧
    invoke_plan w q = Ok (Some p) ∧
    Invoke architect_llm (architect_prompt p) ∈ log c ∧
    invoke_task_plan w (architect_prompt p) = Ok (Some tp0) ∧
    task_plan = {| architecture_diagram := architecture_diagram tp0;
                   implementation_steps := implementation_steps tp0;
                   plan := Some p |} ∧
    url = image_asset_url.
Proof.
  cbv zeta. unfold generate_stream. rewrite log_try_except. intros Hin.
  assert (Hbody : Invoke coder_llm (coder_task_prompt task_plan url)
                  ∈ log (generate_stream_body w prompt0 attachment user_id project_id
                           image_asset_url)).
  { apply elem_of_app in Hin as [Hin|Hin]; [done|].
    destruct (outcome _); [by apply elem_of_nil in Hin|].
    apply list_elem_of_singleton in Hin. discriminate. }
  destruct (generate_stream_body_coder_prompt w _ _ _ _ _ _ _ Hbody)
    as (q & p & tp0 & H1 & H2 & H3 & H4 & H5 & H6).
  exists q, p, tp0. repeat split; try done; apply elem_of_app; by left.
Qed.

Lemma coder_prompt_references_run_plan_witness :
  let c := generate_stream (scripted calm) "Build a todo app" None None None None in
  let task_plan := {| architecture_diagram := architecture_diagram todo_task_plan;
                      implementation_steps := implementation_steps todo_task_plan;
                      plan := Some todo_plan |} in
  Invoke coder_llm (coder_task_prompt task_plan None) ∈ log c ∧
  ∃ q, Invoke planner_llm q ∈ log c.
Proof.
  cbv zeta.
  assert (H : Invoke coder_llm
                (coder_task_prompt
                   {| architecture_diagram := architecture_diagram todo_task_plan;
                      implementation_steps := implementation_steps todo_task_plan;
                      plan := Some todo_plan |} None)
              ∈ log (generate_stream (scripted calm) "Build a todo app" None None
                       None None)).
  { vm_compute. do 7 apply list_elem_of_further. apply list_elem_of_here. }
  split; [exact H|].
  destruct (coder_prompt_references_run_plan (scripted calm) _ _ _ _ _ _ _ H)
    as (q & _ & _ & Hq & _). by exists q.
Defined.

(** ** A review that is JSON but not an object *)




(** ** The follow-up run: calls and events *)

Section FollowupTrace.

Context (w : World).

Lemma run_coder_followup_trace modification_request current_files review_feedback
    image_asset_url :
  trace (run_coder_followup w modification_request current_files review_feedback
           image_asset_url) =
  if PyStr.truthy (current_app_code current_files) then [inr coder_llm] else [].
Proof.
  unfold run_coder_followup.
  destruct (PyStr.truthy _); [|reflexivity]. simpl.
  unfold trace, log, call_text, mbind, Run_bind, run_bind, lift.
  destruct (invoke_text w coder_llm _) as [response_text|?]; [|reflexivity].
  destruct (parse_generated_data_app _ _) as [generated_data|?]; [|reflexivity].
  destruct (select_files generated_data) as [files_dict|?]; [|reflexivity].
  destruct (as_dict "get" generated_data) as [d|?]; reflexivity.
Qed.

Lemma run_coder_followup_needs_code modification_request current_files
    review_feedback image_asset_url :
  PyStr.truthy (current_app_code current_files) = false →
  ∃ e, outcome (run_coder_followup w modification_request current_files
                  review_feedback image_asset_url) = Raise e.
Proof. unfold run_coder_followup. intros ->. by eexists. Qed.

End FollowupTrace.

(** X5.  [followup_stream] never raises and calls at most one model, the
    coder.  Without usable entry-point code it yields [modifying] and [error]
    and calls nothing; otherwise the coder is called once, right after
    [modifying], and the run ends with [error], with [complete], or with
    [complete] and [saved]. *)
Theorem followup_stream_trace (w : World) modification_request
    (current_files : gmap string string) review_feedback user_id project_id
    image_asset_url :
  let c := followup_stream w modification_request current_files review_feedback
             user_id project_id image_asset_url in
  outcome c = Ok tt ∧
  (PyStr.truthy (current_app_code current_files) = false →
     trace c = [inl modifying; inl error]) ∧
  (PyStr.truthy (current_app_code current_files) = true →
     trace c ∈ [ [inl modifying; inr coder_llm; inl error];
                 [inl modifying; inr coder_llm; inl complete];
                 [inl modifying; inr coder_llm; inl complete; inl saved] ]).
Proof.
  cbv zeta. unfold followup_stream, followup_stream_body.
  rewrite outcome_try_except, trace_try_except, !trace_bind, !outcome_bind.
  cbn [outcome yield snd trace log fst fmap list_fmap app ev_stage].
  rewrite run_coder_followup_trace.
  split; [|split].
  - destruct (outcome (run_coder_followup _ _ _ _ _)) as [[files_dict summary]|e];
      [|done].
    rewrite outcome_bind, save_followup_eq. by destruct (_ && _).
  - intros Hcode. rewrite Hcode.
    destruct (run_coder_followup_needs_code w modification_request current_files
                review_feedback image_asset_url Hcode) as [e ->]. done.
  - intros ->.
    destruct (outcome (run_coder_followup _ _ _ _ _)) as [[files_dict summary]|e];
      [|set_solver].
    rewrite trace_bind, outcome_bind, save_followup_eq.
    destruct (opt_truthy user_id && opt_truthy project_id && is_configured w);
      cbn; set_solver.
Qed.

Lemma followup_stream_trace_witness :
  let c := followup_stream (scripted calm) "Make it blue" app_only EmptyString
             (Some "user-1") (Some "project-1") None in
  PyStr.truthy (current_app_code app_only) = true ∧
  trace c = [inl modifying; inr coder_llm; inl complete; inl saved] ∧
  trace (followup_stream (scripted calm) "Make it blue" ∅ EmptyString
           None None None) = [inl modifying; inl error].
Proof.
  cbv zeta.
  assert (H1 : PyStr.truthy (current_app_code app_only) = true) by reflexivity.
  assert (H2 : PyStr.truthy (current_app_code ∅) = false) by reflexivity.
  split; [exact H1|]. split; [vm_compute; reflexivity|].
  exact (proj1 (proj2 (followup_stream_trace (scripted calm) "Make it blue" ∅
                         EmptyString None None None)) H2).
Defined.

(** ** The file sets of the initial paths *)

Section InitialFiles.

Context (w : World).

Lemma events_save_generated_no_files prompt0 plan_resp plan_text architect_text
    diagram_code files_dict review_feedback user_id project_id e v :
  e ∈ events (save_generated w prompt0 plan_resp plan_text architect_text
                diagram_code files_dict review_feedback user_id project_id) →
  ("files", v) ∉ ev_fields e.
Proof.
  rewrite save_generated_eq. intros He Hf.
  destruct (opt_truthy user_id && is_configured w); [|by apply elem_of_nil in He].
  assert (∀ s fs, e ∈ events (yield s fs) → ("files", v) ∈ fs) as Hy.
  { intros s fs ->%list_elem_of_singleton. exact Hf. }
  destruct (opt_truthy project_id).
  { apply Hy in He. apply list_elem_of_singleton in He. discriminate. }
  destruct (create_project w _ _ _) as [new_id|err].
  - destruct (opt_truthy new_id); [|by apply elem_of_nil in He].
    apply Hy in He. apply list_elem_of_singleton in He. discriminate.
  - apply Hy in He. apply list_elem_of_singleton in He. discriminate.
Qed.

Local Opaque run_coder_agent parse_review save_generated extract_architecture_diagram.

Ltac ev_simpl :=
  cbn [outcome lift yield call_plan call_task_plan call_text snd fst events log
       omap list_omap app mret Run_ret run_ret raise] in *.

Ltac ev_step := rewrite ?events_bind, ?outcome_bind in *; ev_simpl.

Ltac no_files He Hf :=
  repeat (apply elem_of_cons in He as [->|He];
          [cbn in Hf;
           repeat (apply elem_of_cons in Hf as [Hf|Hf]; [try discriminate Hf|]);
           try (by apply elem_of_nil in Hf)|]);
  try (by apply elem_of_nil in He).

Lemma generate_stream_body_files prompt0 attachment user_id project_id
    image_asset_url e d path :
  e ∈ events (generate_stream_body w prompt0 attachment user_id project_id
                image_asset_url) →
  ("files", JObj d) ∈ ev_fields e →
  is_Some (d !! path) → conflicting path = false.
Proof.
  unfold generate_stream_body. intros He Hf Hpath. ev_step.
  destruct (process_multimodal_input w prompt0 attachment) as [mm|e0]; ev_step;
    [|no_files He Hf].
  destruct (opt_truthy (image_data mm)); ev_step.
  all: destruct (invoke_plan w _) as [[plan_resp|]|e1]; ev_step;
    [|no_files He Hf|no_files He Hf].
  all: destruct (invoke_task_plan w _) as [[task_plan_resp|]|e2]; ev_step;
    [|no_files He Hf|no_files He Hf].
  all: match goal with
       | H : context [run_coder_agent w ?tp ?u] |- _ =>
           pose proof (run_coder_agent_normalized w tp u) as Hnorm;
           destruct (run_coder_agent_shape w tp u) as [r Hr]; rewrite Hr in *
       end; ev_step.
  all: destruct r as [files_dict|e3]; ev_step; [|no_files He Hf].
  all: specialize (Hnorm files_dict path eq_refl).
  all: destruct (invoke_text w reviewer_llm _) as [review_text|e4]; ev_step.
  all: try destruct (parse_review w review_text) as [review_feedback|e5]; ev_step.
  all: no_files He Hf; try (injection Hf as ->; by apply Hnorm).
  all: exfalso; eapply events_save_generated_no_files; [exact He|exact Hf].
Qed.

End InitialFiles.

(** X6.  In the initial paths no alternate entry point reaches the caller:
    the file set returned by the streaming coder, the one returned by the
    batch graph, and every [files] payload of an event of [generate_stream]
    have no key whose lowercase form is [/app.js], [/app.jsx], [app.js] or
    [app.jsx]. *)
Theorem initial_paths_hand_over_normalized_files (w : World) :
  (∀ task_plan image_asset_url d path,
     outcome (run_coder_agent w task_plan image_asset_url) = Ok d →
     is_Some (d !! path) → conflicting path = false) ∧
  (∀ user_prompt d path,
     outcome (agent_invoke w user_prompt) = Ok d →
     is_Some (d !! path) → conflicting path = false) ∧
  (∀ prompt0 attachment user_id project_id image_asset_url e d path,
     e ∈ events (generate_stream w prompt0 attachment user_id project_id
                   image_asset_url) →
     ("files", JObj d) ∈ ev_fields e →
     is_Some (d !! path) → conflicting path = false).
Proof.
  split; [|split].
  - apply run_coder_agent_normalized.
  - intros user_prompt d path. unfold agent_invoke.
    rewrite outcome_bind.
    destruct (outcome (planner_agent w user_prompt)) as [plan0|?]; [|done].
    rewrite outcome_bind.
    destruct (outcome (architect_agent w plan0)) as [task_plan|?]; [|done].
    apply coder_agent_normalized.
  - intros prompt0 attachment user_id project_id image_asset_url e d path He Hf.
    unfold generate_stream in He. rewrite events_try_except in He.
    apply elem_of_app in He as [He|He].
    + by eapply generate_stream_body_files.
    + destruct (outcome _); [by apply elem_of_nil in He|].
      apply list_elem_of_singleton in He as ->. cbn in Hf.
      apply list_elem_of_singleton in Hf. discriminate.
Qed.

Lemma initial_paths_hand_over_normalized_files_witness :
  let w := scripted two_entry_points in
  outcome (run_coder_agent w todo_task_plan None) = Ok {[ "/App.tsx" := JStr "tsx code" ]} ∧
  conflicting "/App.tsx" = false.
Proof.
  cbv zeta.
  assert (H : outcome (run_coder_agent (scripted two_entry_points) todo_task_plan None)
              = Ok {[ "/App.tsx" := JStr "tsx code" ]}) by (vm_compute; reflexivity).
  split; [exact H|].
  apply (proj1 (initial_paths_hand_over_normalized_files (scripted two_entry_points))
           todo_task_plan None _ "/App.tsx" H).
  by eexists.
Defined.

(** ** The two coders of the initial path *)

Section CoderPaths.

Context (w : World).

Lemma parse_generated_data_agree (cleaned_text : string) :
  match parse_generated_data_app w cleaned_text with
  | Ok v => parse_generated_data_graph w cleaned_text = Ok v
  | Raise e =>
      ∃ e' suffix, parse_generated_data_graph w cleaned_text = Raise e' ∧
                   str_exn e' = str_exn e ++ suffix
  end.
Proof.
  unfold parse_generated_data_app, parse_generated_data_graph.
  destruct (loads w cleaned_text) as [v|e]; [done|].
  destruct e as [m|m|m|m|m|m|m];
    try (eexists _, EmptyString; split; [reflexivity|]; simpl;
         by rewrite string_app_nil_r).
  destruct (Re.search_braces cleaned_text) as [group0|].
  - destruct (loads w group0) as [v|e]; [done|].
    destruct e as [m'|m'|m'|m'|m'|m'|m'];
      try (eexists _, EmptyString; split; [reflexivity|]; simpl;
           by rewrite string_app_nil_r).
    eexists _, (String "010"%char "Response preview: " ++ PyStr.take 500 cleaned_text).
    split; [reflexivity|]. cbn [str_exn]. by rewrite string_app_assoc.
  - eexists _, (": " ++ PyStr.take 500 cleaned_text). split; reflexivity.
Qed.

Lemma GeneratedProject_Ok (d : gmap string json) (s : gmap string string) :
  GeneratedProject d = Ok s → d = JStr <$> s.
Proof.
  unfold GeneratedProject. case_bool_decide as Hall; [|done]. intros [= <-].
  apply map_eq. intros k. rewrite lookup_fmap, lookup_omap.
  destruct (d !! k) as [v|] eqn:Hk; [|done].
  apply Hall in Hk. by destruct v.
Qed.

End CoderPaths.

(** X7.  On the same model answer the graph coder and the streaming coder
    (called without an asset URL) agree: when the streaming coder returns a
    file set, the graph coder returns that set validated as strings, and
    fails with a validation error if some content is not a string; when the
    streaming coder raises, the graph coder raises too, with a message that
    starts with the streaming one.  So a file set returned by the graph coder
    is one the streaming coder returns as well. *)
Theorem coder_paths_agree (w : World) (task_plan : TaskPlan) :
  match outcome (run_coder_agent w task_plan None) with
  | Ok d => outcome (coder_agent w task_plan) = GeneratedProject d
  | Raise e =>
      ∃ e' suffix, outcome (coder_agent w task_plan) = Raise e' ∧
                   str_exn e' = str_exn e ++ suffix
  end ∧
  (∀ s, outcome (coder_agent w task_plan) = Ok s →
        outcome (run_coder_agent w task_plan None) = Ok (JStr <$> s)).
Proof.
  assert (H :
    match outcome (run_coder_agent w task_plan None) with
    | Ok d => outcome (coder_agent w task_plan) = GeneratedProject d
    | Raise e =>
        ∃ e' suffix, outcome (coder_agent w task_plan) = Raise e' ∧
                     str_exn e' = str_exn e ++ suffix
    end).
  { unfold run_coder_agent, coder_agent, call_text, mbind, Run_bind, run_bind,
      lift, outcome, mret, Run_ret, run_ret.
    destruct (invoke_text w coder_llm _) as [response_text|e]; simpl;
      [|exists e, EmptyString; by rewrite string_app_nil_r].
    pose proof (parse_generated_data_agree w (clean_response response_text)) as Hp.
    destruct (parse_generated_data_app w _) as [generated_data|e]; simpl.
    - rewrite Hp.
      destruct (select_files generated_data) as [selected|e]; simpl;
        [|exists e, EmptyString; by rewrite string_app_nil_r].
      destruct (as_dict "keys" selected) as [d|e]; simpl;
        [|exists e, EmptyString; by rewrite string_app_nil_r].
      by destruct (GeneratedProject _).
    - destruct Hp as (e' & suffix & -> & Hs). simpl. by exists e', suffix. }
  split; [exact H|]. intros s Hs.
  destruct (outcome (run_coder_agent w task_plan None)) as [d|e].
  - rewrite Hs in H. symmetry in H. by apply GeneratedProject_Ok in H as ->.
  - destruct H as (e' & suffix & He & _). congruence.
Qed.

Lemma coder_paths_agree_witness :
  let w := scripted calm in
  let s : gmap string string := {[ "/App.tsx" := "export default function App() {}" ]} in
  outcome (coder_agent w todo_task_plan) = Ok s ∧
  outcome (run_coder_agent w todo_task_plan None) = Ok (JStr <$> s).
Proof.
  cbv zeta.
  assert (H : outcome (coder_agent (scripted calm) todo_task_plan)
              = Ok {[ "/App.tsx" := "export default function App() {}" ]})
    by (vm_compute; reflexivity).
  split; [exact H|].
  exact (proj2 (coder_paths_agree (scripted calm) todo_task_plan) _ H).
Defined.

(** X8.  The streaming coder returns a file set exactly when the model
    answered, the extraction produced a JSON object, and the file set is an
    object too: the value under [files] when that key is present, the whole
    object otherwise (the legacy shape).  What it returns is that object
    without the conflicting entry points. *)
Theorem run_coder_agent_returns (w : World) task_plan image_asset_url
    (d : gmap string json) :
  outcome (run_coder_agent w task_plan image_asset_url) = Ok d ↔
  ∃ response_text generated_data,
    invoke_text w coder_llm (coder_task_prompt task_plan image_asset_url)
      = Ok response_text ∧
    parse_generated_data_app w (clean_response response_text)
      = Ok (JObj generated_data) ∧
    match generated_data !! "files" with
    | Some files_value => ∃ files_dict, files_value = JObj files_dict ∧
                                        d = remove_conflicting files_dict
    | None => d = remove_conflicting generated_data
    end.
Proof.
  unfold run_coder_agent, call_text, mbind, Run_bind, run_bind, lift, outcome,
    mret, Run_ret, run_ret.
  split.
  - destruct (invoke_text w coder_llm _) as [response_text|e]; simpl; [|done].
    destruct (parse_generated_data_app w _) as [generated_data|e] eqn:Hp; simpl;
      [|done].
    intros H. exists response_text.
    destruct generated_data as [| | | |s|l|m]; try done.
    + simpl in H. unfold select_files, files_in in H.
      destruct (PyStr.contains "files" s); done.
    + simpl in H. unfold select_files, files_in in H.
      destruct (existsb _ l); done.
    + exists m. split; [done|]. split; [done|].
      unfold select_files, files_in, files_item in H.
      destruct (m !! "files") as [f|] eqn:Hf.
      * rewrite bool_decide_eq_true_2 in H by eauto.
        destruct f; simpl in H; try done. injection H as <-. by eexists.
      * rewrite bool_decide_eq_false_2 in H by (by intros [? ?]).
        simpl in H. by injection H as <-.
  - intros (response_text & generated_data & -> & Hp & Hfiles). simpl.
    rewrite Hp. simpl. unfold select_files, files_in, files_item.
    destruct (generated_data !! "files") as [f|] eqn:Hf.
    + destruct Hfiles as (files_dict & -> & ->).
      by rewrite bool_decide_eq_true_2 by eauto.
    + rewrite bool_decide_eq_false_2 by (by intros [? ?]). by subst.
Qed.

Lemma run_coder_agent_returns_witness :
  let w := scripted calm in
  let d : gmap string json := {[ "/App.tsx" := JStr "export default function App() {}" ]} in
  outcome (run_coder_agent w todo_task_plan None) = Ok d ∧
  ∃ response_text,
    invoke_text w coder_llm (coder_task_prompt todo_task_plan None) = Ok response_text.
Proof.
  cbv zeta.
  assert (H : outcome (run_coder_agent (scripted calm) todo_task_plan None)
              = Ok {[ "/App.tsx" := JStr "export default function App() {}" ]})
    by (vm_compute; reflexivity).
  split; [exact H|].
  destruct (proj1 (run_coder_agent_returns (scripted calm) todo_task_plan None _) H)
    as (response_text & _ & Hr & _).
  by exists response_text.
Defined.

(** ** Fence stripping *)

Section Fences.

Lemma split_lines_app (a b : string) :
  PyStr.split_lines (a ++ nl ++ b) = (PyStr.split_lines a ++ PyStr.split_lines b)%list.
Proof.
  induction a as [|c a IH].
  - reflexivity.
  - change (String c a ++ nl ++ b) with (String c (a ++ nl ++ b)).
    cbn [PyStr.split_lines]. rewrite IH.
    destruct (Ascii.eqb c "010"); [reflexivity|].
    destruct (PyStr.split_lines a) as [|l ls] eqn:E; [|reflexivity].
    by apply split_lines_nonempty in E.
Qed.

Lemma split_lines_one (s : string) :
  "010"%char ∉ chars s → PyStr.split_lines s = [s].
Proof.
  induction s as [|c s IH]; [done|].
  cbn [chars list_ascii_of_string]. rewrite not_elem_of_cons. intros [Hc Hs].
  cbn [PyStr.split_lines]. fold (chars s) in Hs. rewrite (IH Hs).
  destruct (Ascii.eqb_spec c "010"); [by subst|done].
Qed.

Lemma strip_fenced (tag body : string) :
  PyStr.strip (fenced tag body) = fenced tag body.
Proof.
  unfold PyStr.strip, fenced.
  change (PyStr.lstrip (fence ++ tag ++ nl ++ body ++ nl ++ fence))
    with (fence ++ tag ++ nl ++ body ++ nl ++ fence).
  rewrite <- !string_app_assoc. apply rstrip_app_fence.
Qed.

Lemma startswith_fenced (tag body : string) :
  PyStr.startswith fence (fenced tag body) = true.
Proof. apply startswith_app. Qed.

Lemma split_lines_fenced (tag body : string) :
  "010"%char ∉ chars tag →
  PyStr.split_lines (fenced tag body) =
    ((fence ++ tag)%string :: PyStr.split_lines body ++ [fence])%list.
Proof.
  intros Htag. unfold fenced.
  rewrite <- (string_app_assoc fence tag), !split_lines_app.
  rewrite (split_lines_one (fence ++ tag)); [done|].
  rewrite chars_app. rewrite elem_of_app. intros [H|H]; [|done].
  apply (bool_decide_pack _) in H. vm_compute in H. done.
Qed.

Lemma last_snoc_default (ls : list string) (x d : string) :
  List.last (ls ++ [x]) d = x.
Proof. apply List.last_last. Qed.

Lemma filter_all {A} (P : A → Prop) `{!∀ x, Decision (P x)} (l : list A) :
  (∀ x, x ∈ l → P x) → filter P l = l.
Proof.
  induction l as [|x l IH]; [done|]. intros Hall.
  rewrite filter_cons_True by (apply Hall; left).
  f_equal. apply IH. intros y Hy. apply Hall. by right.
Qed.

End Fences.

(** X9.  The cleaning of the three coder functions unwraps a fenced block:
    for a block whose opening line carries any language tag and whose body
    has no line that is only a fence, the cleaned text is the body, so the
    extraction of the block is the extraction of its body.  A body line that
    is only a fence is dropped. *)
Theorem clean_response_fenced (w : World) (tag body : string) :
  "010"%char ∉ chars tag →
  clean_response (fenced tag body) =
    PyStr.join_lines
      (filter (λ line, PyStr.strip line ≠ fence) (PyStr.split_lines body)) ∧
  ((∀ line, line ∈ PyStr.split_lines body → PyStr.strip line ≠ fence) →
   clean_response (fenced tag body) = body ∧
   parse_generated_data_app w (clean_response (fenced tag body)) =
     parse_generated_data_app w body ∧
   parse_generated_data_graph w (clean_response (fenced tag body)) =
     parse_generated_data_graph w body).
Proof.
  intros Htag.
  assert (Hclean : clean_response (fenced tag body) =
            PyStr.join_lines
              (filter (λ line, PyStr.strip line ≠ fence) (PyStr.split_lines body))).
  { unfold clean_response.
    rewrite strip_fenced, startswith_fenced, split_lines_fenced by done.
    cbn [tail]. rewrite filter_app. f_equal.
    rewrite filter_cons_False, filter_nil; [by rewrite app_nil_r|].
    intros H. by apply H. }
  split; [exact Hclean|]. intros Hbody.
  assert (Hid : clean_response (fenced tag body) = body).
  { rewrite Hclean, filter_all by done. apply join_split_lines. }
  by rewrite Hid.
Qed.

Lemma clean_response_fenced_witness :
  let body := "{" ++ dq ++ "a" ++ dq ++ ":1}" in
  ("010"%char ∉ chars "json") ∧
  (∀ line, line ∈ PyStr.split_lines body → PyStr.strip line ≠ fence) ∧
  clean_response (fenced "json" body) = body.
Proof.
  cbv zeta.
  assert (H1 : "010"%char ∉ chars "json").
  { apply (bool_decide_unpack _). vm_compute. exact I. }
  assert (H2 : ∀ line, line ∈ PyStr.split_lines ("{" ++ dq ++ "a" ++ dq ++ ":1}") →
                       PyStr.strip line ≠ fence).
  { intros line Hl. vm_compute in Hl. apply list_elem_of_singleton in Hl as ->.
    vm_compute. discriminate. }
  split; [exact H1|]. split; [exact H2|].
  exact (proj1 (proj2 (clean_response_fenced (scripted calm) "json" _ H1) H2)).
Defined.

Section Lines.

Lemma removelast_snoc (ls : list string) (x : string) :
  removelast (ls ++ [x]) = ls.
Proof. apply List.removelast_last. Qed.

Lemma sublist_removelast {A} (l : list A) : removelast l `sublist_of` l.
Proof.
  induction l as [|x l IH]; [done|].
  destruct l as [|y l]; [apply sublist_nil_l|].
  change (removelast (x :: y :: l)) with (x :: removelast (y :: l)).
  by apply sublist_skip.
Qed.

End Lines.

(** X10.  The review step and the diagram extraction unwrap a fenced block
    by dropping its first and last line: for a block with any language tag
    the cleaned review is the body as it is (a body line that is only a fence
    stays, unlike in the coder's cleaning), and the extracted diagram is the
    stripped body.  The extracted diagram never starts or ends with
    whitespace. *)
Theorem review_and_diagram_fenced (tag body : string) (task_plan_obj : TaskPlan) :
  "010"%char ∉ chars tag →
  review_cleaned (fenced tag body) = body ∧
  (architecture_diagram task_plan_obj = fenced tag body →
   extract_architecture_diagram task_plan_obj = PyStr.strip body) ∧
  PyStr.strip (extract_architecture_diagram task_plan_obj)
    = extract_architecture_diagram task_plan_obj.
Proof.
  intros Htag.
  assert (Hlines :
    PyStr.join_lines
      (if bool_decide
            (PyStr.strip (List.last (PyStr.split_lines (fenced tag body)) EmptyString)
             = fence)
       then removelast (tail (PyStr.split_lines (fenced tag body)))
       else tail (PyStr.split_lines (fenced tag body))) = body).
  { rewrite split_lines_fenced by done. cbn [tail].
    rewrite app_comm_cons, last_snoc_default.
    rewrite bool_decide_eq_true_2 by reflexivity.
    rewrite removelast_snoc. apply join_split_lines. }
  split; [|split].
  - unfold review_cleaned. rewrite strip_fenced, startswith_fenced. exact Hlines.
  - intros Hd. unfold extract_architecture_diagram. rewrite Hd.
    change (PyStr.truthy (fenced tag body)) with true. cbv iota.
    rewrite strip_fenced, startswith_fenced.
    destruct (bool_decide _); by rewrite Hlines.
  - unfold extract_architecture_diagram.
    destruct (PyStr.truthy _); [|reflexivity]. apply strip_idempotent.
Qed.

Lemma review_and_diagram_fenced_witness :
  let d := {| architecture_diagram := fenced "mermaid" "graph TD; A --> B; ";
              implementation_steps := [];
              plan := None |} in
  ("010"%char ∉ chars "mermaid") ∧
  architecture_diagram d = fenced "mermaid" "graph TD; A --> B; " ∧
  extract_architecture_diagram d = "graph TD; A --> B;".
Proof.
  cbv zeta.
  assert (H1 : "010"%char ∉ chars "mermaid").
  { apply (bool_decide_unpack _). vm_compute. exact I. }
  split; [exact H1|]. split; [reflexivity|].
  exact (proj1 (proj2 (review_and_diagram_fenced "mermaid" "graph TD; A --> B; "
                         {| architecture_diagram := fenced "mermaid" "graph TD; A --> B; ";
                            implementation_steps := [];
                            plan := None |} H1)) eq_refl).
Defined.

(** X11.  Cleaning only drops characters: the text the coder functions
    parse, the text the review step parses and the diagram sent to the caller
    are each a subsequence of the model's raw text; no character is added or
    reordered. *)
Theorem cleaning_only_drops_characters (text : string) (task_plan_obj : TaskPlan) :
  chars (clean_response text) `sublist_of` chars text ∧
  chars (review_cleaned text) `sublist_of` chars text ∧
  chars (extract_architecture_diagram task_plan_obj)
    `sublist_of` chars (architecture_diagram task_plan_obj).
Proof.
  assert (Hcut : ∀ t,
    chars (PyStr.join_lines
             (if bool_decide
                   (PyStr.strip (List.last (PyStr.split_lines (PyStr.strip t)) EmptyString)
                    = fence)
              then removelast (tail (PyStr.split_lines (PyStr.strip t)))
              else tail (PyStr.split_lines (PyStr.strip t))))
    `sublist_of` chars t).
  { intros t. etrans; [|apply chars_strip].
    etrans; [apply (chars_join_lines_sublist _ (PyStr.split_lines (PyStr.strip t)))
            |by rewrite join_split_lines].
    assert (Htail : tail (PyStr.split_lines (PyStr.strip t))
                    `sublist_of` PyStr.split_lines (PyStr.strip t)).
    { destruct (PyStr.split_lines _); [reflexivity|]. apply sublist_cons. reflexivity. }
    destruct (bool_decide _); [|exact Htail].
    etrans; [apply sublist_removelast|exact Htail]. }
  split; [apply chars_clean_response|]. split.
  - unfold review_cleaned. destruct (PyStr.startswith _ _); [apply Hcut|apply chars_strip].
  - unfold extract_architecture_diagram.
    destruct (PyStr.truthy _); [|apply sublist_nil_l].
    etrans; [apply chars_strip|].
    destruct (PyStr.startswith _ _); [|apply chars_strip].
    specialize (Hcut (architecture_diagram task_plan_obj)).
    destruct (bool_decide _); exact Hcut.
Qed.

(** ** The batch graph *)

(** X12.  The batch graph calls the planner, then the architect, then the
    coder, each at most once and each only after the one before returned a
    value; it returns a file set only after all three calls, and a planner
    or architect that returns nothing stops it with the [ValueError] of that
    node. *)
Theorem agent_invoke_trace (w : World) (user_prompt : string) :
  let c := agent_invoke w user_prompt in
  trace c ∈ [ [inr planner_llm];
              [inr planner_llm; inr architect_llm];
              [inr planner_llm; inr architect_llm; inr coder_llm] ] ∧
  (∀ d, outcome c = Ok d →
        trace c = [inr planner_llm; inr architect_llm; inr coder_llm]) ∧
  (invoke_plan w (planner_prompt user_prompt None None) = Ok None →
     c = ([Invoke planner_llm (planner_prompt user_prompt None None)],
          Raise (ValueError "Planner did not return a valid response."))) ∧
  (∀ p, invoke_plan w (planner_prompt user_prompt None None) = Ok (Some p) →
        invoke_task_plan w (architect_prompt p) = Ok None →
        outcome c = Raise (ValueError "Architect did not return a valid response.") ∧
        trace c = [inr planner_llm; inr architect_llm]).
Proof.
  cbv zeta.
  unfold agent_invoke, planner_agent, architect_agent, coder_agent, call_plan,
    call_task_plan, call_text, trace, log, outcome, mbind, Run_bind, run_bind,
    lift, raise, mret, Run_ret, run_ret.
  destruct (invoke_plan w _) as [[p|]|e1] eqn:Hplan; simpl;
    [|split; [set_solver|by repeat split]..].
  destruct (invoke_task_plan w _) as [[tp|]|e2] eqn:Htp; simpl.
  2,3: split; [set_solver|]; split; [done|]; split; [done|];
       intros p' [= <-]; rewrite Htp; done.
  destruct (invoke_text w coder_llm _) as [response_text|e3]; simpl;
    [|split; [set_solver|]; split; [done|]; split; [done|];
      intros p' [= <-]; rewrite Htp; done].
  destruct (parse_generated_data_graph w _) as [generated_data|e4]; simpl;
    [|split; [set_solver|]; split; [done|]; split; [done|];
      intros p' [= <-]; rewrite Htp; done].
  destruct (select_files generated_data) as [selected|e5]; simpl;
    [|split; [set_solver|]; split; [done|]; split; [done|];
      intros p' [= <-]; rewrite Htp; done].
  destruct (as_dict "keys" selected) as [d0|e6]; simpl;
    [|split; [set_solver|]; split; [done|]; split; [done|];
      intros p' [= <-]; rewrite Htp; done].
  destruct (GeneratedProject _) as [s|e7]; simpl;
    (split; [set_solver|]; split; [done|]; split; [done|];
     intros p' [= <-]; rewrite Htp; done).
Qed.

Lemma agent_invoke_trace_witness :
  let c := agent_invoke (scripted calm) "Build a todo app" in
  outcome c = Ok {[ "/App.tsx" := "export default function App() {}" ]} ∧
  trace c = [inr planner_llm; inr architect_llm; inr coder_llm].
Proof.
  cbv zeta.
  assert (H : outcome (agent_invoke (scripted calm) "Build a todo app")
              = Ok {[ "/App.tsx" := "export default function App() {}" ]})
    by (vm_compute; reflexivity).
  split; [exact H|].
  exact (proj1 (proj2 (agent_invoke_trace (scripted calm) "Build a todo app")) _ H).
Defined.

(** ** The export endpoint *)

Section ExportProperties.

Context (py_str : json → string).
Context (create_github_repo : string → string → gmap string json → response string).
Context (w : World).

Lemma keep_repo_chars_class (s : string) :
  Forall (λ c, is_repo_char c = true) (chars (keep_repo_chars s)).
Proof.
  induction s as [|c r IH]; simpl; [constructor|].
  destruct (is_repo_char c) eqn:Hc; [by constructor|done].
Qed.

Lemma truthy_nonempty (s : string) : PyStr.truthy s = true → s ≠ EmptyString.
Proof. by destruct s. Qed.

Lemma json_truthy_obj (d : gmap string json) (k : string) :
  is_Some (d !! k) → json_truthy (JObj d) = true.
Proof.
  intros [v Hv]. simpl. rewrite bool_decide_eq_false_2; [done|].
  intros ->. by rewrite lookup_empty in Hv.
Qed.

Lemma export_content_code_files (files_dict : gmap string json) :
  export_content py_str <$> ((λ content, JObj {[ "code" := content ]}) <$> files_dict)
  = files_dict.
Proof.
  rewrite <- map_fmap_compose. rewrite <- (map_fmap_id files_dict) at 2.
  apply map_fmap_ext. intros k v _. simpl. by rewrite lookup_singleton_eq.
Qed.

Lemma export_content_wrapped (files_dict : gmap string json) :
  map_Forall (λ _ v, is_str v = true) files_dict →
  export_content py_str <$> (wrap_content <$> files_dict) = files_dict.
Proof.
  intros Hstr. rewrite <- map_fmap_compose.
  rewrite <- (map_fmap_id files_dict) at 2.
  apply map_fmap_ext. intros k v Hk. apply Hstr in Hk.
  destruct v; try done.
Qed.

Lemma export_content_str (files_dict : gmap string json) :
  map_Forall (λ _ v, is_str v = true) files_dict →
  export_content py_str <$> files_dict = files_dict.
Proof.
  intros Hstr. rewrite <- (map_fmap_id files_dict) at 2.
  apply map_fmap_ext. intros k v Hk. apply Hstr in Hk. by destruct v.
Qed.

Lemma export_files_of_code_files (snapshot files_dict : gmap string json) :
  snapshot !! "files" = Some (code_files files_dict) →
  export_files py_str (JObj snapshot) = Ok files_dict.
Proof.
  intros Hf. unfold export_files. rewrite Hf. simpl.
  by rewrite export_content_code_files.
Qed.

(** X13.  The repository name the export uses is never empty.  A non-empty
    name of the request is used as it is; otherwise the name is the
    project's name with spaces turned into hyphens, outer hyphens stripped
    and every character outside letters, digits and hyphen dropped, and when
    that leaves nothing it is [DevOpus-project-] followed by the first eight
    characters of the project id. *)
Theorem export_repo_name (repo_name : option string) (project_name : json)
    (project_id name : string) :
  derive_repo_name repo_name project_name project_id = Ok name →
  name ≠ EmptyString ∧
  (opt_truthy repo_name = true → repo_name = Some name) ∧
  (opt_truthy repo_name = false →
     (∃ s, project_name = JStr s ∧ name = sanitize_repo_name s ∧
           Forall (λ c, is_repo_char c = true) (chars name)) ∨
     (name = "DevOpus-project-" ++ PyStr.take 8 project_id ∧
      ∀ s, project_name = JStr s → sanitize_repo_name s = EmptyString)).
Proof.
  unfold derive_repo_name.
  destruct repo_name as [r|]; simpl.
  - destruct (PyStr.truthy r) eqn:Hr.
    + intros [= <-]. split; [by apply truthy_nonempty|]. by split.
    + revert Hr. generalize r. clear r. intros r Hr.
      destruct (json_truthy project_name) eqn:Ht; simpl.
      * destruct project_name as [| | | |s| |]; simpl; try done.
        destruct (PyStr.truthy (sanitize_repo_name s)) eqn:Hs.
        -- intros [= <-]. split; [by apply truthy_nonempty|]. split; [done|].
           intros _. left. exists s. split; [done|]. split; [done|].
           apply keep_repo_chars_class.
        -- intros [= <-]. split; [done|]. split; [done|]. intros _. right.
           split; [done|]. intros s' [= <-]. by destruct (sanitize_repo_name s).
      * intros [= <-]. split; [done|]. split; [done|]. intros _. right.
        split; [done|]. intros s ->. simpl in Ht. by destruct s.
  - destruct (json_truthy project_name) eqn:Ht; simpl.
    + destruct project_name as [| | | |s| |]; simpl; try done.
      destruct (PyStr.truthy (sanitize_repo_name s)) eqn:Hs.
      * intros [= <-]. split; [by apply truthy_nonempty|]. split; [done|].
        intros _. left. exists s. split; [done|]. split; [done|].
        apply keep_repo_chars_class.
      * intros [= <-]. split; [done|]. split; [done|]. intros _. right.
        split; [done|]. intros s' [= <-]. by destruct (sanitize_repo_name s).
    + intros [= <-]. split; [done|]. split; [done|]. intros _. right.
      split; [done|]. intros s ->. simpl in Ht. by destruct s.
Qed.

Lemma export_repo_name_witness :
  derive_repo_name None (JStr " My Todo App! ") "0123456789abcdef" = Ok "My-Todo-App" ∧
  derive_repo_name (Some EmptyString) (JStr "!!!") "0123456789abcdef"
    = Ok "DevOpus-project-01234567" ∧
  "My-Todo-App" ≠ EmptyString.
Proof.
  split; [reflexivity|]. split; [reflexivity|].
  exact (proj1 (export_repo_name None (JStr " My Todo App! ") "0123456789abcdef"
                  "My-Todo-App" eq_refl)).
Defined.

(** X14.  With a database configured, the export hands to GitHub exactly
    the files that were saved, whichever of the stored formats the project
    row has: the snapshot the streaming generator writes (every content
    under [code], inside [files]), a raw map from path to text, or that raw
    map as the save endpoint wraps it. *)
Theorem export_pushes_saved_files (project_id github_token : string)
    (repo_name : option string) (project files_dict : gmap string json)
    (code_snapshot : json) (name : string) :
  is_configured w = true →
  get_project_with_code w project_id = Ok (JObj project) →
  project !! "code_snapshot" = Some code_snapshot →
  files_dict ≠ ∅ →
  derive_repo_name repo_name (default (JStr EmptyString) (project !! "name"))
    project_id = Ok name →
  (∃ snapshot, code_snapshot = JObj snapshot ∧
               snapshot !! "files" = Some (code_files files_dict)) ∨
  (map_Forall (λ _ v, is_str v = true) files_dict ∧ files_dict !! "files" = None ∧
   (code_snapshot = JObj files_dict ∨
    Some code_snapshot = JObj <$> prepare_snapshot (Some files_dict))) →
  export_to_github py_str create_github_repo w project_id github_token repo_name
  = create_github_repo github_token name files_dict.
Proof.
  intros Hconf Hget Hsnap Hne Hname Hformat.
  unfold export_to_github, export_to_github_body. rewrite Hconf, Hget. simpl.
  rewrite bool_decide_eq_false_2
    by (intros ->; by rewrite lookup_empty in Hsnap).
  simpl. rewrite Hsnap. simpl.
  assert (Hfiles : json_truthy code_snapshot = true ∧
                   export_files py_str code_snapshot = Ok files_dict).
  { destruct Hformat as [(snapshot & -> & Hf)|(Hstr & Hnofiles & [->|Hwrap])].
    - split; [by eapply json_truthy_obj|by apply export_files_of_code_files].
    - split.
      + simpl. by rewrite bool_decide_eq_false_2.
      + unfold export_files. rewrite Hnofiles. simpl.
        by rewrite export_content_str.
    - unfold prepare_snapshot in Hwrap.
      rewrite (bool_decide_eq_false_2 (files_dict = ∅)) in Hwrap by done.
      rewrite (bool_decide_eq_false_2 (is_Some (files_dict !! "files"))) in Hwrap
        by (rewrite Hnofiles; by intros [? ?]).
      simpl in Hwrap. injection Hwrap as ->. split.
      + eapply json_truthy_obj. by rewrite lookup_singleton_eq.
      + unfold export_files. rewrite lookup_singleton_eq. simpl.
        by rewrite export_content_wrapped. }
  destruct Hfiles as [-> ->]. simpl.
  rewrite bool_decide_eq_false_2 by done. by rewrite Hname.
Qed.

Lemma derive_repo_name_nonempty (repo_name : option string) (project_name : json)
    (project_id name : string) :
  derive_repo_name repo_name project_name project_id = Ok name → name ≠ EmptyString.
Proof.
  unfold derive_repo_name.
  destruct (opt_truthy repo_name) eqn:Hr.
  - destruct repo_name as [r|]; [|done]. simpl. intros [= <-].
    by apply truthy_nonempty.
  - destruct (json_truthy project_name); simpl; [|by intros [= <-]].
    destruct project_name as [| | | |s| |]; simpl; try done.
    destruct (PyStr.truthy (sanitize_repo_name s)) eqn:Hs; intros [= <-];
      [by apply truthy_nonempty|done].
Qed.

(** X15.  The export answers in one of two ways: with what GitHub answered
    to one push, made with the request's token, a non-empty repository name
    and a non-empty file map, and only when a database is configured; or
    with an error of its own, which is 503 exactly when no database is
    configured and otherwise 404 or 500. *)
Theorem export_to_github_outcome (project_id github_token : string)
    (repo_name : option string) :
  let r := export_to_github py_str create_github_repo w project_id github_token
             repo_name in
  (∃ name files, name ≠ EmptyString ∧ files ≠ ∅ ∧ is_configured w = true ∧
                 r = create_github_repo github_token name files) ∨
  (∃ status detail, r = HTTPException status detail ∧
     ((status = 503 ∧ is_configured w = false) ∨
      (status ∈ [404; 500] ∧ is_configured w = true))).
Proof.
  cbv zeta. unfold export_to_github, export_to_github_body.
  destruct (is_configured w); simpl; [|right; eauto 10].
  assert (H404 : ∀ detail, ∃ status detail0,
            @HTTPException string 404 detail = HTTPException status detail0 ∧
            ((status = 503 ∧ true = false) ∨ (status ∈ [404; 500] ∧ true = true))).
  { intros detail. exists 404, detail. split; [done|]. right. split; [set_solver|done]. }
  assert (H500 : ∀ detail, ∃ status detail0,
            @HTTPException string 500 detail = HTTPException status detail0 ∧
            ((status = 503 ∧ true = false) ∨ (status ∈ [404; 500] ∧ true = true))).
  { intros detail. exists 500, detail. split; [done|]. right. split; [set_solver|done]. }
  destruct (get_project_with_code w project_id) as [project|e]; simpl;
    [|right; apply H500].
  destruct (json_truthy project); simpl; [|right; apply H404].
  destruct (as_dict "get" project) as [d|e]; simpl; [|right; apply H500].
  destruct (json_truthy (default JNull (d !! "code_snapshot"))); simpl;
    [|right; apply H404].
  destruct (export_files py_str _) as [files|e]; simpl; [|right; apply H500].
  destruct (bool_decide_reflect (files = ∅)) as [|Hfiles]; simpl;
    [right; apply H404|].
  destruct (derive_repo_name _ _ _) as [name|e] eqn:Hname; simpl;
    [|right; apply H500].
  left. exists name, files. split; [by eapply derive_repo_name_nonempty|done].
Qed.

End ExportProperties.

(** X16.  The snapshot the save endpoint stores is in normal form: preparing
    it a second time changes nothing, a prepared snapshot that is not empty
    has a [files] entry, and a raw map of texts is stored as the map from
    each path to its text under [code]. *)
Theorem prepare_snapshot_normal_form (code_snapshot : option (gmap string json)) :
  prepare_snapshot (prepare_snapshot code_snapshot) = prepare_snapshot code_snapshot ∧
  (∀ d, prepare_snapshot code_snapshot = Some d → d ≠ ∅ → is_Some (d !! "files")) ∧
  (∀ texts : gmap string string,
     code_snapshot = Some (JStr <$> texts) → texts ≠ ∅ → texts !! "files" = None →
     prepare_snapshot code_snapshot
     = Some {[ "files" := code_files (JStr <$> texts) ]}).
Proof.
  destruct code_snapshot as [d|]; simpl; [|by repeat split].
  destruct (bool_decide_reflect (d = ∅)) as [->|Hne]; simpl.
  { split; [done|]. split; [by intros d [= <-]|].
    intros texts [= He] Hne. symmetry in He. by apply fmap_empty_inv in He. }
  destruct (bool_decide_reflect (is_Some (d !! "files"))) as [Hf|Hf]; simpl.
  - rewrite (bool_decide_eq_false_2 (d = ∅)), (bool_decide_eq_true_2 _ Hf) by done.
    split; [done|]. split; [by intros d' [= <-]|].
    intros texts [= ->] _ Hno. rewrite lookup_fmap, Hno in Hf. by destruct Hf.
  - rewrite (bool_decide_eq_true_2 (is_Some (_ !! "files")))
      by (by rewrite lookup_singleton_eq).
    rewrite andb_false_r. split; [done|]. split.
    + intros d' [= <-] _. by rewrite lookup_singleton_eq.
    + intros texts [= ->] _ _. unfold code_files. do 3 f_equal.
      rewrite <- !map_fmap_compose. by apply map_fmap_ext.
Qed.

Lemma prepare_snapshot_normal_form_witness :
  prepare_snapshot (Some (JStr <$> {[ "/App.tsx" := "export default 1" ]}))
  = Some {[ "files" := code_files (JStr <$> {[ "/App.tsx" := "export default 1" ]}) ]}.
Proof.
  refine (proj2 (proj2 (prepare_snapshot_normal_form _))
            {[ "/App.tsx" := "export default 1" ]} eq_refl _ eq_refl).
  apply map_non_empty_singleton.
Defined.

Lemma export_pushes_saved_files_witness :
  export_to_github (λ _, EmptyString) accepting_github (holding todo_row)
    "0123456789abcdef" "token" None
  = Reply "https://github.com/dev/Todo-App".
Proof.
  refine (export_pushes_saved_files (λ _, EmptyString) accepting_github
            (holding todo_row) "0123456789abcdef" "token" None _ todo_files _
            "Todo-App" eq_refl eq_refl eq_refl _ eq_refl _).
  - apply map_non_empty_singleton.
  - left. eexists. split; [reflexivity|]. reflexivity.
Defined.

(** ** Attachments *)

Section AttachmentProperties.

Context (read_pdf : string → result (list string)).

Lemma startswith_split (p s : string) :
  PyStr.startswith p s = true → s = p ++ Utils.skip (String.length p) s.
Proof.
  revert s. induction p as [|a p IH]; intros s; [done|].
  destruct s as [|b s]; simpl; [done|].
  destruct (Ascii.eqb_spec a b) as [->|]; [|done].
  intros H. f_equal. by apply IH.
Qed.

Lemma split_rest_spec (sep s r : string) :
  Utils.split_rest sep s = Some r → ∃ a, s = a ++ sep ++ r.
Proof.
  induction s as [|c s IH]; [done|].
  cbn [Utils.split_rest].
  destruct (PyStr.startswith sep (String c s)) eqn:Hs.
  - intros [= <-]. exists EmptyString. by apply startswith_split.
  - intros H. destruct (IH H) as [a ->]. by exists (String c a).
Qed.

Lemma split_head_spec (sep s : string) : ∃ b, s = Utils.split_head sep s ++ b.
Proof.
  induction s as [|c s [b IH]]; [by exists EmptyString|].
  cbn [Utils.split_head].
  destruct (PyStr.startswith sep (String c s)); [by eexists|].
  exists b. simpl. by rewrite <- IH.
Qed.

Lemma contains_split_rest (c : ascii) (sep s : string) :
  PyStr.contains (String c sep) s = true → is_Some (Utils.split_rest (String c sep) s).
Proof.
  induction s as [|b s IH]; [done|].
  cbn [PyStr.contains Utils.split_rest].
  destruct (PyStr.startswith (String c sep) (String b s)); [by eexists|].
  exact IH.
Qed.

Lemma base64_data_piece (data_url d : string) :
  Utils.base64_data data_url = Ok d → PyStr.occurs_in d data_url.
Proof.
  unfold Utils.base64_data, Utils.split_item_1.
  destruct (PyStr.contains _ _).
  - destruct (Utils.split_rest _ _) as [r|] eqn:Hr; [|done].
    intros [= <-]. apply split_rest_spec in Hr as [a ->].
    destruct (split_head_spec Utils.base64_marker r) as [b Hb].
    exists (a ++ Utils.base64_marker), b.
    rewrite string_app_assoc. by rewrite <- Hb.
  - intros [= <-]. exists EmptyString, EmptyString. simpl.
    by rewrite string_app_nil_r.
Qed.

Lemma no_marker_at (c : ascii) (s : string) :
  c ≠ ";"%char → PyStr.startswith Utils.base64_marker (String c s) = false.
Proof.
  intros Hc. unfold Utils.base64_marker. cbn [PyStr.startswith].
  destruct (Ascii.eqb_spec ";" c) as [<-|]; done.
Qed.

Lemma split_rest_marker (prefix t : string) :
  (";"%char ∉ chars prefix) →
  Utils.split_rest Utils.base64_marker (prefix ++ Utils.base64_marker ++ t) = Some t.
Proof.
  induction prefix as [|c p IH]; [done|].
  change (chars (String c p)) with (c :: chars p).
  rewrite not_elem_of_cons. intros [Hc Hp].
  change (String c p ++ Utils.base64_marker ++ t)
    with (String c (p ++ Utils.base64_marker ++ t)).
  cbn [Utils.split_rest]. rewrite no_marker_at by done. by apply IH.
Qed.

Lemma split_head_marker (payload t : string) :
  (";"%char ∉ chars payload) →
  t = EmptyString ∨ PyStr.startswith Utils.base64_marker t = true →
  Utils.split_head Utils.base64_marker (payload ++ t) = payload.
Proof.
  intros Hp Ht. induction payload as [|c p IH].
  - destruct Ht as [->|Ht]; [done|].
    destruct t as [|c t]; [done|].
    change (EmptyString ++ String c t) with (String c t).
    cbn [Utils.split_head]. by rewrite Ht.
  - revert Hp. change (chars (String c p)) with (c :: chars p).
    rewrite not_elem_of_cons. intros [Hc Hp].
    change (String c p ++ t) with (String c (p ++ t)).
    cbn [Utils.split_head]. rewrite no_marker_at by done. by rewrite IH.
Qed.

Lemma contains_no_marker (s : string) :
  (";"%char ∉ chars s) → PyStr.contains Utils.base64_marker s = false.
Proof.
  induction s as [|c s IH]; [done|].
  change (chars (String c s)) with (c :: chars s).
  rewrite not_elem_of_cons. intros [Hc Hs].
  cbn [PyStr.contains]. rewrite no_marker_at by done. by apply IH.
Qed.

Lemma base64_data_of_data_url (prefix payload : string) :
  (";"%char ∉ chars prefix) → (";"%char ∉ chars payload) →
  Utils.base64_data (prefix ++ Utils.base64_marker ++ payload) = Ok payload.
Proof.
  intros Hprefix Hpayload. unfold Utils.base64_data, Utils.split_item_1.
  rewrite occurs_in_contains by (by eexists _, _).
  rewrite split_rest_marker by done.
  rewrite <- (string_app_nil_r payload) at 1.
  rewrite split_head_marker; [done..|by left].
Qed.

Lemma base64_data_total (data_url : string) :
  ∃ d, Utils.base64_data data_url = Ok d.
Proof.
  unfold Utils.base64_data, Utils.split_item_1, Utils.base64_marker.
  destruct (PyStr.contains _ _) eqn:Hc; [|by eexists].
  apply contains_split_rest in Hc as [r ->]. by eexists.
Qed.

(** The shapes of a processed input. *)
Lemma process_multimodal_input_cases (user_prompt : string)
    (attachment : option Attachment) :
  let r := Utils.process_multimodal_input read_pdf user_prompt attachment in
  (attachment = None ∧ r = Utils.plain user_prompt) ∨
  (∃ a suffix, attachment = Some a ∧
     (att_type a = "pdf" ∨ att_mimeType a = "application/pdf" ∨
      (att_type a ≠ "image" ∧ PyStr.startswith "image/" (att_mimeType a) = false)) ∧
     r = Utils.plain (user_prompt ++ suffix)) ∨
  (∃ a b64, attachment = Some a ∧
            att_type a ≠ "pdf" ∧ att_mimeType a ≠ "application/pdf" ∧
            (att_type a = "image" ∨ PyStr.startswith "image/" (att_mimeType a) = true) ∧
            Utils.base64_data (att_data a) = Ok b64 ∧
            r = {| text := user_prompt ++ nl ++ nl ++ Utils.image_advice;
                   image_data := Some b64;
                   image_mime_type :=
                     Some (if PyStr.truthy (att_mimeType a) then att_mimeType a
                           else "image/png") |}).
Proof.
  cbv zeta. unfold Utils.process_multimodal_input.
  destruct attachment as [a|]; [|by left].
  right.
  destruct (String.eqb_spec (att_type a) "pdf") as [Hpdf|Hpdf];
    destruct (String.eqb_spec (att_mimeType a) "application/pdf") as [Hmime|Hmime];
    cbn [orb].
  1-3: left; unfold Utils._process_pdf_attachment; destruct (_ ≫= _);
       eexists a, _; (split; [done|]); (split; [|done]); tauto.
  destruct (String.eqb_spec (att_type a) "image") as [Himage|Himage]; cbn [orb].
  2: destruct (PyStr.startswith "image/" (att_mimeType a)) eqn:Hstart.
  3: { left. exists a, EmptyString. split; [done|]. split; [tauto|].
       by rewrite string_app_nil_r. }
  all: right; unfold Utils._process_image_attachment;
       destruct (base64_data_total (att_data a)) as [b64 Hb64]; rewrite Hb64;
       exists a, b64; repeat (split; [done|]); split; [tauto|done].
Qed.

(** X17.  Whatever the attachment and whatever happens while it is read,
    the processed text begins with the user's prompt.  Image data and its
    MIME type come together, the MIME type is never empty, and image data is
    only given for an attachment that is an image and not a PDF, and is then
    a contiguous piece of the attachment's data URL. *)
Theorem process_multimodal_input_keeps_prompt (user_prompt : string)
    (attachment : option Attachment) :
  let r := Utils.process_multimodal_input read_pdf user_prompt attachment in
  (∃ suffix, text r = user_prompt ++ suffix) ∧
  (image_data r = None ↔ image_mime_type r = None) ∧
  (∀ m, image_mime_type r = Some m → m ≠ EmptyString) ∧
  (∀ d, image_data r = Some d →
        ∃ a, attachment = Some a ∧
             att_type a ≠ "pdf" ∧ att_mimeType a ≠ "application/pdf" ∧
             (att_type a = "image" ∨ PyStr.startswith "image/" (att_mimeType a) = true) ∧
             PyStr.occurs_in d (att_data a)).
Proof.
  cbv zeta.
  destruct (process_multimodal_input_cases user_prompt attachment)
    as [[-> ->]|[(a & suffix & -> & _ & ->)
                |(a & b64 & -> & Hpdf & Hmime & Himage & Hb64 & ->)]];
    simpl.
  - split; [exists EmptyString; by rewrite string_app_nil_r|]. by repeat split.
  - split; [by eexists|]. by repeat split.
  - split; [by eexists|]. split; [done|]. split.
    + intros m [= <-]. by destruct (att_mimeType a).
    + intros d [= <-]. exists a. repeat (split; [done|]).
      by apply base64_data_piece.
Qed.

(** X18.  Reading the base64 text of a data URL never fails.  The text
    after the marker [;base64,] is returned whole when neither it nor what
    precedes the marker has a semicolon; anything from a second marker on is
    dropped; and a text without a semicolon is returned as it is. *)
Theorem base64_data_extracts_payload (prefix payload rest : string) :
  (";"%char ∉ chars prefix) → (";"%char ∉ chars payload) →
  Utils.base64_data (prefix ++ Utils.base64_marker ++ payload) = Ok payload ∧
  Utils.base64_data
    (prefix ++ Utils.base64_marker ++ payload ++ Utils.base64_marker ++ rest)
  = Ok payload ∧
  Utils.base64_data payload = Ok payload ∧
  (∀ data_url, ∃ d, Utils.base64_data data_url = Ok d).
Proof.
  intros Hprefix Hpayload.
  split; [by apply base64_data_of_data_url|].
  split; [|split; [|apply base64_data_total]];
    unfold Utils.base64_data, Utils.split_item_1.
  - rewrite occurs_in_contains by (by eexists _, _).
    rewrite split_rest_marker by done.
    rewrite split_head_marker; [done..|]. right. apply startswith_app.
  - by rewrite contains_no_marker.
Qed.

(** X19.  With [src/utils.py] reading the attachment, the streaming
    generator first announces the planning stage and then calls the planner.
    The text the planner gets begins with the user's prompt, and is the
    prompt itself without an attachment.  The planner gets no image without
    an attachment or for a PDF; an image it gets has non-empty data taken
    from the attachment's data URL and a non-empty MIME type; and for an
    image attachment whose data URL is a prefix, the marker and a non-empty
    payload, without semicolons, it gets that payload, with [image/png] when
    the attachment names no MIME type. *)
Theorem generate_stream_reads_attachment (w : World) (prompt0 : string)
    (attachment : option Attachment) (user_id project_id image_asset_url : option string) :
  ∃ t image rest,
    log (generate_stream (with_utils read_pdf w) prompt0 attachment user_id
           project_id image_asset_url)
    = Yield {| ev_stage := planning;
               ev_fields := message "Constructing a Master Plan...." |}
      :: Invoke planner_llm (planner_prompt t image_asset_url image) :: rest ∧
    (∃ suffix, t = prompt0 ++ suffix) ∧
    (attachment = None → t = prompt0 ∧ image = None) ∧
    (∀ a, attachment = Some a →
          att_type a = "pdf" ∨ att_mimeType a = "application/pdf" → image = None) ∧
    (∀ d m, image = Some (d, m) →
            d ≠ EmptyString ∧ m ≠ EmptyString ∧
            ∃ a, attachment = Some a ∧ PyStr.occurs_in d (att_data a)) ∧
    (∀ a prefix payload,
       attachment = Some a → att_type a = "image" →
       att_mimeType a ≠ "application/pdf" →
       att_data a = prefix ++ Utils.base64_marker ++ payload →
       (";"%char ∉ chars prefix) → (";"%char ∉ chars payload) →
       payload ≠ EmptyString →
       image = Some (payload, if PyStr.truthy (att_mimeType a) then att_mimeType a
                              else "image/png")).
Proof.
  unfold generate_stream. rewrite log_try_except.
  unfold generate_stream_body at 1.
  change (process_multimodal_input (with_utils read_pdf w) prompt0 attachment)
    with (Ok (Utils.process_multimodal_input read_pdf prompt0 attachment)).
  rewrite log_bind. change (log (lift (Ok ?r))) with (@nil effect).
  change (outcome (lift (Ok ?r))) with (Ok r). cbv beta iota.
  rewrite app_nil_l, log_bind.
  change (log (yield ?s ?f)) with [Yield {| ev_stage := s; ev_fields := f |}].
  change (outcome (yield ?s ?f)) with (Ok tt). cbv beta iota.
  rewrite log_bind.
  destruct (process_multimodal_input_cases prompt0 attachment)
    as [[-> ->]|[(a & suffix & -> & Hkind & ->)
                |(a & b64 & -> & Hpdf & Hmime & Himage & Hb64 & ->)]].
  - cbn [Utils.plain text image_data image_mime_type opt_truthy].
    eexists prompt0, None, _. split; [reflexivity|].
    split; [exists EmptyString; by rewrite string_app_nil_r|]. by repeat split.
  - cbn [Utils.plain text image_data image_mime_type opt_truthy].
    eexists (prompt0 ++ suffix), None, _. split; [reflexivity|].
    split; [by eexists|]. split; [done|]. split; [done|]. split; [done|].
    intros a' prefix payload [= <-] Ha Hm _ _ _ _.
    destruct Hkind as [H|[H|[H _]]]; [|done..]. by rewrite Ha in H.
  - cbn [text image_data image_mime_type].
    assert (Hm : (if opt_truthy (Some (if PyStr.truthy (att_mimeType a)
                                        then att_mimeType a else "image/png"))
                  then default EmptyString
                         (Some (if PyStr.truthy (att_mimeType a)
                                then att_mimeType a else "image/png"))
                  else "image/png")
                 = (if PyStr.truthy (att_mimeType a) then att_mimeType a
                    else "image/png")) by (by destruct (att_mimeType a)).
    rewrite Hm. clear Hm.
    destruct b64 as [|c b64]; cbn [opt_truthy PyStr.truthy default].
    + eexists _, None, _. split; [reflexivity|].
      split; [by eexists|]. split; [done|]. split; [done|]. split; [done|].
      intros a' prefix payload [= <-] _ _ Hdata Hprefix Hpayload Hne.
      rewrite Hdata, base64_data_of_data_url in Hb64 by done. congruence.
    + eexists _, (Some _), _. split; [reflexivity|].
      split; [by eexists|]. split; [done|]. split.
      { intros a' [= <-] [H|H]; done. }
      split.
      { intros d m [= <- <-]. split; [done|].
        split; [by destruct (att_mimeType a)|].
        exists a. split; [done|]. by apply base64_data_piece. }
      intros a' prefix payload [= <-] _ _ Hdata Hprefix Hpayload Hne.
      rewrite Hdata, base64_data_of_data_url in Hb64 by done.
      by injection Hb64 as ->.
Qed.

End AttachmentProperties.

Lemma process_multimodal_input_keeps_prompt_witness :
  let r := Utils.process_multimodal_input (λ _, Ok [])
             "Build this" (Some {| att_name := "shot.png"; att_type := "image";
                                   att_data := "data:image/png;base64,iVBORw0KGgo=";
                                   att_mimeType := EmptyString |}) in
  image_data r = Some "iVBORw0KGgo=" ∧ image_mime_type r = Some "image/png" ∧
  PyStr.occurs_in "iVBORw0KGgo=" "data:image/png;base64,iVBORw0KGgo=".
Proof.
  cbv zeta. split; [reflexivity|]. split; [reflexivity|].
  destruct (proj2 (proj2 (proj2 (process_multimodal_input_keeps_prompt (λ _, Ok [])
              "Build this" (Some {| att_name := "shot.png"; att_type := "image";
                                    att_data := "data:image/png;base64,iVBORw0KGgo=";
                                    att_mimeType := EmptyString |}))))
              "iVBORw0KGgo=" eq_refl) as (a & [= <-] & _ & _ & _ & H).
  exact H.
Defined.

Lemma base64_data_extracts_payload_witness :
  Utils.base64_data "data:image/png;base64,iVBORw0KGgo=" = Ok "iVBORw0KGgo=" ∧
  Utils.base64_data "data:image/png;base64,iVBORw0KGgo=;base64,AAAA" = Ok "iVBORw0KGgo=".
Proof.
  assert (H1 : ";"%char ∉ chars "data:image/png")
    by (apply (bool_decide_unpack _); vm_compute; exact I).
  assert (H2 : ";"%char ∉ chars "iVBORw0KGgo=")
    by (apply (bool_decide_unpack _); vm_compute; exact I).
  destruct (base64_data_extracts_payload "data:image/png" "iVBORw0KGgo=" "AAAA" H1 H2)
    as (Ha & Hb & _).
  split; [exact Ha|exact Hb].
Defined.

Lemma generate_stream_reads_attachment_witness :
  ∃ t rest,
    log (generate_stream (with_utils (λ _, Ok []) (scripted calm)) "Build this"
           (Some {| att_name := "shot.png"; att_type := "image";
                    att_data := "data:image/png;base64,iVBORw0KGgo=";
                    att_mimeType := EmptyString |}) None None None)
    = Yield {| ev_stage := planning;
               ev_fields := message "Constructing a Master Plan...." |}
      :: Invoke planner_llm
           (planner_prompt t None (Some ("iVBORw0KGgo=", "image/png"))) :: rest.
Proof.
  destruct (generate_stream_reads_attachment (λ _, Ok []) (scripted calm) "Build this"
              (Some {| att_name := "shot.png"; att_type := "image";
                       att_data := "data:image/png;base64,iVBORw0KGgo=";
                       att_mimeType := EmptyString |}) None None None)
    as (t & image & rest & Hlog & _ & _ & _ & _ & Himage).
  exists t, rest. rewrite Hlog.
  rewrite (Himage _ "data:image/png" "iVBORw0KGgo=" eq_refl eq_refl); try done.
  all: apply (bool_decide_unpack _); vm_compute; exact I.
Defined.
